(** * Language resources of an agent: example utterances and responses

    A shallow embedding of [intents/language/intent_language.py] (and of
    the older [dialogflow_agents/language.py]): the tokenizer of annotated
    example utterances, the response parsers, and the loader of an intent's
    language document; and of the parts of [intents/model/intent.py] they
    rest on: the names and system events of intents, the parameter
    schema, the creation of an intent class and its fulfillment messages.

    Python values are modelled as follows.
    - [str] is [string]; a character is a code point, classified by [\w]
      with the ASCII rule, and by a parameter beyond ASCII.
    - A decoded YAML value is a [yaml] tree; a mapping keeps the order of
      its entries.
    - A raised exception is a value [exn] (class, message, chained cause),
      and a computation that may raise returns a [res]. *)

From Stdlib Require Import String Ascii List Arith Lia Bool.
From stdpp Require Import gmap strings.

Set Warnings "-register-all,-notation-for-abbreviation".

(** ** Decoded YAML values *)

(** What [yaml.load] returns. [YOther] stands for the remaining scalars
    (floats, dates, ...), of which only the truth value is ever observed. *)
Inductive yaml : Type :=
| YNull
| YBool (b : bool)
| YInt (z : Z)
| YOther (truthy : bool)
| YStr (s : string)
| YList (l : list yaml)
| YDict (d : list (yaml * yaml)).

(** ** Exceptions *)

Inductive exn_class : Type :=
| ValueError
| AssertionError
| NotImplementedError
| TypeError
| AttributeError
| KeyError
| RuntimeError.

(** An f-string is kept as the list of its parts: interpolated values are
    stored as they are, not formatted. *)
Inductive part : Type :=
| Lit (s : string)
| Str (s : string)
| Num (n : nat)
| Val (v : yaml)
| Keys (ks : list yaml)
| Path (components : list string).

(** [raise cls(msg) from cause]. *)
Inductive exn : Type :=
| Exn (cls : exn_class) (msg : list part) (cause : option exn).

Definition exn_cls (e : exn) : exn_class := let 'Exn c _ _ := e in c.
Definition exn_msg (e : exn) : list part := let 'Exn _ m _ := e in m.
Definition exn_cause (e : exn) : option exn := let 'Exn _ _ c := e in c.

Inductive res (A : Type) : Type :=
| Ok (a : A)
| Raise (e : exn).
Arguments Ok {A} a.
Arguments Raise {A} e.

Definition bind {A B : Type} (r : res A) (k : A -> res B) : res B :=
  match r with
  | Ok a => k a
  | Raise e => Raise e
  end.

Notation "'let*' x ':=' r 'in' k" := (bind r (fun x => k))
  (at level 10, x pattern, r at level 200, k at level 200).

(** [[f(x) for x in l]]: the first exception aborts the comprehension. *)
Fixpoint map_res {A B : Type} (f : A -> res B) (l : list A) : res (list B) :=
  match l with
  | [] => Ok []
  | x :: l' => let* y := f x in let* ys := map_res f l' in Ok (y :: ys)
  end.

(** ** The parameter schema of an intent *)

(** An entity class, known by its name. *)
Record EntityClass : Type := { entity_name : string }.

Record IntentParameterMetadata : Type := {
  name : string;
  entity_cls : EntityClass;
  is_list : bool;
  required : bool;
  default : yaml
}.

(** An intent class, as far as the language resources read it: its [name]
    and the result of [parameter_schema()]. *)
Record Intent : Type := {
  intent_name : string;
  parameter_schema : gmap string IntentParameterMetadata
}.

(** ** Example utterances *)

Inductive UtteranceChunk : Type :=
| TextUtteranceChunk (text : string)
| EntityUtteranceChunk (entity_cls : EntityClass)
                       (parameter_name parameter_value : string).

(** An [ExampleUtterance] is a [str] (here [example]) that remembers the
    intent it belongs to. *)
Record ExampleUtterance : Type := {
  example : string;
  _intent : Intent
}.

(** The chunks of the older Dialogflow format ([df.UsersaysChunk]). *)
Inductive UsersaysChunk : Type :=
| UsersaysTextChunk (text : string) (userDefined : bool)
| UsersaysEntityChunk (text alias meta : string) (userDefined : bool).

(** [s[i:j]] and [s[i:]] for indices [0 <= i], [0 <= j]. *)
Definition slice (s : string) (i j : nat) : string := substring i (j - i) s.
Definition slice_from (s : string) (i : nat) : string :=
  substring i (String.length s - i) s.

(** The longest prefix of [s] whose characters satisfy [p], and the rest. *)
Fixpoint span (p : ascii -> bool) (s : string) : string * string :=
  match s with
  | EmptyString => (EmptyString, EmptyString)
  | String c s' =>
      if p c then let (a, b) := span p s' in (String c a, b)
      else (EmptyString, s)
  end.

Definition is_ascii_word (c : ascii) : bool :=
  let n := nat_of_ascii c in
  ((48 <=? n) && (n <=? 57)) || ((65 <=? n) && (n <=? 90))
  || ((97 <=? n) && (n <=? 122)) || (n =? 95).

Definition not_rbrace (c : ascii) : bool := negb (Ascii.eqb c "}").
Definition not_dollar (c : ascii) : bool := negb (Ascii.eqb c "$").

Fixpoint all_chars (p : ascii -> bool) (s : string) : bool :=
  match s with
  | EmptyString => true
  | String c s' => p c && all_chars p s'
  end.

(** The annotation [$pname{pvalue}]. *)
Definition annotation (pname pvalue : string) : string :=
  "$" +:+ pname +:+ "{" +:+ pvalue +:+ "}".

(** The annotated string a chunk stands for: the markup is put back
    around the value of an entity chunk. *)
Definition chunk_source (c : UtteranceChunk) : string :=
  match c with
  | TextUtteranceChunk text => text
  | EntityUtteranceChunk _ pname pvalue => annotation pname pvalue
  end.

Fixpoint reconstruct (cs : list UtteranceChunk) : string :=
  match cs with
  | [] => EmptyString
  | c :: cs' => chunk_source c +:+ reconstruct cs'
  end.

(** One match of the pattern: [m.span()] and [m.groupdict()]. *)
Record re_match : Type := {
  span_start : nat;
  span_end : nat;
  group_name : string;
  group_value : string
}.

Section Tokenizer.

(** [\w] on the code points from 128 on: the alphanumerics of the
    Unicode database. *)
Variable nonascii_word : ascii -> bool.

Definition is_word (c : ascii) : bool :=
  if nat_of_ascii c <? 128 then is_ascii_word c else nonascii_word c.

(** [RE_EXAMPLE_PARAMETERS], anchored at the head of [s]:
    [\$(?P<parameter_name>[\w]+)\{(?P<parameter_value>[^\}]+)\}].
    Returns the two groups and what follows the match. Both repetitions
    are greedy; giving back characters can never help, since the
    character after a shorter run belongs to the class and so is not the
    delimiter (see [RE_EXAMPLE_PARAMETERS_intro] and
    [RE_EXAMPLE_PARAMETERS_elim]). *)
Definition RE_EXAMPLE_PARAMETERS (s : string)
  : option (string * string * string) :=
  match s with
  | EmptyString => None
  | String c s1 =>
      if Ascii.eqb c "$" then
        match span is_word s1 with
        | (String n0 n, String b s2) =>
            if Ascii.eqb b "{" then
              match span not_rbrace s2 with
              | (String v0 v, String e rest) =>
                  if Ascii.eqb e "}"
                  then Some (String n0 n, String v0 v, rest)
                  else None
              | _ => None
              end
            else None
        | _ => None
        end
      else None
  end.

(** [pname] and [pvalue] can be the two groups of a match: a non-empty
    run of word characters, and a non-empty run without closing brace. *)
Definition groups_ok (pname pvalue : string) : Prop :=
  pname <> EmptyString /\ all_chars is_word pname = true /\
  pvalue <> EmptyString /\ all_chars not_rbrace pvalue = true.

(** [finditer] from position [pos], where [s] is the text from [pos]
    on: leftmost match first, the search resuming where it ended.
    [fuel] bounds the number of search positions. *)
Fixpoint finditer_from (fuel pos : nat) (s : string) : list re_match :=
  match fuel with
  | 0 => []
  | S fuel' =>
      match s with
      | EmptyString => []
      | String _ s' =>
          match RE_EXAMPLE_PARAMETERS s with
          | Some (pname, pvalue, rest) =>
              let e := pos + (String.length s - String.length rest) in
              {| span_start := pos; span_end := e;
                 group_name := pname; group_value := pvalue |}
                :: finditer_from fuel' e rest
          | None => finditer_from fuel' (S pos) s'
          end
      end
  end.

Definition finditer (s : string) : list re_match :=
  finditer_from (String.length s) 0 s.

Definition unknown_parameter (self pname iname : string) : exn :=
  Exn ValueError
      [Lit "Example '"; Str self; Lit "' references parameter $";
       Str pname; Lit ", but intent "; Str iname;
       Lit " does not define such parameter."] None.

(** The body of the [for m in ...finditer(self)] loop of [chunks],
    threading [result] and [last_end]. *)
Fixpoint chunks_loop (self : string) (intent : Intent) (ms : list re_match)
         (last_end : nat) (result : list UtteranceChunk)
  : res (list UtteranceChunk * nat) :=
  match ms with
  | [] => Ok (result, last_end)
  | m :: ms' =>
      let result :=
        if 0 <? span_start m
        then result ++ [TextUtteranceChunk (slice self last_end (span_start m))]
        else result in
      match parameter_schema intent !! group_name m with
      | None =>
          Raise (unknown_parameter self (group_name m) (intent_name intent))
      | Some meta =>
          chunks_loop self intent ms' (span_end m)
            (result ++ [EntityUtteranceChunk (entity_cls meta)
                                             (group_name m) (group_value m)])
      end
  end.

(** [ExampleUtterance.chunks]. *)
Definition chunks (self : ExampleUtterance) : res (list UtteranceChunk) :=
  let* (result, last_end) :=
    chunks_loop (example self) (_intent self) (finditer (example self)) 0 [] in
  let last_chunk := slice_from (example self) last_end in
  Ok (match last_chunk with
      | EmptyString => result
      | String _ _ => result ++ [TextUtteranceChunk last_chunk]
      end).

(** [ExampleUtterance(example, intent)]: [__new__] builds the string,
    [__init__] stores the intent and calls [self.chunks()], whose
    result is dropped and whose exception, if any, escapes. *)
Definition ExampleUtterance_new (example : string) (intent : Intent)
  : res ExampleUtterance :=
  let self := {| example := example; _intent := intent |} in
  let* _ := chunks self in
  Ok self.

(** [df_chunks] of [dialogflow_agents/language.py], the same loop over
    the older chunk types. The intent's [__dataclass_fields__] are read
    through [parameter_schema]: the type of a field is the entity class
    of its entry, whose Dialogflow entity name is [entity_name], unless
    the entry is a list; then the type is an alias of [typing], which
    has no [df_entity]. *)
Fixpoint df_chunks_loop (self : string) (intent : Intent)
         (ms : list re_match) (last_end : nat) (result : list UsersaysChunk)
  : res (list UsersaysChunk * nat) :=
  match ms with
  | [] => Ok (result, last_end)
  | m :: ms' =>
      let result :=
        if 0 <? span_start m
        then result
               ++ [UsersaysTextChunk (slice self last_end (span_start m)) true]
        else result in
      match parameter_schema intent !! group_name m with
      | None =>
          Raise (unknown_parameter self (group_name m) (intent_name intent))
      | Some field =>
          if is_list field then Raise (Exn AttributeError [] None)
          else
            let meta := String "@" (entity_name (entity_cls field)) in
            df_chunks_loop self intent ms' (span_end m)
              (result ++ [UsersaysEntityChunk (group_value m) (group_name m)
                                              meta true])
      end
  end.

Definition df_chunks (self : ExampleUtterance) : res (list UsersaysChunk) :=
  let* (result, last_end) :=
    df_chunks_loop (example self) (_intent self)
                   (finditer (example self)) 0 [] in
  let last_chunk := slice_from (example self) last_end in
  Ok (match last_chunk with
      | EmptyString => result
      | String _ _ => result ++ [UsersaysTextChunk last_chunk true]
      end).

End Tokenizer.

(** ** Operations of Python on decoded values *)

(** Errors raised by the interpreter itself (a missing attribute, a value
    that has no [len], ...) carry no message here. *)
Definition interpreter_error (cls : exn_class) : exn := Exn cls [] None.

Definition is_empty (s : string) : bool :=
  match s with EmptyString => true | String _ _ => false end.

(** [bool(v)], as tested by [if not v]. *)
Definition truthy (v : yaml) : bool :=
  match v with
  | YNull => false
  | YBool b => b
  | YInt z => negb (Z.eqb z 0)
  | YOther t => t
  | YStr s => negb (is_empty s)
  | YList l => match l with [] => false | _ :: _ => true end
  | YDict d => match d with [] => false | _ :: _ => true end
  end.

(** [len(v)]. *)
Definition py_len (v : yaml) : res nat :=
  match v with
  | YStr s => Ok (String.length s)
  | YList l => Ok (length l)
  | YDict d => Ok (length d)
  | _ => Raise (interpreter_error TypeError)
  end.

(** The values [for x in v] goes through: the items of a list, the
    characters of a string, the keys of a mapping. *)
Definition py_iter (v : yaml) : res (list yaml) :=
  match v with
  | YList l => Ok l
  | YStr s =>
      Ok (map (fun c => YStr (String c EmptyString)) (list_ascii_of_string s))
  | YDict d => Ok (map fst d)
  | _ => Raise (interpreter_error TypeError)
  end.

(** [v == s] for a string literal [s]. *)
Definition is_str (s : string) (v : yaml) : bool :=
  match v with
  | YStr s' => String.eqb s s'
  | _ => false
  end.

(** [d.get(k)] for a string literal [k]; the keys of a mapping are
    distinct. *)
Fixpoint dict_get (k : string) (d : list (yaml * yaml)) : option yaml :=
  match d with
  | [] => None
  | (k', v) :: d' => if is_str k k' then Some v else dict_get k d'
  end.

(** [d[k] = v] on a dictionary kept in insertion order. *)
Fixpoint dict_set {K V : Type} (eqb : K -> K -> bool) (k : K) (v : V)
         (d : list (K * V)) : list (K * V) :=
  match d with
  | [] => [(k, v)]
  | (k', v') :: d' =>
      if eqb k k' then (k, v) :: d' else (k', v') :: dict_set eqb k v d'
  end.

(** A dataclass constructor called with the entries of [data] as
    keyword arguments: every key must be the name of a field. *)
Definition check_kwargs (fields : list string) (data : list (yaml * yaml))
  : res unit :=
  if forallb (fun kv => existsb (fun f => is_str f (fst kv)) fields) data
  then Ok tt
  else Raise (interpreter_error TypeError).

(** A required keyword argument. *)
Definition required_kwarg (k : string) (data : list (yaml * yaml)) : res yaml :=
  match dict_get k data with
  | Some v => Ok v
  | None => Raise (interpreter_error TypeError)
  end.

(** A keyword argument whose default is [None]. *)
Definition optional_kwarg (k : string) (data : list (yaml * yaml)) : yaml :=
  match dict_get k data with
  | Some v => v
  | None => YNull
  end.

(** ** Responses *)

Inductive IntentResponseGroup : Type := DEFAULT | RICH.

Definition IntentResponseGroup_eqb (a b : IntentResponseGroup) : bool :=
  match a, b with
  | DEFAULT, DEFAULT | RICH, RICH => true
  | _, _ => false
  end.

(** [IntentResponseGroup(v)]: the member whose value is [v]. *)
Definition IntentResponseGroup_of_value (v : yaml) : res IntentResponseGroup :=
  if is_str "default" v then Ok DEFAULT
  else if is_str "rich" v then Ok RICH
  else Raise (interpreter_error ValueError).

(** The response dataclasses. Fields hold the decoded values as they
    come: no constructor checks the type of what it is given. *)
Inductive IntentResponse : Type :=
| TextIntentResponse (choices : list yaml)
| QuickRepliesIntentResponse (replies : list yaml)
| ImageIntentResponse (url title : yaml)
| CardIntentResponse (title subtitle image link : yaml)
| CustomPayloadIntentResponse (name : yaml) (payload : list (yaml * yaml)).

Definition TextIntentResponse_from_yaml (data : yaml) : res IntentResponse :=
  match data with
  | YStr _ => Ok (TextIntentResponse [data])
  | YList l => Ok (TextIntentResponse l)
  | _ => Raise (Exn AssertionError [] None)
  end.

Definition quick_reply_too_long (rep : yaml) (n : nat) : exn :=
  Exn ValueError
      [Lit "Quick Replies must be shorter than 20 chars. Quick reply '";
       Val rep; Lit "' is "; Num n; Lit " chars long."] None.

(** [QuickRepliesIntentResponse.__post_init__]. *)
Fixpoint QuickRepliesIntentResponse_post_init (replies : list yaml) : res unit :=
  match replies with
  | [] => Ok tt
  | rep :: replies' =>
      let* n := py_len rep in
      if 20 <? n then Raise (quick_reply_too_long rep n)
      else QuickRepliesIntentResponse_post_init replies'
  end.

(** [QuickRepliesIntentResponse(replies)]. *)
Definition QuickRepliesIntentResponse_new (replies : list yaml)
  : res IntentResponse :=
  let* _ := QuickRepliesIntentResponse_post_init replies in
  Ok (QuickRepliesIntentResponse replies).

Definition QuickRepliesIntentResponse_from_yaml (data : yaml)
  : res IntentResponse :=
  match data with
  | YStr _ => QuickRepliesIntentResponse_new [data]
  | YList l => QuickRepliesIntentResponse_new l
  | _ => Raise (Exn AssertionError [] None)
  end.

Definition ImageIntentResponse_from_yaml (data : yaml) : res IntentResponse :=
  match data with
  | YStr _ => Ok (ImageIntentResponse data YNull)
  | YDict d =>
      let* _ := check_kwargs ["url"; "title"] d in
      let* url := required_kwarg "url" d in
      Ok (ImageIntentResponse url (optional_kwarg "title" d))
  | _ => Raise (Exn AssertionError [] None)
  end.

(** [CardIntentResponse] inherits [IntentResponse.from_yaml], which
    passes the entries of [data] as keyword arguments. *)
Definition CardIntentResponse_from_yaml (data : yaml) : res IntentResponse :=
  match data with
  | YDict d =>
      let* _ := check_kwargs ["title"; "subtitle"; "image"; "link"] d in
      let* title := required_kwarg "title" d in
      Ok (CardIntentResponse title (optional_kwarg "subtitle" d)
                             (optional_kwarg "image" d) (optional_kwarg "link" d))
  | _ => Raise (interpreter_error TypeError)
  end.

(** The double quote character, for the messages that show one. *)
Definition dq : string := String (ascii_of_nat 34) EmptyString.

Definition custom_not_a_dict (data : yaml) : exn :=
  Exn ValueError
      [Lit ("A custom payload is expected to be a dict in the form "
            +:+ "'payload_name: {" +:+ dq +:+ "foo" +:+ dq +:+ ": "
            +:+ dq +:+ "bar" +:+ dq +:+ "}. Found: ");
       Val data] None.

Definition custom_key_count (d : list (yaml * yaml)) : exn :=
  Exn ValueError
      [Lit ("A custom payload is expected to contain a single key "
            +:+ "representing the payload name, mapping to its value "
            +:+ "(e.g. 'location: {" +:+ dq +:+ "latitude" +:+ dq
            +:+ ": 42, ...}'). Found ");
       Num (length d); Lit " keys: "; Keys (map fst d)] None.

Definition custom_not_a_payload (payload_name payload_content : yaml) : exn :=
  Exn ValueError
      [Lit "Custom payloads are expected to be dictionaries. ";
       Val payload_name; Lit " has value: "; Val payload_content] None.

Definition CustomPayloadIntentResponse_from_yaml (data : yaml)
  : res IntentResponse :=
  match data with
  | YDict d =>
      match d with
      | [(payload_name, payload_content)] =>
          match payload_content with
          | YDict content => Ok (CustomPayloadIntentResponse payload_name content)
          | _ => Raise (custom_not_a_payload payload_name payload_content)
          end
      | _ => Raise (custom_key_count d)
      end
  | _ => Raise (custom_not_a_dict data)
  end.

Definition unsupported_group (response_group : yaml) (exc : exn) : exn :=
  Exn NotImplementedError
      [Lit "Unsupported Response Group '"; Val response_group;
       Lit ("' in 'responses'. Currently, only 'default' and 'rich' "
            +:+ "are supported")] (Some exc).

Definition not_allowed_in_default (r_type : yaml) : exn :=
  Exn ValueError
      [Lit "Message type "; Val r_type;
       Lit (" found in response group 'default'. Only 'text' type is "
            +:+ "allowed in 'default': please define the additional "
            +:+ "'rich' response group to use rich responses.")] None.

Definition unsupported_type (r_type : yaml) : exn :=
  Exn NotImplementedError
      [Lit "Unsupported response type '"; Val r_type;
       Lit "'. Currently, only 'text' is supported"] None.

(** The body of [for r_type, r_data in r.items()] in [_build_responses]:
    the response that is appended to [result[response_group]]. *)
Definition build_response (response_group : IntentResponseGroup)
           (r_type r_data : yaml) : res IntentResponse :=
  if IntentResponseGroup_eqb response_group DEFAULT
     && negb (is_str "text" r_type)
  then Raise (not_allowed_in_default r_type)
  else if is_str "text" r_type then TextIntentResponse_from_yaml r_data
  else if is_str "quick_replies" r_type
       then QuickRepliesIntentResponse_from_yaml r_data
  else if is_str "image" r_type then ImageIntentResponse_from_yaml r_data
  else if is_str "card" r_type then CardIntentResponse_from_yaml r_data
  else if is_str "custom" r_type
       then CustomPayloadIntentResponse_from_yaml r_data
  else Raise (unsupported_type r_type).

(** The body of [for r in responses]: [assert len(r) == 1], then the
    loop over [r.items()]. *)
Definition build_item (response_group : IntentResponseGroup) (r : yaml)
  : res (list IntentResponse) :=
  let* n := py_len r in
  if negb (n =? 1) then Raise (Exn AssertionError [] None)
  else match r with
       | YDict d =>
           map_res (fun kv => build_response response_group (fst kv) (snd kv)) d
       | _ => Raise (interpreter_error AttributeError)
       end.

Definition responses_dict : Type :=
  list (IntentResponseGroup * list IntentResponse).

(** The loop of [_build_responses] over [responses_data.items()]. *)
Fixpoint _build_responses_loop (items : list (yaml * yaml))
         (result : responses_dict) : res responses_dict :=
  match items with
  | [] => Ok result
  | (response_group, responses) :: items' =>
      let* group :=
        match IntentResponseGroup_of_value response_group with
        | Ok g => Ok g
        | Raise exc => Raise (unsupported_group response_group exc)
        end in
      let* rs := py_iter responses in
      let* built := map_res (build_item group) rs in
      _build_responses_loop items'
        (dict_set IntentResponseGroup_eqb group (concat built) result)
  end.

Definition _build_responses (responses_data : yaml) : res responses_dict :=
  match responses_data with
  | YDict d => _build_responses_loop d []
  | _ => Raise (interpreter_error AttributeError)
  end.

(** ** The language data of an intent *)

(** The [responses] field is declared as a dictionary; one return
    statement of the loader passes a list instead. *)
Inductive responses_value : Type :=
| ResponsesList (l : list IntentResponse)
| ResponsesDict (d : responses_dict).

Record IntentLanguageData : Type := {
  example_utterances : list ExampleUtterance;
  slot_filling_prompts : yaml;
  responses : responses_value
}.

(** A member of the [LanguageCode] enumeration, known by its [value]. *)
Record LanguageCode : Type := { value : string }.

Definition LanguageCode_eqb (a b : LanguageCode) : bool :=
  String.eqb (value a) (value b).

(** The [language_code] argument: [None], a [str] (falsy when empty), or a
    member (never falsy). *)
Inductive language_arg : Type :=
| NoLanguage
| LanguageStr (s : string)
| LanguageMember (c : LanguageCode).

(** What the loader reads of an agent class and of the files around it:
    the result of [agent_language_folder(agent_cls)], [agent_cls.languages],
    and, for a language code value and an intent name, what is found at
    [<language folder>/<code>/<intent name>.yaml]: [None] when there is no
    such file, otherwise the outcome of reading and decoding it. *)
Record Agent : Type := {
  agent_language_folder : res string;
  languages : list LanguageCode;
  language_file : string -> string -> option (res yaml)
}.

(** What [intent_language_data] returns: a dictionary by language code,
    or, from one return statement, the language data itself. *)
Inductive loaded : Type :=
| Bare (d : IntentLanguageData)
| ByLanguage (m : list (LanguageCode * IntentLanguageData)).

(** [language_data[language_code]]. *)
Definition subscript (language_data : loaded) (language_code : LanguageCode)
  : res IntentLanguageData :=
  match language_data with
  | Bare _ => Raise (interpreter_error TypeError)
  | ByLanguage m =>
      match find (fun kv => LanguageCode_eqb language_code (fst kv)) m with
      | Some kv => Ok (snd kv)
      | None => Raise (interpreter_error KeyError)
      end
  end.

Definition file_not_found (iname language_folder code : string) : exn :=
  Exn ValueError
      [Lit "Language file not found for intent '"; Str iname;
       Lit "'. Expected path: ";
       Path [language_folder; code; iname +:+ ".yaml"];
       Lit (". Language files are required even if the intent doesn't need "
            +:+ "language; in this case, use an empty file.")] None.

Definition failed_to_load (iname : string) (e : exn) : exn :=
  Exn RuntimeError
      [Lit "Failed to load language data for intent "; Str iname;
       Lit " (see stacktrace above for root cause)."] (Some e).

(** [try: ... except Exception as e: raise RuntimeError(...) from e]
    around the whole body of [intent_language_data]. *)
Definition wrapped {A : Type} (intent_cls : Intent) (body : res A) : res A :=
  match body with
  | Ok a => Ok a
  | Raise e => Raise (failed_to_load (intent_name intent_cls) e)
  end.

Section Loader.

Variable nonascii_word : ascii -> bool.

(** [str(v)] for a decoded value [v] that is not a string. *)
Variable py_str : yaml -> string.

(** The values of the members of [LanguageCode]. *)
Variable language_codes : list string.

(** [LanguageCode(s)]. *)
Definition LanguageCode_of_value (s : string) : res LanguageCode :=
  if existsb (String.eqb s) language_codes then Ok {| value := s |}
  else Raise (interpreter_error ValueError).

(** [str.__new__(cls, s)] on an item [s] of the examples. *)
Definition to_str (s : yaml) : string :=
  match s with
  | YStr s' => s'
  | _ => py_str s
  end.

(** The part of the body that follows the decoding of the language
    file. *)
Definition load_document (intent_cls : Intent) (language_code : LanguageCode)
           (language_data : yaml) : res loaded :=
  if negb (truthy language_data)
  then Ok (Bare {| example_utterances := [];
                   slot_filling_prompts := YDict [];
                   responses := ResponsesList [] |})
  else
    match language_data with
    | YDict d =>
        let examples_data :=
          match dict_get "examples" d with Some v => v | None => YList [] end in
        let responses_data :=
          match dict_get "responses" d with Some v => v | None => YList [] end in
        let* items := py_iter examples_data in
        let* examples :=
          map_res (fun s => ExampleUtterance_new nonascii_word (to_str s)
                                                 intent_cls) items in
        let* responses := _build_responses responses_data in
        Ok (ByLanguage
              [(language_code,
                {| example_utterances := examples;
                   slot_filling_prompts :=
                     match dict_get "slot_filling_prompts" d with
                     | Some v => v
                     | None => YDict []
                     end;
                   responses := ResponsesDict responses |})])
    | _ => Raise (interpreter_error AttributeError)
    end.

(** The body from [language_file = ...] on, for a member of
    [LanguageCode]. *)
Definition load_language (agent_cls : Agent) (intent_cls : Intent)
           (language_folder : string) (language_code : LanguageCode)
  : res loaded :=
  match language_file agent_cls (value language_code)
                      (intent_name intent_cls) with
  | None =>
      Raise (file_not_found (intent_name intent_cls) language_folder
                            (value language_code))
  | Some decoded =>
      let* language_data := decoded in
      load_document intent_cls language_code language_data
  end.

(** [intent_language_data(agent_cls, intent_cls, language_code)] for a
    member [language_code] of [LanguageCode]: such an argument is
    neither falsy nor a [str]. The recursive calls of the function are
    of this kind. *)
Definition intent_language_data_for (agent_cls : Agent) (intent_cls : Intent)
           (language_code : LanguageCode) : res loaded :=
  wrapped intent_cls
    (let* language_folder := agent_language_folder agent_cls in
     load_language agent_cls intent_cls language_folder language_code).

(** The loop [for language_code in agent_cls.languages]. *)
Fixpoint all_languages (agent_cls : Agent) (intent_cls : Intent)
         (codes : list LanguageCode)
         (result : list (LanguageCode * IntentLanguageData))
  : res (list (LanguageCode * IntentLanguageData)) :=
  match codes with
  | [] => Ok result
  | language_code :: codes' =>
      let* language_data :=
        intent_language_data_for agent_cls intent_cls language_code in
      let* d := subscript language_data language_code in
      all_languages agent_cls intent_cls codes'
                    (dict_set LanguageCode_eqb language_code d result)
  end.

Definition intent_language_data_body (agent_cls : Agent) (intent_cls : Intent)
           (language_code : language_arg) : res loaded :=
  let* language_folder := agent_language_folder agent_cls in
  let every_language :=
    let* result := all_languages agent_cls intent_cls
                                 (languages agent_cls) [] in
    Ok (ByLanguage result) in
  match language_code with
  | NoLanguage => every_language
  | LanguageStr s =>
      if is_empty s then every_language
      else let* code := LanguageCode_of_value s in
           load_language agent_cls intent_cls language_folder code
  | LanguageMember code =>
      load_language agent_cls intent_cls language_folder code
  end.

(** [intent_language_data]. *)
Definition intent_language_data (agent_cls : Agent) (intent_cls : Intent)
           (language_code : language_arg) : res loaded :=
  wrapped intent_cls (intent_language_data_body agent_cls intent_cls language_code).

End Loader.

(** ** Intents, documents and an agent to try the loader on *)

(** A classification without word characters beyond ASCII. *)
Definition ascii_only (c : ascii) : bool := false.

Definition Sys_Person : EntityClass := {| entity_name := "Sys.Person" |}.

(** [user_name_give] of [example_agent/smalltalk.py]: one parameter,
    [user_name: Sys.Person]. *)
Definition user_name_give : Intent :=
  {| intent_name := "smalltalk.user_name_give";
     parameter_schema :=
       {[ "user_name" := {| name := "user_name"; entity_cls := Sys_Person;
                            is_list := false; required := true;
                            default := YNull |} ]} |}.

Definition location_payload : yaml :=
  YDict [(YStr "loc", YDict [(YStr "lat", YInt 1)])].

Definition x20 : string := "xxxxxxxxxxxxxxxxxxxx".
Definition x21 : string := "xxxxxxxxxxxxxxxxxxxxx".

Definition en : LanguageCode := {| value := "en" |}.

(** An agent with one language, whose language file for [user_name_give]
    decodes to [document]. *)
Definition agent_with (document : yaml) : Agent :=
  {| agent_language_folder := Ok "example_agent/language";
     languages := [en];
     language_file := fun code iname =>
       if String.eqb code "en" && String.eqb iname "smalltalk.user_name_give"
       then Some (Ok document)
       else None |}.

(** A language document whose example names a parameter that
    [user_name_give] does not have. *)
Definition unknown_nickname_document : yaml :=
  YDict [(YStr "examples", YList [YStr "I am $nickname{Al}"]);
         (YStr "responses",
          YDict [(YStr "default", YList [YDict [(YStr "text", YStr "Hi")]])])].

(** [str] of a value that is not a string, left undetailed. *)
Definition no_str (v : yaml) : string := EmptyString.

(** Whether [s] ends inside the braces of an annotation: some [$name{]
    of [s] is followed by no closing brace in [s]. *)
Fixpoint open_annotation (nonascii_word : ascii -> bool) (s : string) : bool :=
  match s with
  | EmptyString => false
  | String c s' =>
      (Ascii.eqb c "$"
       && match span (is_word nonascii_word) s' with
          | (String _ _, String b rest) =>
              Ascii.eqb b "{" && all_chars not_rbrace rest
          | _ => false
          end)
      || open_annotation nonascii_word s'
  end.

(** ** The shape of a tokenization *)

(** The matches of [ms] lie one after the other from position [from]
    on, none of them is empty, and none reaches beyond position [len]. *)
Fixpoint spans_in_order (from len : nat) (ms : list re_match) : Prop :=
  match ms with
  | [] => True
  | m :: ms' =>
      from <= span_start m /\ span_start m < span_end m /\
      span_end m <= len /\ spans_in_order (span_end m) len ms'
  end.

Definition is_text (c : UtteranceChunk) : bool :=
  match c with
  | TextUtteranceChunk _ => true
  | EntityUtteranceChunk _ _ _ => false
  end.

(** No two neighbours of [cs] are of the same kind. *)
Fixpoint alternate (cs : list UtteranceChunk) : Prop :=
  match cs with
  | [] => True
  | c :: cs' =>
      match cs' with
      | [] => True
      | c' :: _ => is_text c <> is_text c' /\ alternate cs'
      end
  end.

(** The chunk of the older format that a chunk corresponds to. *)
Definition df_chunk (c : UtteranceChunk) : UsersaysChunk :=
  match c with
  | TextUtteranceChunk text => UsersaysTextChunk text true
  | EntityUtteranceChunk cls pname pvalue =>
      UsersaysEntityChunk pvalue pname (String "@" (entity_name cls)) true
  end.

(** An entity chunk of [c] carries groups the pattern can match and the
    entity class that [intent] declares for its parameter. *)
Definition entity_declared (nonascii_word : ascii -> bool) (intent : Intent)
           (c : UtteranceChunk) : Prop :=
  match c with
  | TextUtteranceChunk _ => True
  | EntityUtteranceChunk cls pname pvalue =>
      groups_ok nonascii_word pname pvalue /\
      exists meta, parameter_schema intent !! pname = Some meta /\
                   cls = entity_cls meta
  end.

(** The chunks of an utterance that holds no match: the whole text, if
    there is any. *)
Definition text_only (text : string) : list UtteranceChunk :=
  match text with
  | EmptyString => []
  | String _ _ => [TextUtteranceChunk text]
  end.

(** The key under which a response is written in a language file. *)
Definition response_type (r : IntentResponse) : string :=
  match r with
  | TextIntentResponse _ => "text"
  | QuickRepliesIntentResponse _ => "quick_replies"
  | ImageIntentResponse _ _ => "image"
  | CardIntentResponse _ _ _ _ => "card"
  | CustomPayloadIntentResponse _ _ => "custom"
  end.

(** ** The names of intents *)

Definition is_ascii_letter (c : ascii) : bool :=
  let n := nat_of_ascii c in
  ((65 <=? n) && (n <=? 90)) || ((97 <=? n) && (n <=? 122)).

(** The class [[a-zA-Z_\.]]. *)
Definition is_name_char (c : ascii) : bool :=
  is_ascii_letter c || Ascii.eqb c "_" || Ascii.eqb c ".".

(** [sub in s]. *)
Fixpoint contains (sub s : string) : bool :=
  String.prefix sub s
  || match s with
     | EmptyString => false
     | String _ s' => contains sub s'
     end.

(** [_is_valid_intent_name]: [re.search] finds the negated class
    wherever a character is outside of [[a-zA-Z_\.]]. *)
Definition _is_valid_intent_name (candidate_name : string)
  : bool * option string :=
  if negb (all_chars is_name_char candidate_name)
  then (false, Some "must only contain letters, underscore or dot")
  else if String.prefix "." candidate_name || String.prefix "_" candidate_name
  then (false, Some "must start with a letter")
  else if contains "__" candidate_name
  then (false, Some "must not contain __")
  else (true, None).

(** [re.sub(r"_+", "_", s)]: every run of underscores is replaced by one
    underscore. [in_run] tells that the character before belongs to a
    run, which has been replaced already. *)
Fixpoint sub_underscores (in_run : bool) (s : string) : string :=
  match s with
  | EmptyString => EmptyString
  | String c s' =>
      if Ascii.eqb c "_"
      then if in_run then sub_underscores true s'
           else String "_" (sub_underscores true s')
      else String c (sub_underscores false s')
  end.

(** [s.split(sep)] for a separator of one character. *)
Fixpoint split (sep : ascii) (s : string) : list string :=
  match s with
  | EmptyString => [EmptyString]
  | String c s' =>
      if Ascii.eqb c sep then EmptyString :: split sep s'
      else match split sep s' with
           | [] => [String c EmptyString]
           | w :: ws => String c w :: ws
           end
  end.

(** [l[-2:]]. *)
Definition last_two {A : Type} (l : list A) : list A :=
  skipn (length l - 2) l.

(** [_intent_name_from_class], for a class with the given [__module__]
    and [__name__]. The warning it logs is not modelled. *)
Definition _intent_name_from_class (__module__ __name__ : string) : string :=
  let full_name := __module__ +:+ "." +:+ __name__ in
  let full_name := sub_underscores false full_name in
  String.concat "." (last_two (split "." full_name)).

(** ** System events *)

Record SystemEvent : Type := { event_name : string }.

(** [s.replace(old, new)] for strings of one character. *)
Fixpoint replace_char (old new : ascii) (s : string) : string :=
  match s with
  | EmptyString => EmptyString
  | String c s' =>
      String (if Ascii.eqb c old then new else c) (replace_char old new s')
  end.

Section Upper.

(** The upper case of a character from code point 128 on, which may be
    longer than one character. *)
Variable nonascii_upper : ascii -> string.

Definition upper_char (c : ascii) : string :=
  let n := nat_of_ascii c in
  if n <? 128
  then String (if (97 <=? n) && (n <=? 122) then ascii_of_nat (n - 32) else c)
              EmptyString
  else nonascii_upper c.

(** [s.upper()]. *)
Fixpoint upper (s : string) : string :=
  match s with
  | EmptyString => EmptyString
  | String c s' => upper_char c +:+ upper s'
  end.

(** [_system_event]. *)
Definition _system_event (intent_name : string) : SystemEvent :=
  {| event_name := "E_" +:+ replace_char "." "_" (upper intent_name) |}.

End Upper.

Definition not_dot (c : ascii) : bool := negb (Ascii.eqb c ".").

(** The characters of the event of a valid name: capital ASCII letters
    and the underscore. *)
Definition is_event_char (c : ascii) : bool :=
  let n := nat_of_ascii c in
  ((65 <=? n) && (n <=? 90)) || Ascii.eqb c "_".

(** ** The messages of a predicted intent *)

(** [d.get(g)] on the messages of a prediction, a dictionary by
    response group. *)
Definition group_get (g : IntentResponseGroup) (d : responses_dict)
  : option (list IntentResponse) :=
  match find (fun kv => IntentResponseGroup_eqb g (fst kv)) d with
  | Some kv => Some (snd kv)
  | None => None
  end.

(** [Intent.fulfillment_messages], where [messages] is
    [self.prediction.fulfillment_messages]. *)
Definition fulfillment_messages (messages : responses_dict)
           (response_group : IntentResponseGroup) : list IntentResponse :=
  let response_group :=
    if IntentResponseGroup_eqb response_group RICH
       && negb (match group_get response_group messages with
                | Some (_ :: _) => true
                | _ => false
                end)
    then DEFAULT
    else response_group in
  match group_get response_group messages with
  | Some l => l
  | None => []
  end.

(** ** The parameters of an intent class *)

Module dataclasses.

(** The type a field is annotated with: an entity class, or an alias
    of [typing] such as [List[Sys.Person]], with its [_name] and its
    [__args__]. *)
Inductive field_type : Type :=
| EntityType (entity_cls : EntityClass)
| GenericAlias (_name : option string) (__args__ : list EntityClass).

(** A field of a dataclass. [default] is [None] where the field has
    [MISSING]; [default_factory] is [None] likewise, and otherwise holds
    the outcome of calling the factory: what it returns, or what it
    raises. *)
Record Field : Type := {
  name : string;
  type : field_type;
  default : option yaml;
  default_factory : option (res yaml)
}.

End dataclasses.

Section ParameterSchema.

(** [str] of the type of a field, of a field, and of the class. *)
Variable type_str : dataclasses.field_type -> string.
Variable field_str : dataclasses.Field -> string.
Variable cls_str : string.

Definition invalid_typing (param_field : dataclasses.Field) : exn :=
  Exn ValueError
      [Lit "Invalid typing '"; Str (type_str (dataclasses.type param_field));
       Lit "' for parameter '"; Str (dataclasses.name param_field);
       Lit "'. Only 'List' is supported."] None.

Definition invalid_list_modifier (param_field : dataclasses.Field) : exn :=
  Exn ValueError
      [Lit "Invalid List modifier '";
       Str (type_str (dataclasses.type param_field));
       Lit "' for parameter '"; Str (dataclasses.name param_field);
       Lit ("'. Must define exactly one inner type "
            +:+ "(e.g. 'List[Sys.Integer]')")] None.

Definition non_list_default (param_field : dataclasses.Field) : exn :=
  Exn ValueError
      [Lit "List parameter has non-list default value in intent ";
       Str cls_str; Lit ": "; Str (field_str param_field)] None.

(** [isinstance(v, list)]. *)
Definition is_list_value (v : yaml) : bool :=
  match v with
  | YList _ => true
  | _ => false
  end.

(** The body of the loop of [Intent.parameter_schema]: the metadata
    that is stored under the name of [param_field]. *)
Definition parameter_metadata (param_field : dataclasses.Field)
  : res IntentParameterMetadata :=
  let* (entity_cls, is_list) :=
    match dataclasses.type param_field with
    | dataclasses.GenericAlias _name __args__ =>
        if negb (match _name with
                 | Some n => String.eqb n "List"
                 | None => false
                 end)
        then Raise (invalid_typing param_field)
        else match __args__ with
             | [inner] => Ok (inner, true)
             | _ => Raise (invalid_list_modifier param_field)
             end
    | dataclasses.EntityType cls => Ok (cls, false)
    end in
  let required := true in
  let default := YNull in
  let (required, default) :=
    match dataclasses.default param_field with
    | Some v => (false, v)
    | None => (required, default)
    end in
  let* (required, default) :=
    match dataclasses.default_factory param_field with
    | Some called => let* v := called in Ok (false, v)
    | None => Ok (required, default)
    end in
  if negb required && is_list && negb (is_list_value default)
  then Raise (non_list_default param_field)
  else Ok {| name := dataclasses.name param_field;
             entity_cls := entity_cls;
             is_list := is_list;
             required := required;
             default := default |}.

Fixpoint parameter_schema_loop (fields : list dataclasses.Field)
         (result : gmap string IntentParameterMetadata)
  : res (gmap string IntentParameterMetadata) :=
  match fields with
  | [] => Ok result
  | param_field :: fields' =>
      let* meta := parameter_metadata param_field in
      parameter_schema_loop fields'
        (<[dataclasses.name param_field := meta]> result)
  end.

(** [Intent.parameter_schema]. [__dataclass_fields__] is what the
    dictionary of the class itself holds under that key: the fields in
    their order, or [None] for a class that has no fields of its own,
    on which the subscript raises [KeyError]. *)
Definition Intent_parameter_schema
           (__dataclass_fields__ : option (list dataclasses.Field))
  : res (gmap string IntentParameterMetadata) :=
  match __dataclass_fields__ with
  | None => Raise (interpreter_error KeyError)
  | Some fields => parameter_schema_loop fields empty
  end.

End ParameterSchema.

(** ** The creation of an intent class *)

(** An event of an intent class: its system event, or an event class
    listed in the [events] of the class body. *)
Inductive Event : Type :=
| EventInstance (e : SystemEvent)
| EventClass (cls : string).

(** What the metaclass is called with and finds on the class that
    [type.__new__] has made: the module, the name and the bases of the
    class; the attributes [name], [input_contexts] and [output_contexts]
    as they are looked up on it ([None] where neither the class body nor
    a base class sets them); the [events] of the class body itself, a
    list of event classes; [own_dataclass_fields], what the dictionary
    of the class itself holds under [__dataclass_fields__], which is
    nothing unless the class body sets it; [inherited_dataclass_fields],
    whether a base class has that attribute, as a dataclass and every
    intent class made by this metaclass has; and [dataclass_result],
    what [dataclass] does when it is applied to the class: the fields it
    stores in the dictionary of the class, or the exception it raises.
    Context and event classes are known by their names. *)
Record ClassStatement : Type := {
  __module__ : string;
  __name__ : string;
  __bases__ : list string;
  name_attribute : option string;
  input_contexts_attribute : option (list string);
  output_contexts_attribute : option (list string);
  events_attribute : option (list string);
  own_dataclass_fields : option (list dataclasses.Field);
  inherited_dataclass_fields : bool;
  dataclass_result : res (list dataclasses.Field)
}.

(** [is_dataclass(cls)] on a class: whether it has the attribute
    [__dataclass_fields__], of its own or of a base class. *)
Definition is_dataclass (stmt : ClassStatement) : bool :=
  match own_dataclass_fields stmt with
  | Some _ => true
  | None => inherited_dataclass_fields stmt
  end.

(** The attributes that the metaclass sets on an intent class. *)
Record IntentClass : Type := {
  cls_name : string;
  cls_input_contexts : list string;
  cls_output_contexts : list string;
  cls_events : list Event
}.

(** The class that the metaclass returns: the class as it was made, for
    the base class [Intent], or an intent class with its attributes
    set. *)
Inductive NewClass : Type :=
| Unprocessed
| Processed (cls : IntentClass).

Definition invalid_intent_name (n : string) (reason : option string) : exn :=
  Exn ValueError
      [Lit "Invalid intent name '"; Str n; Lit "': ";
       match reason with
       | Some r => Str r
       | None => Lit "None"
       end] None.

(** [x] if it is a non-empty list, otherwise the empty list. *)
Definition or_empty {A : Type} (x : option (list A)) : list A :=
  match x with
  | Some l => l
  | None => []
  end.

Section IntentMetaclass.

Variable nonascii_upper : ascii -> string.
Variable type_str : dataclasses.field_type -> string.
Variable field_str : dataclasses.Field -> string.
Variable cls_str : string.

(** [_IntentMetaclass.__new__]. *)
Definition _IntentMetaclass_new (stmt : ClassStatement) : res NewClass :=
  if String.eqb (__name__ stmt) "Intent"
  then match __bases__ stmt with
       | [] => Ok Unprocessed
       | _ :: _ => Raise (Exn AssertionError [] None)
       end
  else
    let* name :=
      if match name_attribute stmt with
         | Some n => is_empty n
         | None => true
         end
      then Ok (_intent_name_from_class (__module__ stmt) (__name__ stmt))
      else
        let n := match name_attribute stmt with
                 | Some n => n
                 | None => EmptyString
                 end in
        let (is_valid, reason) := _is_valid_intent_name n in
        if negb is_valid then Raise (invalid_intent_name n reason)
        else Ok n in
    let input_contexts := or_empty (input_contexts_attribute stmt) in
    let output_contexts := or_empty (output_contexts_attribute stmt) in
    let events :=
      [EventInstance (_system_event nonascii_upper name)]
        ++ map EventClass (or_empty (events_attribute stmt)) in
    let* __dataclass_fields__ :=
      if negb (is_dataclass stmt)
      then let* fields := dataclass_result stmt in Ok (Some fields)
      else Ok (own_dataclass_fields stmt) in
    let* _ := Intent_parameter_schema type_str field_str cls_str
                                      __dataclass_fields__ in
    Ok (Processed {| cls_name := name;
                     cls_input_contexts := input_contexts;
                     cls_output_contexts := output_contexts;
                     cls_events := events |}).

End IntentMetaclass.

(** ** The loader of [dialogflow_agents/language.py] *)

(** What the older loader reads of an agent class and of the files
    around it: the language folder of its package, whether that is a
    directory, and, for an intent name, what is found at
    [<language folder>/intents/<intent name>__en.yaml]. *)
Record DfAgent : Type := {
  df_agent_str : string;
  df_language_folder : string;
  df_isdir : bool;
  df_language_file : string -> option (res yaml)
}.

Definition df_no_language_folder (agent_cls : DfAgent) : exn :=
  Exn ValueError
      [Lit "No language folder found for agent "; Str (df_agent_str agent_cls);
       Lit " (expected: "; Str (df_language_folder agent_cls); Lit ")"] None.

Definition df_file_not_found (iname language_folder : string) : exn :=
  Exn ValueError
      [Lit "Language file not found for intent '"; Str iname;
       Lit "'. Expected path: ";
       Path [language_folder; "intents"; iname +:+ "__en.yaml"];
       Lit (". Language files are required even if the intent doesn't need "
            +:+ "language; in this case, use an empty file.")] None.

Section DfLoader.

Variable nonascii_word : ascii -> bool.
Variable py_str : yaml -> string.

(** [ExampleUtterance(example, intent)] of the older module, which
    calls [self.df_chunks()]. *)
Definition df_ExampleUtterance_new (example : string) (intent : Intent)
  : res ExampleUtterance :=
  let self := {| example := example; _intent := intent |} in
  let* _ := df_chunks nonascii_word self in
  Ok self.

(** [intent_language_data] of the older module: the examples and the
    undecoded [responses] section. *)
Definition df_intent_language_data (agent_cls : DfAgent) (intent : Intent)
  : res (list ExampleUtterance * yaml) :=
  if negb (df_isdir agent_cls) then Raise (df_no_language_folder agent_cls)
  else
    match df_language_file agent_cls (intent_name intent) with
    | None =>
        Raise (df_file_not_found (intent_name intent)
                                 (df_language_folder agent_cls))
    | Some decoded =>
        let* language_data := decoded in
        if negb (truthy language_data) then Ok ([], YList [])
        else
          match language_data with
          | YDict d =>
              let examples_data :=
                match dict_get "examples" d with
                | Some v => v
                | None => YList []
                end in
              let responses_data :=
                match dict_get "responses" d with
                | Some v => v
                | None => YList []
                end in
              let* items := py_iter examples_data in
              let* examples :=
                map_res (fun s => df_ExampleUtterance_new (to_str py_str s)
                                                          intent) items in
              Ok (examples, responses_data)
          | _ => Raise (interpreter_error AttributeError)
          end
    end.

End DfLoader.

(** ** More inputs to try the code on *)

(** A language document of [user_name_give] with one example and a
    text response. *)
Definition greeting_document_entries : list (yaml * yaml) :=
  [(YStr "examples", YList [YStr "I am $user_name{Al}"]);
   (YStr "responses",
    YDict [(YStr "default", YList [YDict [(YStr "text", YStr "Hi")]])])].

Definition greeting_utterance : ExampleUtterance :=
  {| example := "I am $user_name{Al}"; _intent := user_name_give |}.

Definition greeting_language_data : IntentLanguageData :=
  {| example_utterances := [greeting_utterance];
     slot_filling_prompts := YDict [];
     responses :=
       ResponsesDict [(DEFAULT, [TextIntentResponse [YStr "Hi"]])] |}.

(** A document with examples only. *)
Definition examples_only_entries : list (yaml * yaml) :=
  [(YStr "examples", YList [YStr "Hello"])].

(** [str] of an object, and the upper case of a character beyond
    ASCII, left undetailed. *)
Definition no_repr {A : Type} (x : A) : string := EmptyString.

(** The field [user_name: Sys.Person] of [user_name_give], and a field
    [friend_names: List[Sys.Person] = "nobody"]. *)
Definition user_name_field : dataclasses.Field :=
  {| dataclasses.name := "user_name";
     dataclasses.type := dataclasses.EntityType Sys_Person;
     dataclasses.default := None;
     dataclasses.default_factory := None |}.

Definition friend_names_field : dataclasses.Field :=
  {| dataclasses.name := "friend_names";
     dataclasses.type := dataclasses.GenericAlias (Some "List") [Sys_Person];
     dataclasses.default := Some (YStr "nobody");
     dataclasses.default_factory := None |}.

(** The class statement of [user_name_give] in
    [example_agent/smalltalk.py]: a subclass of [Intent], which is not
    a dataclass; [dataclass] finds its one field. *)
Definition user_name_give_statement : ClassStatement :=
  {| __module__ := "example_agent.smalltalk";
     __name__ := "user_name_give";
     __bases__ := ["Intent"];
     name_attribute := None;
     input_contexts_attribute := None;
     output_contexts_attribute := None;
     events_attribute := None;
     own_dataclass_fields := None;
     inherited_dataclass_fields := false;
     dataclass_result := Ok [user_name_field] |}.

(** The class statement of [Intent] in [intents/model/intent.py]; the
    metaclass does not apply [dataclass] to it. *)
Definition Intent_statement : ClassStatement :=
  {| __module__ := "intents.model.intent";
     __name__ := "Intent";
     __bases__ := [];
     name_attribute := None;
     input_contexts_attribute := None;
     output_contexts_attribute := None;
     events_attribute := None;
     own_dataclass_fields := None;
     inherited_dataclass_fields := false;
     dataclass_result := Ok [] |}.

(** A class [formal_name_give(user_name_give)] written next to
    [user_name_give]: it finds the name and the contexts of its base
    class, which is a dataclass. *)
Definition formal_name_give_statement : ClassStatement :=
  {| __module__ := "example_agent.smalltalk";
     __name__ := "formal_name_give";
     __bases__ := ["user_name_give"];
     name_attribute := Some "smalltalk.user_name_give";
     input_contexts_attribute := Some [];
     output_contexts_attribute := Some [];
     events_attribute := None;
     own_dataclass_fields := None;
     inherited_dataclass_fields := true;
     dataclass_result := Ok [] |}.

(** [greet_friends] of [example_agent/smalltalk.py]: one parameter,
    [friend_names: List[Sys.Person]]. *)
Definition greet_friends : Intent :=
  {| intent_name := "smalltalk.greet_friends";
     parameter_schema :=
       {[ "friend_names" := {| name := "friend_names";
                               entity_cls := Sys_Person;
                               is_list := true; required := true;
                               default := YNull |} ]} |}.

(** A field [nickname: Sys.Person] whose default factory raises. *)
Definition failing_factory : exn := Exn RuntimeError [Lit "no default"] None.

Definition nickname_field : dataclasses.Field :=
  {| dataclasses.name := "nickname";
     dataclasses.type := dataclasses.EntityType Sys_Person;
     dataclasses.default := None;
     dataclasses.default_factory := Some (Raise failing_factory) |}.

(** An agent of the older module whose language file for
    [user_name_give] decodes to [document]. *)
Definition df_agent_with (document : yaml) : DfAgent :=
  {| df_agent_str := "ExampleAgent";
     df_language_folder := "example_agent/language";
     df_isdir := true;
     df_language_file := fun iname =>
       if String.eqb iname "smalltalk.user_name_give"
       then Some (Ok document)
       else None |}.

(** * Facts about strings *)

Lemma app_cons (c : ascii) (a b : string) :
  String c a +:+ b = String c (a +:+ b).
Proof. reflexivity. Qed.

Lemma app_empty_l (b : string) : EmptyString +:+ b = b.
Proof. reflexivity. Qed.

(** Pushes the appends of a goal inside the strings. *)
Ltac str_simpl := rewrite ?app_cons, ?app_empty_l; simpl.

Lemma length_app (a b : string) :
  String.length (a +:+ b) = String.length a + String.length b.
Proof. induction a as [|c a IH]; str_simpl; [reflexivity | now rewrite IH]. Qed.

Lemma app_empty_r (a : string) : a +:+ EmptyString = a.
Proof. induction a as [|c a IH]; str_simpl; [reflexivity | now rewrite IH]. Qed.

Lemma app_assoc_str (a b c : string) : (a +:+ b) +:+ c = a +:+ b +:+ c.
Proof. induction a as [|x a IH]; str_simpl; [reflexivity | now rewrite IH]. Qed.

Lemma substring_none (n : nat) (s : string) : substring n 0 s = EmptyString.
Proof.
  revert n; induction s as [|c s IH]; intros [|n]; simpl; auto.
Qed.

Lemma substring_whole (s : string) : substring 0 (String.length s) s = s.
Proof. induction s as [|c s IH]; simpl; [reflexivity | now rewrite IH]. Qed.

Lemma substring_app_l (a b : string) (m : nat) :
  substring 0 (String.length a + m) (a +:+ b) = a +:+ substring 0 m b.
Proof. induction a as [|c a IH]; str_simpl; [reflexivity | now rewrite IH]. Qed.

Lemma substring_app_r (a b : string) (n m : nat) :
  substring (String.length a + n) m (a +:+ b) = substring n m b.
Proof. induction a as [|c a IH]; str_simpl; [reflexivity | apply IH]. Qed.

Lemma slice_middle (a b c : string) :
  slice (a +:+ b +:+ c) (String.length a) (String.length a + String.length b) = b.
Proof.
  unfold slice.
  replace (String.length a + String.length b - String.length a)
    with (String.length b) by lia.
  rewrite <- (Nat.add_0_r (String.length a)) at 1.
  rewrite substring_app_r.
  rewrite <- (Nat.add_0_r (String.length b)) at 1.
  rewrite substring_app_l, substring_none. apply app_empty_r.
Qed.

Lemma slice_from_app (a b : string) : slice_from (a +:+ b) (String.length a) = b.
Proof.
  unfold slice_from. rewrite length_app.
  replace (String.length a + String.length b - String.length a)
    with (String.length b) by lia.
  rewrite <- (Nat.add_0_r (String.length a)) at 1.
  rewrite substring_app_r. apply substring_whole.
Qed.

Lemma app_inv_length (a b a' b' : string) :
  a +:+ b = a' +:+ b' -> String.length a = String.length a' ->
  a = a' /\ b = b'.
Proof.
  revert a'; induction a as [|c a IH]; intros [|c' a'] H L;
    rewrite ?app_cons, ?app_empty_l in H; simpl in L; try discriminate; auto.
  injection H as -> H. destruct (IH a' H) as [-> ->]; [lia | auto].
Qed.

Lemma length_zero (s : string) : String.length s = 0 -> s = EmptyString.
Proof. destruct s; simpl; [reflexivity | discriminate]. Qed.

(** * Facts about [span] *)

Lemma span_app (p : ascii -> bool) (s : string) :
  fst (span p s) +:+ snd (span p s) = s.
Proof.
  induction s as [|c s IH]; simpl; [reflexivity|].
  destruct (p c); [|reflexivity].
  destruct (span p s) as [a b]; simpl in *. str_simpl. now rewrite IH.
Qed.

Lemma span_all (p : ascii -> bool) (s : string) :
  all_chars p (fst (span p s)) = true.
Proof.
  induction s as [|c s IH]; simpl; [reflexivity|].
  destruct (p c) eqn:E; [|reflexivity].
  destruct (span p s) as [a b]; simpl in *. now rewrite E, IH.
Qed.

Lemma span_stop (p : ascii -> bool) (s : string) (c : ascii) (r : string) :
  snd (span p s) = String c r -> p c = false.
Proof.
  induction s as [|x s IH]; simpl; [discriminate|].
  destruct (p x) eqn:E.
  - destruct (span p s) as [a b]; simpl in *. exact IH.
  - simpl. intros [= -> _]. exact E.
Qed.

Lemma span_exact (p : ascii -> bool) (a : string) (c : ascii) (r : string) :
  all_chars p a = true -> p c = false ->
  span p (a +:+ String c r) = (a, String c r).
Proof.
  intros Ha Hc. induction a as [|x a IH]; str_simpl; simpl in Ha.
  - now rewrite Hc.
  - apply andb_prop in Ha as [Hx Ha]. now rewrite Hx, (IH Ha).
Qed.

Lemma span_all_chars (p : ascii -> bool) (a : string) :
  all_chars p a = true -> span p a = (a, EmptyString).
Proof.
  intros Ha. induction a as [|x a IH]; simpl in *; [reflexivity|].
  apply andb_prop in Ha as [Hx Ha]. now rewrite Hx, (IH Ha).
Qed.

Lemma all_chars_app (p : ascii -> bool) (a b : string) :
  all_chars p (a +:+ b) = all_chars p a && all_chars p b.
Proof.
  induction a as [|x a IH]; str_simpl; [reflexivity|].
  now rewrite IH, andb_assoc.
Qed.

Lemma reconstruct_app (cs ds : list UtteranceChunk) :
  reconstruct (cs ++ ds) = reconstruct cs +:+ reconstruct ds.
Proof.
  induction cs as [|c cs IH]; simpl; [reflexivity|].
  now rewrite IH, app_assoc_str.
Qed.

Lemma annotation_app (pname pvalue rest : string) :
  annotation pname pvalue +:+ rest
  = String "$" (pname +:+ String "{" (pvalue +:+ String "}" rest)).
Proof.
  unfold annotation.
  repeat (rewrite app_assoc_str || rewrite app_cons || rewrite app_empty_l).
  reflexivity.
Qed.

Section TokenizerFacts.

Variable nonascii_word : ascii -> bool.

Notation is_word := (is_word nonascii_word).
Notation groups_ok := (groups_ok nonascii_word).
Notation chunks_loop := (chunks_loop).
Notation RE_EXAMPLE_PARAMETERS := (RE_EXAMPLE_PARAMETERS nonascii_word).
Notation finditer_from := (finditer_from nonascii_word).
Notation finditer := (finditer nonascii_word).
Notation chunks := (chunks nonascii_word).
Notation ExampleUtterance_new := (ExampleUtterance_new nonascii_word).

Lemma lbrace_not_word : is_word "{" = false.
Proof. reflexivity. Qed.

Lemma word_not_dollar (c : ascii) : is_word c = true -> Ascii.eqb c "$" = false.
Proof.
  intros H. destruct (Ascii.eqb_spec c "$") as [->|]; [|reflexivity].
  discriminate H.
Qed.

(** The matcher finds exactly the strings of the pattern's language, and
    the groups are determined by the string. *)
Lemma RE_EXAMPLE_PARAMETERS_intro (pname pvalue rest : string) :
  groups_ok pname pvalue ->
  RE_EXAMPLE_PARAMETERS (annotation pname pvalue +:+ rest)
  = Some (pname, pvalue, rest).
Proof.
  intros (Hn & Hw & Hv & Hr). rewrite annotation_app.
  unfold RE_EXAMPLE_PARAMETERS. simpl.
  rewrite (span_exact is_word pname "{" _ Hw lbrace_not_word).
  destruct pname as [|n0 n]; [congruence|]. simpl.
  rewrite (span_exact not_rbrace pvalue "}" _ Hr eq_refl).
  destruct pvalue as [|v0 v]; [congruence|]. reflexivity.
Qed.

Lemma RE_EXAMPLE_PARAMETERS_elim (s pname pvalue rest : string) :
  RE_EXAMPLE_PARAMETERS s = Some (pname, pvalue, rest) ->
  s = annotation pname pvalue +:+ rest /\ groups_ok pname pvalue.
Proof.
  unfold RE_EXAMPLE_PARAMETERS. destruct s as [|c s1]; [discriminate|].
  destruct (Ascii.eqb_spec c "$") as [->|]; [|discriminate].
  pose proof (span_app is_word s1) as Hs1.
  pose proof (span_all is_word s1) as Hw.
  destruct (span is_word s1) as [[|n0 n] [|b s2]]; try discriminate.
  destruct (Ascii.eqb_spec b "{") as [->|]; [|discriminate].
  pose proof (span_app not_rbrace s2) as Hs2.
  pose proof (span_all not_rbrace s2) as Hr.
  destruct (span not_rbrace s2) as [[|v0 v] [|e rest']]; try discriminate.
  destruct (Ascii.eqb_spec e "}") as [->|]; [|discriminate].
  intros [= <- <- <-]. simpl in *. subst s1 s2. split.
  - now rewrite annotation_app.
  - repeat split; auto; discriminate.
Qed.


Lemma RE_EXAMPLE_PARAMETERS_no_dollar (c : ascii) (s : string) :
  not_dollar c = true -> RE_EXAMPLE_PARAMETERS (String c s) = None.
Proof.
  unfold not_dollar, RE_EXAMPLE_PARAMETERS. intros H.
  destruct (Ascii.eqb c "$"); [discriminate | reflexivity].
Qed.

(** An annotation with an empty value is not a match. *)
Lemma RE_EXAMPLE_PARAMETERS_empty_value (pname rest : string) :
  all_chars is_word pname = true ->
  RE_EXAMPLE_PARAMETERS (annotation pname EmptyString +:+ rest) = None.
Proof.
  intros Hw. rewrite annotation_app, app_empty_l.
  unfold RE_EXAMPLE_PARAMETERS. simpl.
  rewrite (span_exact is_word pname "{" _ Hw lbrace_not_word).
  destruct pname as [|n0 n]; reflexivity.
Qed.

Lemma annotation_length (pname pvalue : string) :
  String.length (annotation pname pvalue)
  = S (String.length pname + S (String.length pvalue + 1)).
Proof.
  rewrite <- (app_empty_r (annotation pname pvalue)), annotation_app.
  simpl. rewrite length_app. simpl. rewrite length_app. reflexivity.
Qed.

(** ** Facts about [finditer] *)

Lemma finditer_from_empty (fuel pos : nat) :
  finditer_from fuel pos EmptyString = [].
Proof. destruct fuel; reflexivity. Qed.

Lemma finditer_from_match (fuel pos : nat) (pname pvalue rest : string) :
  groups_ok pname pvalue ->
  finditer_from (S fuel) pos (annotation pname pvalue +:+ rest)
  = {| span_start := pos;
       span_end := pos + String.length (annotation pname pvalue);
       group_name := pname; group_value := pvalue |}
      :: finditer_from fuel (pos + String.length (annotation pname pvalue)) rest.
Proof.
  intros Hok. rewrite annotation_app. cbn [finditer_from].
  rewrite <- annotation_app, (RE_EXAMPLE_PARAMETERS_intro _ _ _ Hok).
  rewrite length_app.
  replace (String.length (annotation pname pvalue) + String.length rest
           - String.length rest)
    with (String.length (annotation pname pvalue)) by lia.
  reflexivity.
Qed.

Lemma finditer_from_match_end (fuel pos : nat) (pname pvalue : string) :
  groups_ok pname pvalue ->
  finditer_from (S fuel) pos (annotation pname pvalue)
  = [{| span_start := pos;
        span_end := pos + String.length (annotation pname pvalue);
        group_name := pname; group_value := pvalue |}].
Proof.
  intros Hok.
  rewrite <- (app_empty_r (annotation pname pvalue)) at 1.
  now rewrite finditer_from_match, finditer_from_empty.
Qed.

Lemma finditer_from_skip (fuel pos : nat) (c : ascii) (s : string) :
  RE_EXAMPLE_PARAMETERS (String c s) = None ->
  finditer_from (S fuel) pos (String c s) = finditer_from fuel (S pos) s.
Proof. intros H. cbn [finditer_from]. now rewrite H. Qed.

(** The fuel [finditer] starts with is enough: more fuel finds the same
    matches. *)
Lemma finditer_from_fuel (f1 f2 pos : nat) (s : string) :
  String.length s <= f1 -> String.length s <= f2 ->
  finditer_from f1 pos s = finditer_from f2 pos s.
Proof.
  revert f2 pos s.
  induction f1 as [|f1 IH]; intros f2 pos s H1 H2.
  - rewrite (length_zero s) by lia. now rewrite !finditer_from_empty.
  - destruct f2 as [|f2].
    + rewrite (length_zero s) by lia. now rewrite !finditer_from_empty.
    + destruct s as [|c s]; [reflexivity|]. cbn [finditer_from].
      destruct (RE_EXAMPLE_PARAMETERS (String c s))
        as [[[pname pvalue] rest]|] eqn:E.
      * apply RE_EXAMPLE_PARAMETERS_elim in E as [E _].
        assert (String.length rest < String.length (String c s)) as L.
        { rewrite E, length_app, annotation_length. lia. }
        f_equal. apply IH; simpl in *; lia.
      * apply IH; simpl in *; lia.
Qed.

Lemma finditer_fuel (fuel : nat) (s : string) :
  String.length s <= fuel -> finditer s = finditer_from fuel 0 s.
Proof. intros H. apply finditer_from_fuel; [reflexivity | exact H]. Qed.

(** Text without a dollar sign holds no match, in front of other text it
    is skipped. *)
Lemma finditer_from_no_dollar (fuel pos : nat) (s : string) :
  all_chars not_dollar s = true -> finditer_from fuel pos s = [].
Proof.
  revert fuel pos. induction s as [|c s IH]; intros fuel pos H.
  - apply finditer_from_empty.
  - destruct fuel as [|fuel]; [reflexivity|].
    simpl in H. apply andb_prop in H as [Hc Hs].
    rewrite finditer_from_skip by now apply RE_EXAMPLE_PARAMETERS_no_dollar.
    now apply IH.
Qed.

Lemma finditer_from_prefix (fuel pos : nat) (a b : string) :
  all_chars not_dollar a = true ->
  finditer_from (String.length a + fuel) pos (a +:+ b)
  = finditer_from fuel (pos + String.length a) b.
Proof.
  revert pos. induction a as [|c a IH]; intros pos H.
  - rewrite app_empty_l. simpl. now rewrite Nat.add_0_r.
  - simpl in H. apply andb_prop in H as [Hc Ha].
    rewrite app_cons. simpl String.length. simpl Nat.add.
    rewrite finditer_from_skip by now apply RE_EXAMPLE_PARAMETERS_no_dollar.
    rewrite IH by assumption. f_equal. lia.
Qed.

(** Every match reported is a match of the pattern, found where its span
    says. *)
Lemma finditer_from_sound (fuel pos : nat) (s : string) (m : re_match) :
  In m (finditer_from fuel pos s) ->
  exists a b rest,
    s = a +:+ b /\ span_start m = pos + String.length a /\
    RE_EXAMPLE_PARAMETERS b = Some (group_name m, group_value m, rest).
Proof.
  revert pos s. induction fuel as [|fuel IH]; intros pos s H; [destruct H|].
  destruct s as [|c s]; [destruct H|]. cbn [finditer_from] in H.
  destruct (RE_EXAMPLE_PARAMETERS (String c s))
    as [[[pname pvalue] rest]|] eqn:E.
  - destruct H as [<-|H].
    + exists EmptyString, (String c s), rest.
      split; [reflexivity|]. split; [cbn; lia | exact E].
    + apply IH in H as (a & b & rest' & Hs & Hp & Hm).
      pose proof E as E'.
      apply RE_EXAMPLE_PARAMETERS_elim in E' as [E' _].
      exists (annotation pname pvalue +:+ a), b, rest'. repeat split.
      * now rewrite E', Hs, app_assoc_str.
      * rewrite Hp, E', !length_app. rewrite Hs, length_app. lia.
      * exact Hm.
  - apply IH in H as (a & b & rest' & Hs & Hp & Hm).
    exists (String c a), b, rest'. repeat split.
    + now rewrite app_cons, Hs.
    + rewrite Hp. simpl. lia.
    + exact Hm.
Qed.

(** ** The loop of [chunks] *)

Lemma app_snoc (a : string) (c : ascii) (b : string) :
  (a +:+ String c EmptyString) +:+ b = a +:+ String c b.
Proof. now rewrite app_assoc_str, app_cons, app_empty_l. Qed.

(** The text chunk a match is preceded by stands for the pending text,
    also when the test on the start of the match leaves it out. *)
Lemma pending_text_source (self before pending suf : string)
      (acc : list UtteranceChunk) :
  self = before +:+ pending +:+ suf ->
  reconstruct
    (if 0 <? String.length before + String.length pending
     then acc ++ [TextUtteranceChunk
                    (slice self (String.length before)
                           (String.length before + String.length pending))]
     else acc)
  = reconstruct acc +:+ pending.
Proof.
  intros ->. destruct (Nat.ltb_spec 0 (String.length before + String.length pending)).
  - rewrite reconstruct_app, slice_middle. simpl. now rewrite app_empty_r.
  - rewrite (length_zero pending) by lia. now rewrite app_empty_r.
Qed.

Lemma chunks_loop_source (self : string) (intent : Intent) (fuel : nat) :
  forall (suf before pending : string) (acc : list UtteranceChunk)
         (pos last_end : nat) (r : list UtteranceChunk) (e : nat),
    self = before +:+ pending +:+ suf ->
    last_end = String.length before ->
    pos = String.length before + String.length pending ->
    chunks_loop self intent (finditer_from fuel pos suf) last_end acc
    = Ok (r, e) ->
    reconstruct r +:+ slice_from self e = reconstruct acc +:+ pending +:+ suf.
Proof.
  assert (forall (suf before pending : string) acc last_end r e,
             self = before +:+ pending +:+ suf ->
             last_end = String.length before ->
             chunks_loop self intent [] last_end acc = Ok (r, e) ->
             reconstruct r +:+ slice_from self e
             = reconstruct acc +:+ pending +:+ suf) as Hstop.
  { intros suf before pending acc last_end r e -> -> [= <- <-].
    now rewrite slice_from_app. }
  induction fuel as [|fuel IH]; intros suf before pending acc pos last_end r e
                                       Hself Hend Hpos H.
  { eapply Hstop; eauto. }
  destruct suf as [|c suf]; [eapply Hstop; eauto|].
  cbn [finditer_from] in H.
  destruct (RE_EXAMPLE_PARAMETERS (String c suf))
    as [[[pname pvalue] rest]|] eqn:E.
  - apply RE_EXAMPLE_PARAMETERS_elim in E as [E _].
    cbn [chunks_loop span_start span_end group_name group_value] in H.
    destruct (parameter_schema intent !! pname) as [meta|]; [|discriminate].
    rewrite E in H, Hself. rewrite length_app in H.
    replace (String.length (annotation pname pvalue) + String.length rest
             - String.length rest)
      with (String.length (annotation pname pvalue)) in H by lia.
    apply (IH rest (before +:+ pending +:+ annotation pname pvalue)
              EmptyString) in H.
    + rewrite H, reconstruct_app. subst pos last_end.
      rewrite (pending_text_source _ _ _ _ _ Hself), E.
      cbn [reconstruct chunk_source].
      now rewrite !app_empty_r, !app_empty_l, !app_assoc_str.
    + now rewrite Hself, app_empty_l, !app_assoc_str.
    + rewrite !length_app. lia.
    + rewrite !length_app. simpl. lia.
  - apply (IH suf before (pending +:+ String c EmptyString)) in H.
    + now rewrite H, app_snoc.
    + now rewrite app_snoc.
    + exact Hend.
    + rewrite length_app. simpl. lia.
Qed.

Lemma chunks_loop_declared (self : string) (intent : Intent)
      (ms : list re_match) :
  Forall (fun m => parameter_schema intent !! group_name m <> None) ms ->
  forall last_end acc,
  exists r, chunks_loop self intent ms last_end acc = Ok r.
Proof.
  induction 1 as [|m ms Hm _ IH]; intros last_end acc; simpl; [eauto|].
  destruct (parameter_schema intent !! group_name m); [apply IH | congruence].
Qed.

Lemma chunks_loop_undeclared (self : string) (intent : Intent)
      (ms : list re_match) :
  Exists (fun m => parameter_schema intent !! group_name m = None) ms ->
  forall last_end acc,
  exists pname,
    parameter_schema intent !! pname = None /\
    chunks_loop self intent ms last_end acc
    = Raise (unknown_parameter self pname (intent_name intent)).
Proof.
  induction ms as [|m ms IH]; intros H last_end acc; [inversion H|].
  simpl. destruct (parameter_schema intent !! group_name m) eqn:E; [|eauto].
  apply IH. inversion H; [congruence | assumption].
Qed.

(** ** The claims on the tokenizer *)

(** C3, as the code has it. Between two adjacent annotations [chunks]
    (and [df_chunks] likewise) emits a text chunk whose text is empty:
    the text before a match is kept whenever the match does not start the
    string, and the second of two adjacent matches never does. *)
Theorem chunks_adjacent_annotations_empty_text
        (intent : Intent) (n1 v1 n2 v2 : string)
        (meta1 meta2 : IntentParameterMetadata) :
  parameter_schema intent !! n1 = Some meta1 ->
  parameter_schema intent !! n2 = Some meta2 ->
  groups_ok n1 v1 -> groups_ok n2 v2 ->
  chunks {| example := annotation n1 v1 +:+ annotation n2 v2;
            _intent := intent |}
  = Ok [EntityUtteranceChunk (entity_cls meta1) n1 v1;
        TextUtteranceChunk EmptyString;
        EntityUtteranceChunk (entity_cls meta2) n2 v2].
Proof.
  intros H1 H2 Hok1 Hok2. unfold chunks. cbn [example _intent].
  rewrite (finditer_fuel
             (S (S (String.length (annotation n1 v1 +:+ annotation n2 v2)))))
    by lia.
  rewrite finditer_from_match, finditer_from_match_end by assumption.
  cbn [chunks_loop span_start span_end group_name group_value bind].
  rewrite H1, H2. cbn [bind].
  replace (0 <? 0) with false by reflexivity.
  replace (0 <? 0 + String.length (annotation n1 v1)) with true
    by (rewrite annotation_length; reflexivity).
  unfold slice at 1. rewrite Nat.sub_diag, substring_none.
  replace (slice_from _ _) with EmptyString; [reflexivity|].
  symmetry.
  replace (0 + String.length (annotation n1 v1)
           + String.length (annotation n2 v2))
    with (String.length (annotation n1 v1 +:+ annotation n2 v2))
    by (rewrite length_app; lia).
  rewrite <- (app_empty_r (annotation n1 v1 +:+ annotation n2 v2)) at 1.
  apply slice_from_app.
Qed.

(** C4. Putting the markup back around the entity chunks of a tokenized
    example gives the example back. *)
Theorem chunks_reconstruct (self : ExampleUtterance)
        (cs : list UtteranceChunk) :
  chunks self = Ok cs -> reconstruct cs = example self.
Proof.
  unfold chunks, bind.
  destruct (chunks_loop _ _ _ _ _) as [[r e]|] eqn:E; [|discriminate].
  intros [= <-].
  apply (chunks_loop_source _ _ _ _ EmptyString EmptyString) in E;
    try reflexivity.
  simpl in E. rewrite !app_empty_l in E.
  destruct (slice_from (example self) e).
  - now rewrite app_empty_r in E.
  - rewrite reconstruct_app. simpl. now rewrite app_empty_r.
Qed.

(** C5. A single annotation whose parameter name is in the schema, here a
    non-empty run of word characters as the names of parameters are,
    tokenizes to one entity chunk: that name, that value, and the entity
    class the schema gives the name. *)
Theorem chunks_single_annotation (intent : Intent) (pname pvalue : string)
        (meta : IntentParameterMetadata) :
  parameter_schema intent !! pname = Some meta ->
  groups_ok pname pvalue ->
  chunks {| example := annotation pname pvalue; _intent := intent |}
  = Ok [EntityUtteranceChunk (entity_cls meta) pname pvalue].
Proof.
  intros Hm Hok. unfold chunks. cbn [example _intent].
  rewrite (finditer_fuel (S (String.length (annotation pname pvalue))))
    by lia.
  rewrite finditer_from_match_end by assumption.
  cbn [chunks_loop span_start span_end group_name group_value bind].
  rewrite Hm. cbn [bind].
  replace (0 <? 0) with false by reflexivity.
  replace (slice_from _ _) with EmptyString; [reflexivity|].
  symmetry. simpl Nat.add.
  rewrite <- (app_empty_r (annotation pname pvalue)) at 1.
  apply slice_from_app.
Qed.

(** C6. Construction tokenizes the example at once: it raises the
    unknown-parameter [ValueError] as soon as one annotation of the
    example names a parameter the schema does not have, and succeeds,
    the lookups in the schema included, when every annotation names a
    parameter of the schema. An annotation of the example is a match
    [finditer] reports; the first annotation of a string is one. *)
Theorem ExampleUtterance_new_validates (text : string) (intent : Intent) :
  ((exists m, In m (finditer text) /\
              parameter_schema intent !! group_name m = None) ->
   exists pname,
     parameter_schema intent !! pname = None /\
     ExampleUtterance_new text intent
     = Raise (unknown_parameter text pname (intent_name intent)))
  /\
  ((forall m, In m (finditer text) ->
              parameter_schema intent !! group_name m <> None) ->
   ExampleUtterance_new text intent
   = Ok {| example := text; _intent := intent |})
  /\
  (forall pre pname pvalue post,
      text = pre +:+ annotation pname pvalue +:+ post ->
      all_chars not_dollar pre = true ->
      groups_ok pname pvalue ->
      parameter_schema intent !! pname = None ->
      ExampleUtterance_new text intent
      = Raise (unknown_parameter text pname (intent_name intent))).
Proof.
  unfold ExampleUtterance_new, chunks, bind. cbn [example _intent].
  repeat split.
  - intros H. apply List.Exists_exists in H.
    destruct (chunks_loop_undeclared text intent _ H 0 [])
      as (pname & Hp & ->).
    eauto.
  - intros H. apply List.Forall_forall in H.
    destruct (chunks_loop_declared text intent _ H 0 [])
      as ([r e] & ->).
    reflexivity.
  - intros pre pname pvalue post -> Hpre Hok Hp.
    rewrite (finditer_fuel
               (String.length pre
                + S (String.length (annotation pname pvalue +:+ post))))
      by (rewrite length_app; lia).
    rewrite finditer_from_prefix, finditer_from_match by assumption.
    cbn [chunks_loop group_name]. now rewrite Hp.
Qed.

(** ** The matches of [finditer] *)

Lemma spans_in_order_weaken (from from' len : nat) (ms : list re_match) :
  from' <= from -> spans_in_order from len ms -> spans_in_order from' len ms.
Proof.
  destruct ms as [|m ms]; [trivial|].
  intros Hle (H1 & H2 & H3 & H4). cbn [spans_in_order]. repeat split; trivial.
  lia.
Qed.

Lemma finditer_from_in_order (fuel pos : nat) (s : string) :
  spans_in_order pos (pos + String.length s) (finditer_from fuel pos s).
Proof.
  revert pos s. induction fuel as [|fuel IH]; intros pos s; [exact I|].
  destruct s as [|c s]; [exact I|]. cbn [finditer_from].
  destruct (RE_EXAMPLE_PARAMETERS (String c s))
    as [[[pname pvalue] rest]|] eqn:E.
  - apply RE_EXAMPLE_PARAMETERS_elim in E as [E _].
    cbn [spans_in_order span_start span_end].
    rewrite E, length_app.
    pose proof (annotation_length pname pvalue) as Hlen.
    replace (String.length (annotation pname pvalue) + String.length rest
             - String.length rest)
      with (String.length (annotation pname pvalue)) by lia.
    repeat split; try lia.
    replace (pos + (String.length (annotation pname pvalue)
                    + String.length rest))
      with (pos + String.length (annotation pname pvalue)
            + String.length rest) by lia.
    apply IH.
  - apply (spans_in_order_weaken (S pos)); [lia|].
    replace (pos + String.length (String c s))
      with (S pos + String.length s) by (simpl; lia).
    apply IH.
Qed.

(** Every match reported covers an annotation of the text it was found
    in. *)
Lemma finditer_from_spans (fuel pos : nat) (s : string) (m : re_match) :
  In m (finditer_from fuel pos s) ->
  exists a rest,
    s = a +:+ annotation (group_name m) (group_value m) +:+ rest /\
    span_start m = pos + String.length a /\
    span_end m
    = span_start m
      + String.length (annotation (group_name m) (group_value m)) /\
    groups_ok (group_name m) (group_value m).
Proof.
  revert pos s. induction fuel as [|fuel IH]; intros pos s H; [destruct H|].
  destruct s as [|c s]; [destruct H|]. cbn [finditer_from] in H.
  destruct (RE_EXAMPLE_PARAMETERS (String c s))
    as [[[pname pvalue] rest]|] eqn:E.
  - apply RE_EXAMPLE_PARAMETERS_elim in E as [E Hok].
    destruct H as [<-|H].
    + exists EmptyString, rest.
      cbn [span_start span_end group_name group_value].
      rewrite app_empty_l. split; [exact E|]. split; [cbn; lia|].
      split; [rewrite E, length_app; lia | exact Hok].
    + apply IH in H as (a & rest' & Hs & Hp & He & Hm).
      exists (annotation pname pvalue +:+ a), rest'.
      split; [now rewrite E, Hs, app_assoc_str|].
      split; [rewrite Hp, E, !length_app; lia|]. now split.
  - apply IH in H as (a & rest' & Hs & Hp & He & Hm).
    exists (String c a), rest'. split; [now rewrite app_cons, Hs|].
    split; [rewrite Hp; simpl; lia|]. now split.
Qed.

(** X1. The span of every match of [finditer] is a piece of the text
    that reads [$name{value}] with the two groups of the match: [name]
    is a non-empty run of word characters, [value] a non-empty run
    without closing brace, and the span ends within the text. *)
Theorem finditer_match_is_annotation (text : string) (m : re_match) :
  In m (finditer text) ->
  groups_ok (group_name m) (group_value m) /\
  span_end m <= String.length text /\
  slice text (span_start m) (span_end m)
  = annotation (group_name m) (group_value m).
Proof.
  intros H. apply finditer_from_spans in H as (a & rest & Hs & Hp & He & Hm).
  split; [exact Hm|]. simpl in Hp. rewrite He, Hp, Hs. split.
  - rewrite !length_app. lia.
  - apply slice_middle.
Qed.

(** X2. The matches of [finditer] come in the order of the text and do
    not overlap: each one starts where the one before it ended or
    later, is not empty, and ends within the text. *)
Theorem finditer_spans_in_order (text : string) :
  spans_in_order 0 (String.length text) (finditer text).
Proof. apply (finditer_from_in_order (String.length text) 0 text). Qed.

(** ** The chunks of an utterance *)

Notation entity_declared := (entity_declared nonascii_word).
Notation df_chunks := (df_chunks nonascii_word).

(** X3. An utterance in which the pattern matches nowhere is tokenized,
    for any intent, into one text chunk holding the whole utterance, and
    into no chunk at all when it is empty. That is the case of every
    utterance without a dollar sign. *)
Theorem chunks_without_annotation (intent : Intent) (text : string) :
  (finditer text = [] ->
   chunks {| example := text; _intent := intent |} = Ok (text_only text))
  /\
  (all_chars not_dollar text = true -> finditer text = []).
Proof.
  split.
  - intros H. unfold chunks. cbn [example _intent]. rewrite H.
    cbn [chunks_loop bind]. unfold slice_from.
    rewrite Nat.sub_0_r, substring_whole. now destruct text.
  - apply finditer_from_no_dollar.
Qed.

Lemma chunks_loop_entities (self : string) (intent : Intent)
      (ms : list re_match) :
  Forall (fun m => groups_ok (group_name m) (group_value m)) ms ->
  forall last_end acc r e,
    chunks_loop self intent ms last_end acc = Ok (r, e) ->
    Forall (entity_declared intent) acc ->
    Forall (entity_declared intent) r.
Proof.
  induction 1 as [|m ms Hm _ IH]; intros last_end acc r e H Hacc.
  - now injection H as <- _.
  - cbn [chunks_loop] in H.
    destruct (parameter_schema intent !! group_name m) as [meta|] eqn:E;
      [|discriminate].
    apply IH in H; [exact H|].
    apply Forall_app_2.
    + destruct (0 <? span_start m); [|exact Hacc].
      apply Forall_app_2; [exact Hacc|]. now repeat constructor.
    + repeat constructor; [apply Hm..|]. now exists meta.
Qed.

(** X4. Every entity chunk that [chunks] returns names a parameter of
    the intent's schema and carries the entity class declared for it;
    its name is a non-empty run of word characters and its value a
    non-empty run without closing brace. *)
Theorem chunks_entities_declared (self : ExampleUtterance)
        (cs : list UtteranceChunk) :
  chunks self = Ok cs ->
  forall cls pname pvalue,
    In (EntityUtteranceChunk cls pname pvalue) cs ->
    groups_ok pname pvalue /\
    exists meta,
      parameter_schema (_intent self) !! pname = Some meta /\
      cls = entity_cls meta.
Proof.
  unfold chunks. intros H cls pname pvalue Hin.
  destruct (chunks_loop (example self) (_intent self)
                        (finditer (example self)) 0 []) as [[r e]|] eqn:E;
    [|discriminate].
  apply chunks_loop_entities in E; [| |constructor].
  - cbn [bind] in H. injection H as <-.
    assert (Forall (entity_declared (_intent self))
                   (r ++ [TextUtteranceChunk (slice_from (example self) e)])) as F.
    { apply Forall_app_2; [exact E|]. now repeat constructor. }
    destruct (slice_from (example self) e).
    + rewrite List.Forall_forall in E. exact (E _ Hin).
    + rewrite List.Forall_forall in F. exact (F _ Hin).
  - apply List.Forall_forall. intros m Hm.
    now apply finditer_from_spans in Hm as (_ & _ & _ & _ & _ & Hm).
Qed.

Lemma df_chunks_loop_mirrors (self : string) (intent : Intent)
      (ms : list re_match) :
  (forall m meta, In m ms ->
                  parameter_schema intent !! group_name m = Some meta ->
                  is_list meta = false) ->
  forall last_end acc,
    df_chunks_loop self intent ms last_end (map df_chunk acc)
    = match chunks_loop self intent ms last_end acc with
      | Ok (r, e) => Ok (map df_chunk r, e)
      | Raise x => Raise x
      end.
Proof.
  induction ms as [|m ms IH]; intros Hms last_end acc; [reflexivity|].
  cbn [chunks_loop df_chunks_loop].
  destruct (parameter_schema intent !! group_name m) as [meta|] eqn:E;
    [|reflexivity].
  rewrite (Hms m meta (or_introl eq_refl) E).
  rewrite <- IH by (intros m' meta' Hin; apply Hms; now right).
  f_equal. rewrite map_app. cbn [map df_chunk]. f_equal.
  destruct (0 <? span_start m); [|reflexivity]. now rewrite map_app.
Qed.

Lemma df_chunks_loop_list (self : string) (intent : Intent)
      (ms : list re_match) :
  (exists m meta, In m ms /\
                  parameter_schema intent !! group_name m = Some meta /\
                  is_list meta = true) ->
  forall last_end acc r last_end' acc',
    chunks_loop self intent ms last_end acc = Ok r ->
    df_chunks_loop self intent ms last_end' acc'
    = Raise (interpreter_error AttributeError).
Proof.
  induction ms as [|m ms IH]; intros (m0 & meta0 & Hin & Hm0 & Hl0);
    [destruct Hin|].
  intros last_end acc r last_end' acc' H.
  cbn [chunks_loop df_chunks_loop] in *.
  destruct (parameter_schema intent !! group_name m) as [meta|] eqn:E;
    [|discriminate].
  destruct (is_list meta) eqn:El; [reflexivity|].
  apply (IH ltac:(destruct Hin as [<-|Hin];
                  [congruence | now exists m0, meta0]) _ _ _ _ _ H).
Qed.

Lemma df_chunks_eq (self : ExampleUtterance) :
  (forall m meta, In m (finditer (example self)) ->
                  parameter_schema (_intent self) !! group_name m = Some meta ->
                  is_list meta = false) ->
  df_chunks self
  = match chunks self with
    | Ok cs => Ok (map df_chunk cs)
    | Raise x => Raise x
    end.
Proof.
  intros Hms. unfold df_chunks, chunks.
  change (@nil UsersaysChunk) with (map df_chunk []).
  rewrite df_chunks_loop_mirrors by exact Hms.
  destruct (chunks_loop (example self) (_intent self)
                        (finditer (example self)) 0 []) as [[r e]|];
    [|reflexivity].
  cbn [bind]. destruct (slice_from (example self) e); [reflexivity|].
  now rewrite map_app.
Qed.

(** X5. Where no annotation of the utterance names a list parameter,
    the older [df_chunks] and [chunks] split the utterance alike:
    [df_chunks] fails with the same exception where [chunks] fails, and
    otherwise returns, chunk by chunk, the user-defined text chunk with
    the same text, or the user-defined entity chunk with the value as
    text, the parameter name as alias and [@] followed by the entity
    name as meta. Where [chunks] succeeds on an utterance that
    annotates a list parameter, [df_chunks] fails with
    [AttributeError]. *)
Theorem df_chunks_mirrors_chunks (self : ExampleUtterance) :
  ((forall m meta, In m (finditer (example self)) ->
                   parameter_schema (_intent self) !! group_name m
                   = Some meta ->
                   is_list meta = false) ->
   df_chunks self
   = match chunks self with
     | Ok cs => Ok (map df_chunk cs)
     | Raise x => Raise x
     end)
  /\
  (forall cs,
      chunks self = Ok cs ->
      (exists m meta, In m (finditer (example self)) /\
                      parameter_schema (_intent self) !! group_name m
                      = Some meta /\
                      is_list meta = true) ->
      df_chunks self = Raise (interpreter_error AttributeError)).
Proof.
  split; [apply df_chunks_eq|].
  intros cs H Hlist. unfold df_chunks, chunks in *.
  destruct (chunks_loop (example self) (_intent self)
                        (finditer (example self)) 0 []) as [r|] eqn:E;
    [|discriminate].
  now rewrite (df_chunks_loop_list _ _ _ Hlist _ _ _ 0 [] E).
Qed.

(** ** The order of the chunks *)

Lemma substring_length (s : string) (n m : nat) :
  n + m <= String.length s -> String.length (substring n m s) = m.
Proof.
  revert n m. induction s as [|c s IH]; intros n m H; simpl in H.
  - replace n with 0 by lia. replace m with 0 by lia. reflexivity.
  - destruct n as [|n]; destruct m as [|m]; simpl; try reflexivity.
    + f_equal. apply IH. lia.
    + apply IH. lia.
    + apply IH. lia.
Qed.

Lemma alternate_snoc (l : list UtteranceChunk) (a b : UtteranceChunk) :
  alternate (l ++ [a]) -> is_text a <> is_text b ->
  alternate ((l ++ [a]) ++ [b]).
Proof.
  intros H Hab. induction l as [|c l IH]; [now split|].
  destruct l as [|d l].
  - destruct H as [H _]. cbn. now repeat split.
  - destruct H as [H1 H2]. split; [exact H1|]. now apply IH.
Qed.

Lemma alternate_middle (l l' : list UtteranceChunk) (a b : UtteranceChunk) :
  alternate (l ++ a :: b :: l') -> is_text a <> is_text b.
Proof.
  induction l as [|c l IH]; [now intros [H _]|].
  intros H. apply IH. destruct l; apply H.
Qed.

(** What the loop of [chunks] keeps about [result] and [last_end]:
    either nothing was found yet, or [result] alternates, ends with an
    entity chunk and does not start with an empty text chunk. *)
Lemma chunks_loop_alternate (self : string) (intent : Intent)
      (ms : list re_match) :
  forall last_end acc r e,
    spans_in_order last_end (String.length self) ms ->
    chunks_loop self intent ms last_end acc = Ok (r, e) ->
    (acc = [] /\ last_end = 0 \/
     alternate acc /\ 0 < last_end /\
     hd_error acc <> Some (TextUtteranceChunk EmptyString) /\
     exists l cls pname pvalue,
       acc = l ++ [EntityUtteranceChunk cls pname pvalue]) ->
    r = [] \/
    alternate r /\
    hd_error r <> Some (TextUtteranceChunk EmptyString) /\
    exists l cls pname pvalue, r = l ++ [EntityUtteranceChunk cls pname pvalue].
Proof.
  induction ms as [|m ms IH]; intros last_end acc r e Hms H Hacc.
  - injection H as <- _. destruct Hacc as [[-> _]|(? & _ & ? & ?)]; auto.
  - destruct Hms as (H1 & H2 & H3 & Hms). cbn [chunks_loop] in H.
    destruct (parameter_schema intent !! group_name m) as [meta|];
      [|discriminate].
    apply (IH _ _ _ _ Hms) in H; [exact H|]. right.
    destruct Hacc as [[-> ->]|(Ha & Hpos & Hhd & l & cls & pn & pv & ->)].
    + destruct (Nat.ltb_spec 0 (span_start m)) as [Hlt|Hge].
      * cbn [app]. repeat split; try (cbn; congruence); try lia.
        -- cbn. intros [= Hempty].
           apply (f_equal String.length) in Hempty. unfold slice in Hempty.
           rewrite substring_length in Hempty by lia. simpl in Hempty. lia.
        -- now exists [TextUtteranceChunk (slice self 0 (span_start m))],
             (entity_cls meta), (group_name m), (group_value m).
      * cbn [app]. repeat split; try (cbn; congruence); try lia.
        now exists [], (entity_cls meta), (group_name m), (group_value m).
    + destruct (Nat.ltb_spec 0 (span_start m)) as [Hlt|Hge]; [|lia].
      repeat split; try lia.
      * apply alternate_snoc; [apply alternate_snoc|]; cbn; congruence.
      * destruct l; exact Hhd.
      * now eexists _, (entity_cls meta), (group_name m), (group_value m).
Qed.

Lemma chunks_shape (self : ExampleUtterance) (cs : list UtteranceChunk) :
  chunks self = Ok cs ->
  alternate cs /\
  hd_error cs <> Some (TextUtteranceChunk EmptyString) /\
  forall l, cs <> l ++ [TextUtteranceChunk EmptyString].
Proof.
  unfold chunks. intros H.
  destruct (chunks_loop (example self) (_intent self)
                        (finditer (example self)) 0 []) as [[r e]|] eqn:E;
    [|discriminate].
  cbn [bind] in H. injection H as <-.
  apply chunks_loop_alternate in E;
    [|apply (finditer_from_in_order (String.length (example self)) 0)
     | now left].
  destruct (slice_from (example self) e) as [|c t] eqn:Et.
  - destruct E as [->|(Ha & Hhd & l & cls & pn & pv & ->)].
    + repeat split; [discriminate|]. intros l H. now destruct l.
    + repeat split; trivial. intros l' H.
      apply app_inj_tail in H as [_ H]. discriminate H.
  - destruct E as [->|(Ha & Hhd & l & cls & pn & pv & ->)].
    + cbn [app]. repeat split; [discriminate|]. intros l H.
      change [TextUtteranceChunk (String c t)]
        with ([] ++ [TextUtteranceChunk (String c t)]) in H.
      apply app_inj_tail in H as [_ H]. discriminate H.
    + repeat split.
      * apply alternate_snoc; [exact Ha | cbn; congruence].
      * destruct l; exact Hhd.
      * intros l' H. apply app_inj_tail in H as [_ H]. discriminate H.
Qed.

(** X6. In the chunks of an utterance, text chunks and entity chunks
    alternate: no two neighbours are of the same kind. *)
Theorem chunks_alternate (self : ExampleUtterance)
        (cs : list UtteranceChunk) :
  chunks self = Ok cs -> alternate cs.
Proof. intros H. now apply chunks_shape in H. Qed.

(** X7. A text chunk with empty text is never the first nor the last
    chunk of an utterance: wherever one occurs, the chunk before it and
    the chunk after it are entity chunks. *)
Theorem chunks_empty_text_only_inside (self : ExampleUtterance)
        (cs l1 l2 : list UtteranceChunk) :
  chunks self = Ok cs ->
  cs = l1 ++ TextUtteranceChunk EmptyString :: l2 ->
  (exists l cls pname pvalue,
      l1 = l ++ [EntityUtteranceChunk cls pname pvalue]) /\
  (exists cls pname pvalue l,
      l2 = EntityUtteranceChunk cls pname pvalue :: l).
Proof.
  intros H ->. apply chunks_shape in H as (Ha & Hhd & Hlast). split.
  - destruct (exists_last (l := l1)) as (l & x & ->).
    + intros ->. now apply Hhd.
    + rewrite <- app_assoc in Ha. apply alternate_middle in Ha.
      destruct x as [|cls pn pv]; [now cbn in Ha|]. now exists l, cls, pn, pv.
  - destruct l2 as [|y l2]; [now destruct (Hlast l1)|].
    apply alternate_middle in Ha.
    destruct y as [|cls pn pv]; [now cbn in Ha|]. now exists cls, pn, pv, l2.
Qed.

(** ** Annotations with an empty value *)

Notation open_annotation := (open_annotation nonascii_word).

Lemma open_annotation_suffix (a b : string) :
  open_annotation (a +:+ b) = false -> open_annotation b = false.
Proof.
  induction a as [|c a IH]; [trivial|]. rewrite app_cons.
  cbn [open_annotation]. intros H. apply orb_false_elim in H as [_ H].
  now apply IH.
Qed.

Lemma open_annotation_intro (x pname y : string) :
  pname <> EmptyString -> all_chars is_word pname = true ->
  all_chars not_rbrace y = true ->
  open_annotation (x +:+ String "$" (pname +:+ String "{" y)) = true.
Proof.
  intros Hne Hw Hy. induction x as [|c x IH].
  - rewrite app_empty_l. cbn [open_annotation].
    rewrite (span_exact is_word pname "{" y Hw lbrace_not_word).
    destruct pname; [congruence|]. now rewrite Hy.
  - rewrite app_cons. cbn [open_annotation]. rewrite IH. apply orb_true_r.
Qed.

Lemma open_annotation_no_dollar (s : string) :
  all_chars not_dollar s = true -> open_annotation s = false.
Proof.
  induction s as [|c s IH]; [reflexivity|]. cbn [all_chars open_annotation].
  intros H. apply andb_prop in H as [Hc Hs]. rewrite (IH Hs).
  unfold not_dollar in Hc. apply negb_true_iff in Hc. now rewrite Hc.
Qed.

(** Two ways of splitting one string. *)
Lemma app_eq_app (a b c d : string) :
  a +:+ b = c +:+ d ->
  (exists m, c = a +:+ m /\ b = m +:+ d) \/
  (exists x m, a = c +:+ String x m /\ d = String x m +:+ b).
Proof.
  revert c. induction a as [|x a IH]; intros c H.
  - left. exists c. now rewrite app_empty_l in *.
  - destruct c as [|y c].
    + right. exists x, a. now rewrite app_empty_l in *.
    + rewrite !app_cons in H. injection H as <- H.
      destruct (IH c H) as [(m & -> & ->)|(z & m & -> & ->)].
      * left. now exists m.
      * right. now exists z, m.
Qed.

Lemma alternate_tail (c : UtteranceChunk) (cs : list UtteranceChunk) :
  alternate (c :: cs) -> alternate cs.
Proof. destruct cs; [trivial|]. now intros [_ H]. Qed.

Lemma chunks_source (self : ExampleUtterance) (cs : list UtteranceChunk) :
  chunks self = Ok cs -> reconstruct cs = example self.
Proof.
  unfold chunks, bind.
  destruct (chunks_loop _ _ _ _ _) as [[r e]|] eqn:E; [|discriminate].
  intros [= <-].
  apply (chunks_loop_source _ _ _ _ EmptyString EmptyString) in E;
    try reflexivity.
  simpl in E. rewrite !app_empty_l in E.
  destruct (slice_from (example self) e).
  - now rewrite app_empty_r in E.
  - rewrite reconstruct_app. simpl. now rewrite app_empty_r.
Qed.

Lemma chunks_declared (self : ExampleUtterance) (cs : list UtteranceChunk) :
  chunks self = Ok cs -> Forall (entity_declared (_intent self)) cs.
Proof.
  unfold chunks. intros H.
  destruct (chunks_loop (example self) (_intent self)
                        (finditer (example self)) 0 []) as [[r e]|] eqn:E;
    [|discriminate].
  apply chunks_loop_entities in E; [| |constructor].
  - cbn [bind] in H. injection H as <-.
    destruct (slice_from (example self) e); [exact E|].
    apply Forall_app_2; [exact E|]. now repeat constructor.
  - apply List.Forall_forall. intros m Hm.
    now apply finditer_from_spans in Hm as (_ & _ & _ & _ & _ & Hm).
Qed.

(** Where an annotation with an empty value sits in a tokenization whose
    chunks alternate: inside the text of one text chunk, unless the text
    before it ends inside the braces of an annotation. *)
Lemma empty_annotation_located (intent : Intent) (pname : string) :
  all_chars is_word pname = true ->
  forall cs pre post,
    Forall (entity_declared intent) cs -> alternate cs ->
    reconstruct cs = pre +:+ annotation pname EmptyString +:+ post ->
    open_annotation pre = false ->
    exists cs1 a b cs2,
      cs = cs1 ++ TextUtteranceChunk
                    (a +:+ annotation pname EmptyString +:+ b) :: cs2 /\
      reconstruct cs1 +:+ a = pre /\ b +:+ reconstruct cs2 = post.
Proof.
  intros Hw.
  assert (forall post,
             annotation pname EmptyString +:+ post
             = String "$" (pname +:+ String "{" (String "}" post))) as He.
  { intros post. now rewrite annotation_app, app_empty_l. }
  assert (all_chars not_dollar (pname +:+ String "{" (String "}" EmptyString))
          = true) as Hnd.
  { rewrite all_chars_app. apply andb_true_intro. split; [|reflexivity].
    clear He. induction pname as [|c n IH]; [reflexivity|].
    cbn [all_chars] in *. apply andb_prop in Hw as [Hc Hn].
    rewrite (IH Hn), andb_true_r. unfold not_dollar.
    now rewrite (word_not_dollar c Hc). }
  induction cs as [|c cs IH]; intros pre post F Ha Hr Hopen.
  { cbn [reconstruct] in Hr. apply (f_equal String.length) in Hr.
    rewrite !length_app, annotation_length in Hr. simpl in Hr. lia. }
  cbn [reconstruct] in Hr. inversion F as [|? ? Fc Fcs]; subst.
  destruct (app_eq_app _ _ _ _ Hr) as [(m & Hpre & Hrest)|(x & m & Hsrc & Hrest)].
  { destruct (IH m post Fcs (alternate_tail _ _ Ha) Hrest)
      as (cs1 & a & b & cs2 & -> & H1 & H2).
    { apply (open_annotation_suffix (chunk_source c)). now rewrite <- Hpre. }
    exists (c :: cs1), a, b, cs2. split; [reflexivity|]. split; [|exact H2].
    cbn [reconstruct]. now rewrite app_assoc_str, H1. }
  pose proof Hrest as Hx. rewrite He, app_cons in Hx. injection Hx as <- _.
  destruct c as [t|cls n2 v2]; cbn [chunk_source] in Hsrc.
  - destruct (app_eq_app _ _ _ _ Hrest) as [(k & Hk & Hpost)|(y & k & Hek & HR)].
    + exists [], pre, k, cs. split; [|split].
      * cbn [app]. now rewrite Hsrc, Hk.
      * apply app_empty_l.
      * now symmetry.
    + exfalso. rewrite <- (app_empty_r (annotation pname EmptyString)) in Hek.
      rewrite He, app_cons in Hek. injection Hek as Hek.
      rewrite Hek, all_chars_app in Hnd. apply andb_prop in Hnd as [_ Hy].
      cbn [all_chars] in Hy. apply andb_prop in Hy as [Hy _].
      destruct cs as [|c2 cs2]; [discriminate HR|].
      destruct c2 as [t2|cls n2 v2]; [destruct Ha as [Ha _]; now apply Ha|].
      cbn [reconstruct chunk_source] in HR. rewrite annotation_app in HR.
      rewrite app_cons in HR. injection HR as <- _. discriminate Hy.
  - exfalso. destruct Fc as [(Hn2 & Hw2 & Hv2 & Hr2) _].
    destruct pre as [|p0 pre'].
    + rewrite app_empty_l in Hr. cbn [chunk_source] in Hr.
      pose proof (RE_EXAMPLE_PARAMETERS_intro n2 v2 (reconstruct cs)
                    (conj Hn2 (conj Hw2 (conj Hv2 Hr2)))) as E.
      rewrite Hr, RE_EXAMPLE_PARAMETERS_empty_value in E by exact Hw.
      discriminate E.
    + rewrite <- (app_empty_r (annotation n2 v2)) in Hsrc.
      rewrite annotation_app, app_cons in Hsrc. injection Hsrc as <- Hsrc.
      destruct (app_eq_app _ _ _ _ Hsrc) as [(k & Hk & Hb)|(z & w & Hn & Hb)].
      * destruct k as [|k0 k]; [rewrite app_empty_l in Hb; discriminate Hb|].
        rewrite app_cons in Hb. injection Hb as <- Hb.
        destruct (app_eq_app _ _ _ _ Hb) as [(j & Hj & Hbrace)|(z & w & Hv & _)].
        -- destruct j as [|j0 j]; [rewrite app_empty_l in Hbrace;
                                   discriminate Hbrace|].
           rewrite app_cons in Hbrace. injection Hbrace as _ Hbrace.
           now destruct j.
        -- rewrite Hv, all_chars_app in Hr2. apply andb_prop in Hr2 as [Hk2 _].
           rewrite Hk in Hopen.
           pose proof (open_annotation_intro EmptyString n2 k Hn2 Hw2 Hk2) as O.
           rewrite app_empty_l in O. congruence.
      * rewrite app_cons in Hb. injection Hb as <- _.
        rewrite Hn, all_chars_app in Hw2. apply andb_prop in Hw2 as [_ Hz].
        cbn [all_chars] in Hz. apply andb_prop in Hz as [Hz _].
        apply word_not_dollar in Hz. discriminate Hz.
Qed.


End TokenizerFacts.

(** * The responses *)

Lemma post_init_strings (replies : list string) :
  QuickRepliesIntentResponse_post_init (map YStr replies)
  = match find (fun rep => 20 <? String.length rep) replies with
    | Some rep => Raise (quick_reply_too_long (YStr rep) (String.length rep))
    | None => Ok tt
    end.
Proof.
  induction replies as [|rep replies IH]; [reflexivity|].
  cbn [map QuickRepliesIntentResponse_post_init py_len bind find].
  destruct (20 <? String.length rep); [reflexivity | exact IH].
Qed.

Lemma post_init_bound (replies : list yaml) :
  QuickRepliesIntentResponse_post_init replies = Ok tt ->
  forall rep, In rep replies -> exists n, py_len rep = Ok n /\ n <= 20.
Proof.
  induction replies as [|r replies IH]; intros H rep Hin; [destruct Hin|].
  cbn [QuickRepliesIntentResponse_post_init] in H. unfold bind in H.
  destruct (py_len r) as [n|] eqn:E; [|discriminate].
  destruct (Nat.ltb_spec 20 n); [discriminate|].
  destruct Hin as [<-|Hin]; [eauto | now apply IH].
Qed.

(** C7. A quick-replies response exists only with replies of at most 20
    characters: built from a list of strings, it raises the too-long
    [ValueError] when one of them has more than 20 characters and is the
    response of those replies when none has; built from one string, 20
    is the last length that passes; and whatever [from_yaml] returns
    has no reply longer than 20. *)
Theorem QuickReplies_at_most_20 :
  (forall replies : list string,
      Exists (fun rep => 20 < String.length rep) replies ->
      exists rep,
        In rep replies /\ 20 < String.length rep /\
        QuickRepliesIntentResponse_from_yaml (YList (map YStr replies))
        = Raise (quick_reply_too_long (YStr rep) (String.length rep)))
  /\
  (forall replies : list string,
      Forall (fun rep => String.length rep <= 20) replies ->
      QuickRepliesIntentResponse_from_yaml (YList (map YStr replies))
      = Ok (QuickRepliesIntentResponse (map YStr replies)))
  /\
  (forall rep : string,
      QuickRepliesIntentResponse_from_yaml (YStr rep)
      = if 20 <? String.length rep
        then Raise (quick_reply_too_long (YStr rep) (String.length rep))
        else Ok (QuickRepliesIntentResponse [YStr rep]))
  /\
  (forall (data : yaml) (replies : list yaml),
      QuickRepliesIntentResponse_from_yaml data
      = Ok (QuickRepliesIntentResponse replies) ->
      forall rep, In (YStr rep) replies -> String.length rep <= 20).
Proof.
  repeat split.
  - intros replies H. apply List.Exists_exists in H as (rep & Hin & Hlen).
    cbn [QuickRepliesIntentResponse_from_yaml].
    unfold QuickRepliesIntentResponse_new, bind. rewrite post_init_strings.
    destruct (find _ replies) as [rep'|] eqn:E.
    + apply find_some in E as [Hin' Hlen'].
      apply Nat.ltb_lt in Hlen'. eauto.
    + apply (find_none _ _ E) in Hin. apply Nat.ltb_ge in Hin. lia.
  - intros replies H. cbn [QuickRepliesIntentResponse_from_yaml].
    unfold QuickRepliesIntentResponse_new, bind. rewrite post_init_strings.
    destruct (find _ replies) as [rep'|] eqn:E; [|reflexivity].
    apply find_some in E as [Hin' Hlen']. apply Nat.ltb_lt in Hlen'.
    rewrite List.Forall_forall in H. specialize (H _ Hin'). lia.
  - intros rep. cbn [QuickRepliesIntentResponse_from_yaml].
    unfold QuickRepliesIntentResponse_new.
    cbn [QuickRepliesIntentResponse_post_init py_len bind].
    destruct (20 <? String.length rep); reflexivity.
  - intros data replies H rep Hin.
    assert (QuickRepliesIntentResponse_post_init replies = Ok tt) as Hpost.
    { destruct data; try discriminate;
        cbn [QuickRepliesIntentResponse_from_yaml] in H;
        unfold QuickRepliesIntentResponse_new, bind in H.
      - destruct (QuickRepliesIntentResponse_post_init [YStr s]) as [[]|] eqn:E;
          [|discriminate].
        injection H as <-. exact E.
      - destruct (QuickRepliesIntentResponse_post_init l) as [[]|] eqn:E;
          [|discriminate].
        injection H as <-. exact E. }
    destruct (post_init_bound _ Hpost _ Hin) as (n & Hn & Hle).
    injection Hn as <-. exact Hle.
Qed.

(** C8. [CustomPayloadIntentResponse.from_yaml] accepts the mappings of
    one key to a mapping, and nothing else: the key becomes the name and
    the value the payload; every other input raises a [ValueError], a
    message of its own for what is not a mapping, for a number of keys
    other than one, and for a value that is not a mapping. *)
Theorem CustomPayload_from_yaml_shape :
  (forall (k : yaml) (content : list (yaml * yaml)),
      CustomPayloadIntentResponse_from_yaml (YDict [(k, YDict content)])
      = Ok (CustomPayloadIntentResponse k content))
  /\
  (forall (data : yaml) (r : IntentResponse),
      CustomPayloadIntentResponse_from_yaml data = Ok r ->
      exists k content,
        data = YDict [(k, YDict content)] /\
        r = CustomPayloadIntentResponse k content)
  /\
  (forall data : yaml,
      (forall d, data <> YDict d) ->
      CustomPayloadIntentResponse_from_yaml data
      = Raise (custom_not_a_dict data))
  /\
  (forall d : list (yaml * yaml),
      length d <> 1 ->
      CustomPayloadIntentResponse_from_yaml (YDict d)
      = Raise (custom_key_count d))
  /\
  (forall k v : yaml,
      (forall content, v <> YDict content) ->
      CustomPayloadIntentResponse_from_yaml (YDict [(k, v)])
      = Raise (custom_not_a_payload k v))
  /\
  (forall (data : yaml) (e : exn),
      CustomPayloadIntentResponse_from_yaml data = Raise e ->
      exn_cls e = ValueError).
Proof.
  repeat split.
  - intros data r H. destruct data; try discriminate.
    destruct d as [|[k v] [|? ?]]; try discriminate.
    destruct v; try discriminate. injection H as <-. eauto.
  - intros data H. destruct data; try reflexivity. now destruct (H d).
  - intros d H. destruct d as [|[k v] [|? ?]]; try reflexivity.
    now destruct H.
  - intros k v H. destruct v; try reflexivity. now destruct (H d).
  - intros data e H. destruct data; try (injection H as <-; reflexivity).
    destruct d as [|[k v] [|? ?]]; try (injection H as <-; reflexivity).
    destruct v; try (injection H as <-; reflexivity). discriminate.
Qed.

(** C1, as the code has it. In the default group only [text] passes the
    test on the kind of an item: an item of kind [text] is handed to the
    parser of text responses, an item of any other kind, [custom]
    included, raises the [ValueError] of the group. So does the document
    whose default group holds that one item. *)
Theorem default_group_accepts_text_only (r_type r_data : yaml) :
  build_response DEFAULT r_type r_data
  = (if is_str "text" r_type
     then TextIntentResponse_from_yaml r_data
     else Raise (not_allowed_in_default r_type))
  /\
  _build_responses
    (YDict [(YStr "default", YList [YDict [(r_type, r_data)]])])
  = (if is_str "text" r_type
     then let* r := TextIntentResponse_from_yaml r_data in
          Ok [(DEFAULT, [r])]
     else Raise (not_allowed_in_default r_type)).
Proof.
  assert (build_response DEFAULT r_type r_data
          = (if is_str "text" r_type
             then TextIntentResponse_from_yaml r_data
             else Raise (not_allowed_in_default r_type))) as H.
  { unfold build_response. cbn [IntentResponseGroup_eqb andb].
    destruct (is_str "text" r_type); reflexivity. }
  split; [exact H|].
  cbn [_build_responses _build_responses_loop IntentResponseGroup_of_value
       is_str py_iter map_res build_item py_len length bind fst snd].
  change (IntentResponseGroup_of_value (YStr "default")) with (Ok DEFAULT).
  cbn [bind negb Nat.eqb map_res fst snd]. rewrite H.
  destruct (is_str "text" r_type); [|reflexivity].
  destruct (TextIntentResponse_from_yaml r_data); reflexivity.
Qed.

(** * The loader *)

Section LoaderFacts.

Variable nonascii_word : ascii -> bool.
Variable py_str : yaml -> string.
Variable language_codes : list string.

Notation load_document := (load_document nonascii_word py_str).
Notation intent_language_data_for :=
  (intent_language_data_for nonascii_word py_str).
Notation intent_language_data_body :=
  (intent_language_data_body nonascii_word py_str language_codes).
Notation intent_language_data :=
  (intent_language_data nonascii_word py_str language_codes).

(** A call with a member of [LanguageCode] is a call of
    [intent_language_data_for]. *)
Lemma intent_language_data_member (agent_cls : Agent) (intent_cls : Intent)
      (code : LanguageCode) :
  intent_language_data agent_cls intent_cls (LanguageMember code)
  = intent_language_data_for agent_cls intent_cls code.
Proof.
  unfold intent_language_data, intent_language_data_body,
    intent_language_data_for, bind.
  now destruct (agent_language_folder agent_cls).
Qed.

(** C2, as the code has it. For an empty language file the loader
    returns language data whose [responses] is an empty list, not a
    dictionary, and returns it bare, not keyed by the language code: the
    call for all the languages of the agent then fails on the
    subscript. *)
Theorem null_document_responses_is_a_list
        (agent_cls : Agent) (intent_cls : Intent) (code : LanguageCode)
        (language_folder : string) :
  agent_language_folder agent_cls = Ok language_folder ->
  language_file agent_cls (value code) (intent_name intent_cls)
  = Some (Ok YNull) ->
  intent_language_data agent_cls intent_cls (LanguageMember code)
  = Ok (Bare {| example_utterances := [];
                slot_filling_prompts := YDict [];
                responses := ResponsesList [] |})
  /\
  (forall codes, languages agent_cls = code :: codes ->
     intent_language_data agent_cls intent_cls NoLanguage
     = Raise (failed_to_load (intent_name intent_cls)
                             (interpreter_error TypeError))).
Proof.
  intros Hfolder Hfile.
  assert (intent_language_data_for agent_cls intent_cls code
          = Ok (Bare {| example_utterances := [];
                        slot_filling_prompts := YDict [];
                        responses := ResponsesList [] |})) as Hfor.
  { unfold intent_language_data_for, load_language.
    rewrite Hfolder. cbn [bind]. rewrite Hfile. reflexivity. }
  split.
  - now rewrite intent_language_data_member.
  - intros codes Hcodes.
    unfold intent_language_data, intent_language_data_body.
    rewrite Hfolder, Hcodes. cbn [bind all_languages].
    rewrite Hfor. reflexivity.
Qed.


(** What the loader raises while it tokenizes the examples, dispatches
    the responses and decodes the groups is raised by the body as it
    is, and so becomes the cause. *)
Lemma load_document_raises (intent_cls : Intent) (code : LanguageCode)
      (d : list (yaml * yaml)) (items : list yaml) :
  d <> [] ->
  dict_get "examples" d = Some (YList items) ->
  forall e,
    (map_res (fun s => ExampleUtterance_new nonascii_word (to_str py_str s)
                                            intent_cls) items = Raise e
     \/ (exists examples,
            map_res (fun s => ExampleUtterance_new nonascii_word
                                                   (to_str py_str s)
                                                   intent_cls) items
            = Ok examples) /\
        exists responses_data,
          dict_get "responses" d = Some responses_data /\
          _build_responses responses_data = Raise e) ->
    load_document intent_cls code (YDict d) = Raise e.
Proof.
  intros Hd Hex e H. unfold load_document.
  destruct d as [|kv d]; [congruence|]. cbn [truthy negb].
  rewrite Hex. cbn [py_iter bind].
  destruct H as [->|[[examples ->] (responses_data & -> & Hr)]];
    [reflexivity|].
  cbn [bind]. now rewrite Hr.
Qed.

End LoaderFacts.

(** * The claims at concrete inputs *)

Lemma chunks_adjacent_annotations_empty_text_witness :
  (parameter_schema user_name_give !! "user_name"
   = Some {| name := "user_name"; entity_cls := Sys_Person;
             is_list := false; required := true; default := YNull |}
   /\ groups_ok ascii_only "user_name" "Al"
   /\ groups_ok ascii_only "user_name" "Bo")
  /\ chunks ascii_only {| example := "$user_name{Al}$user_name{Bo}";
                          _intent := user_name_give |}
     = Ok [EntityUtteranceChunk Sys_Person "user_name" "Al";
           TextUtteranceChunk EmptyString;
           EntityUtteranceChunk Sys_Person "user_name" "Bo"]
  /\ df_chunks ascii_only {| example := "$user_name{Al}$user_name{Bo}";
                             _intent := user_name_give |}
     = Ok [UsersaysEntityChunk "Al" "user_name" "@Sys.Person" true;
           UsersaysTextChunk EmptyString true;
           UsersaysEntityChunk "Bo" "user_name" "@Sys.Person" true].
Proof.
  assert (forall v, v <> EmptyString -> all_chars not_rbrace v = true ->
                    groups_ok ascii_only "user_name" v) as Hok.
  { intros v Hv Hr. repeat split; [discriminate | exact Hv | exact Hr]. }
  assert (groups_ok ascii_only "user_name" "Al") as H1
      by (apply Hok; [discriminate | reflexivity]).
  assert (groups_ok ascii_only "user_name" "Bo") as H2
      by (apply Hok; [discriminate | reflexivity]).
  split; [|split].
  - split; [vm_compute; reflexivity | split; assumption].
  - apply (chunks_adjacent_annotations_empty_text
             ascii_only user_name_give "user_name" "Al" "user_name" "Bo"
             _ _ eq_refl eq_refl H1 H2).
  - vm_compute. reflexivity.
Defined.

Lemma chunks_reconstruct_witness :
  chunks ascii_only {| example := "My name is $user_name{Guido}!";
                       _intent := user_name_give |}
  = Ok [TextUtteranceChunk "My name is ";
        EntityUtteranceChunk Sys_Person "user_name" "Guido";
        TextUtteranceChunk "!"]
  /\ reconstruct [TextUtteranceChunk "My name is ";
                  EntityUtteranceChunk Sys_Person "user_name" "Guido";
                  TextUtteranceChunk "!"]
     = "My name is $user_name{Guido}!".
Proof.
  split; [vm_compute; reflexivity|].
  apply (chunks_reconstruct
           ascii_only {| example := "My name is $user_name{Guido}!";
                         _intent := user_name_give |}).
  vm_compute. reflexivity.
Defined.

Lemma chunks_single_annotation_witness :
  (parameter_schema user_name_give !! "user_name"
   = Some {| name := "user_name"; entity_cls := Sys_Person;
             is_list := false; required := true; default := YNull |}
   /\ groups_ok ascii_only "user_name" "Guido")
  /\ chunks ascii_only {| example := "$user_name{Guido}";
                          _intent := user_name_give |}
     = Ok [EntityUtteranceChunk Sys_Person "user_name" "Guido"].
Proof.
  assert (groups_ok ascii_only "user_name" "Guido") as Hok
      by (repeat split; (discriminate || reflexivity)).
  split; [split; [vm_compute; reflexivity | exact Hok]|].
  apply (chunks_single_annotation
           ascii_only user_name_give "user_name" "Guido" _ eq_refl Hok).
Defined.

Lemma ExampleUtterance_new_validates_witness :
  (exists pname,
      parameter_schema user_name_give !! pname = None /\
      ExampleUtterance_new ascii_only "I am $nickname{Al}" user_name_give
      = Raise (unknown_parameter "I am $nickname{Al}" pname
                                 "smalltalk.user_name_give"))
  /\ ExampleUtterance_new ascii_only "I am $user_name{Al}" user_name_give
     = Ok {| example := "I am $user_name{Al}"; _intent := user_name_give |}
  /\ ExampleUtterance_new ascii_only "I am $nickname{Al}" user_name_give
     = Raise (unknown_parameter "I am $nickname{Al}" "nickname"
                                "smalltalk.user_name_give").
Proof.
  split; [|split].
  - apply (proj1 (ExampleUtterance_new_validates
                    ascii_only "I am $nickname{Al}" user_name_give)).
    exists {| span_start := 5; span_end := 18;
              group_name := "nickname"; group_value := "Al" |}.
    split; [vm_compute; auto | vm_compute; reflexivity].
  - apply (proj1 (proj2 (ExampleUtterance_new_validates
                           ascii_only "I am $user_name{Al}" user_name_give))).
    intros m [<-|[]]. vm_compute. discriminate.
  - apply (proj2 (proj2 (ExampleUtterance_new_validates
                           ascii_only "I am $nickname{Al}" user_name_give))
             "I am " "nickname" "Al" EmptyString).
    + reflexivity.
    + reflexivity.
    + repeat split; (discriminate || reflexivity).
    + vm_compute. reflexivity.
Defined.



Lemma QuickReplies_at_most_20_witness :
  QuickRepliesIntentResponse_from_yaml (YStr x20)
  = Ok (QuickRepliesIntentResponse [YStr x20])
  /\ QuickRepliesIntentResponse_from_yaml (YStr x21)
     = Raise (quick_reply_too_long (YStr x21) 21)
  /\ QuickRepliesIntentResponse_from_yaml (YList (map YStr ["Order Pizza"; x20]))
     = Ok (QuickRepliesIntentResponse (map YStr ["Order Pizza"; x20]))
  /\ (exists rep,
         In rep ["Order Pizza"; x21] /\ 20 < String.length rep /\
         QuickRepliesIntentResponse_from_yaml
           (YList (map YStr ["Order Pizza"; x21]))
         = Raise (quick_reply_too_long (YStr rep) (String.length rep))).
Proof.
  destruct QuickReplies_at_most_20 as (Hlong & Hshort & Hone & _).
  split; [exact (Hone x20)|]. split; [exact (Hone x21)|]. split.
  - apply Hshort. repeat constructor; vm_compute; lia.
  - apply Hlong. right. left. vm_compute. lia.
Defined.

Lemma CustomPayload_from_yaml_shape_witness :
  CustomPayloadIntentResponse_from_yaml location_payload
  = Ok (CustomPayloadIntentResponse (YStr "loc") [(YStr "lat", YInt 1)])
  /\ CustomPayloadIntentResponse_from_yaml
       (YDict [(YStr "a", YInt 1); (YStr "b", YInt 2)])
     = Raise (custom_key_count [(YStr "a", YInt 1); (YStr "b", YInt 2)])
  /\ CustomPayloadIntentResponse_from_yaml
       (YDict [(YStr "a", YStr "not-a-mapping")])
     = Raise (custom_not_a_payload (YStr "a") (YStr "not-a-mapping"))
  /\ CustomPayloadIntentResponse_from_yaml (YStr "loc")
     = Raise (custom_not_a_dict (YStr "loc")).
Proof.
  destruct CustomPayload_from_yaml_shape
    as (Hok & _ & Hdict & Hcount & Hvalue & _).
  split; [apply Hok|]. split; [apply Hcount; discriminate|].
  split; [apply Hvalue; discriminate | apply Hdict; discriminate].
Defined.

(** C1, as the claim has it, fails: a custom payload that parses, and
    that the rich group accepts, is refused in the default group. *)
Lemma default_group_rejects_custom :
  CustomPayloadIntentResponse_from_yaml location_payload
  = Ok (CustomPayloadIntentResponse (YStr "loc") [(YStr "lat", YInt 1)])
  /\ _build_responses
       (YDict [(YStr "rich", YList [YDict [(YStr "custom", location_payload)]])])
     = Ok [(RICH, [CustomPayloadIntentResponse (YStr "loc")
                                               [(YStr "lat", YInt 1)]])]
  /\ ~ (exists responses,
           _build_responses
             (YDict [(YStr "default",
                      YList [YDict [(YStr "custom", location_payload)]])])
           = Ok responses).
Proof.
  split; [reflexivity|]. split; [reflexivity|].
  intros [responses H]. vm_compute in H. discriminate.
Qed.

Lemma null_document_responses_is_a_list_witness :
  (agent_language_folder (agent_with YNull) = Ok "example_agent/language"
   /\ language_file (agent_with YNull) (value en) (intent_name user_name_give)
      = Some (Ok YNull))
  /\ intent_language_data ascii_only no_str ["en"] (agent_with YNull)
                          user_name_give (LanguageMember en)
     = Ok (Bare {| example_utterances := [];
                   slot_filling_prompts := YDict [];
                   responses := ResponsesList [] |})
  /\ intent_language_data ascii_only no_str ["en"] (agent_with YNull)
                          user_name_give NoLanguage
     = Raise (failed_to_load "smalltalk.user_name_give"
                             (interpreter_error TypeError)).
Proof.
  split; [split; reflexivity|].
  destruct (null_document_responses_is_a_list
              ascii_only no_str ["en"] (agent_with YNull) user_name_give en
              "example_agent/language" eq_refl eq_refl) as [H1 H2].
  split; [exact H1 | exact (H2 [] eq_refl)].
Defined.



(** * More about the responses *)

Lemma is_str_eq (s : string) (v : yaml) : is_str s v = true -> v = YStr s.
Proof.
  destruct v; try discriminate. simpl. intros H.
  apply String.eqb_eq in H. now subst.
Qed.

Lemma is_str_refl (s : string) : is_str s (YStr s) = true.
Proof. apply String.eqb_refl. Qed.

Lemma map_res_In {A B : Type} (f : A -> res B) (l : list A) (ys : list B) :
  map_res f l = Ok ys ->
  forall y, In y ys -> exists x, In x l /\ f x = Ok y.
Proof.
  revert ys. induction l as [|x l IH]; intros ys H y Hy.
  - injection H as <-. destruct Hy.
  - cbn [map_res] in H. destruct (f x) as [y0|] eqn:E; [|discriminate].
    cbn [bind] in H. destruct (map_res f l) as [ys0|]; [|discriminate].
    injection H as <-. destruct Hy as [<-|Hy].
    + exists x. split; [now left | exact E].
    + destruct (IH ys0 eq_refl y Hy) as (x' & Hin & Hx'). exists x'.
      split; [now right | exact Hx'].
Qed.

Lemma dict_set_In {K V : Type} (eqb : K -> K -> bool) (k k' : K) (v v' : V)
      (d : list (K * V)) :
  In (k', v') (dict_set eqb k v d) -> (k', v') = (k, v) \/ In (k', v') d.
Proof.
  induction d as [|[k0 v0] d IH]; simpl.
  - intros [H|[]]. left. congruence.
  - destruct (eqb k k0); simpl; intros [H|H].
    + left. congruence.
    + right. now right.
    + right. now left.
    + apply IH in H as [H|H]; [now left | right; now right].
Qed.

Lemma build_response_kind (response_group : IntentResponseGroup)
        (r_type r_data : yaml) (r : IntentResponse) :
  build_response response_group r_type r_data = Ok r ->
  r_type = YStr (response_type r) /\
  (response_group = DEFAULT -> exists choices, r = TextIntentResponse choices).
Proof.
  unfold build_response. intros H.
  destruct (is_str "text" r_type) eqn:Etext.
  { rewrite andb_false_r in H. apply is_str_eq in Etext.
    destruct r_data; try discriminate; injection H as <-; eauto. }
  destruct response_group; [discriminate|]. cbn [IntentResponseGroup_eqb andb] in H.
  split; [|discriminate].
  destruct (is_str "quick_replies" r_type) eqn:Eqr.
  { apply is_str_eq in Eqr.
    assert (forall l, QuickRepliesIntentResponse_new l = Ok r ->
                      response_type r = "quick_replies") as Hnew.
    { unfold QuickRepliesIntentResponse_new. intros l Hl.
      destruct (QuickRepliesIntentResponse_post_init l); [|discriminate].
      now injection Hl as <-. }
    destruct r_data; try discriminate; apply Hnew in H; now rewrite H. }
  destruct (is_str "image" r_type) eqn:Eimage.
  { apply is_str_eq in Eimage. destruct r_data; try discriminate.
    - now injection H as <-.
    - cbn [ImageIntentResponse_from_yaml] in H.
      destruct (check_kwargs ["url"; "title"] d); [|discriminate].
      destruct (required_kwarg "url" d); [|discriminate].
      now injection H as <-. }
  destruct (is_str "card" r_type) eqn:Ecard.
  { apply is_str_eq in Ecard. destruct r_data; try discriminate.
    cbn [CardIntentResponse_from_yaml] in H.
    destruct (check_kwargs ["title"; "subtitle"; "image"; "link"] d);
      [|discriminate].
    destruct (required_kwarg "title" d); [|discriminate].
    now injection H as <-. }
  destruct (is_str "custom" r_type) eqn:Ecustom; [|discriminate].
  apply is_str_eq in Ecustom. destruct r_data; try discriminate.
  cbn [CustomPayloadIntentResponse_from_yaml] in H.
  destruct d as [|[k v] [|]]; try discriminate.
  destruct v; try discriminate. now injection H as <-.
Qed.

(** X8. The kind of a response follows from the key it was written
    under: whatever [build_response] builds for the key [r_type] is of
    the class that key names, so [r_type] is one of [text],
    [quick_replies], [image], [card] and [custom]; and in the [default]
    group it is a text response. *)
Theorem build_response_type (response_group : IntentResponseGroup)
        (r_type r_data : yaml) (r : IntentResponse) :
  build_response response_group r_type r_data = Ok r ->
  r_type = YStr (response_type r) /\
  (response_group = DEFAULT -> exists choices, r = TextIntentResponse choices).
Proof. apply build_response_kind. Qed.

Lemma build_item_In (g : IntentResponseGroup) (r : yaml)
      (ys : list IntentResponse) :
  build_item g r = Ok ys ->
  forall y, In y ys -> exists t v, build_response g t v = Ok y.
Proof.
  unfold build_item. intros H y Hy.
  destruct (py_len r) as [n|]; [|discriminate]. cbn [bind] in H.
  destruct (negb (n =? 1)); [discriminate|].
  destruct r; try discriminate.
  destruct (map_res_In _ _ _ H y Hy) as ([t v] & _ & Hx). now exists t, v.
Qed.

(** Every response of the result was built by [build_response] for the
    group it is filed under. *)
Lemma _build_responses_loop_provenance (items : list (yaml * yaml)) :
  forall result r,
    _build_responses_loop items result = Ok r ->
    (forall g rs x, In (g, rs) result -> In x rs ->
                    exists t v, build_response g t v = Ok x) ->
    forall g rs x, In (g, rs) r -> In x rs ->
                   exists t v, build_response g t v = Ok x.
Proof.
  induction items as [|[k responses] items IH]; intros result r H Hres.
  - now injection H as <-.
  - cbn [_build_responses_loop] in H.
    destruct (IntentResponseGroup_of_value k) as [group|]; [|discriminate].
    cbn [bind] in H. destruct (py_iter responses) as [rs0|]; [|discriminate].
    cbn [bind] in H.
    destruct (map_res (build_item group) rs0) as [built|] eqn:E;
      [|discriminate].
    cbn [bind] in H. apply (IH _ _ H). intros g rs x Hin Hx.
    apply dict_set_In in Hin as [[= -> ->]|Hin]; [|now apply (Hres g rs)].
    apply in_concat in Hx as (ys & Hys & Hx).
    destruct (map_res_In _ _ _ E ys Hys) as (item & _ & Hitem).
    now apply (build_item_In _ _ _ Hitem).
Qed.

Lemma _build_responses_provenance (data : yaml) (r : responses_dict) :
  _build_responses data = Ok r ->
  forall g rs x, In (g, rs) r -> In x rs ->
                 exists t v, build_response g t v = Ok x.
Proof.
  destruct data; try discriminate. intros H.
  apply (_build_responses_loop_provenance _ _ _ H). intros g rs x [].
Qed.

(** X9. Whatever the document, the [default] group of the responses
    that [_build_responses] returns holds text responses only. *)
Theorem build_responses_default_is_text (data : yaml) (r : responses_dict)
        (rs : list IntentResponse) (x : IntentResponse) :
  _build_responses data = Ok r -> In (DEFAULT, rs) r -> In x rs ->
  exists choices, x = TextIntentResponse choices.
Proof.
  intros H Hrs Hx.
  destruct (_build_responses_provenance _ _ H _ _ _ Hrs Hx) as (t & v & Hb).
  apply build_response_kind in Hb as [_ Hb]. now apply Hb.
Qed.


(** X10. Every quick replies response that [_build_responses] returns,
    in whatever group, holds replies that have a length, of at most 20
    each. *)
Theorem build_responses_quick_replies_bound
        (data : yaml) (r : responses_dict) (g : IntentResponseGroup)
        (rs : list IntentResponse) (replies : list yaml) :
  _build_responses data = Ok r -> In (g, rs) r ->
  In (QuickRepliesIntentResponse replies) rs ->
  forall rep, In rep replies -> exists n, py_len rep = Ok n /\ n <= 20.
Proof.
  intros H Hrs Hx.
  destruct (_build_responses_provenance _ _ H _ _ _ Hrs Hx) as (t & v & Hb).
  pose proof (build_response_kind _ _ _ _ Hb) as [-> _].
  unfold build_response in Hb. cbn [response_type] in Hb.
  destruct g; [discriminate|]. cbn in Hb.
  assert (forall l, QuickRepliesIntentResponse_new l
                    = Ok (QuickRepliesIntentResponse replies) ->
                    QuickRepliesIntentResponse_post_init replies = Ok tt)
    as Hnew.
  { unfold QuickRepliesIntentResponse_new. intros l Hl.
    destruct (QuickRepliesIntentResponse_post_init l) as [[]|] eqn:E;
      [|discriminate].
    now injection Hl as <-. }
  apply post_init_bound.
  destruct v; try discriminate; now apply Hnew in Hb.
Qed.

Lemma map_res_singletons (g : IntentResponseGroup) (tvs : list (yaml * yaml)) :
  map_res (build_item g) (map (fun tv => YDict [tv]) tvs)
  = let* rs := map_res (fun tv => build_response g (fst tv) (snd tv)) tvs in
    Ok (map (fun x => [x]) rs).
Proof.
  induction tvs as [|tv tvs IH]; [reflexivity|].
  cbn [map map_res]. rewrite IH.
  unfold build_item at 1. cbn [py_len length bind Nat.eqb negb map_res].
  destruct (build_response g (fst tv) (snd tv)); [|reflexivity].
  cbn [bind].
  destruct (map_res (fun tv0 => build_response g (fst tv0) (snd tv0)) tvs);
    reflexivity.
Qed.

Lemma concat_singletons {A : Type} (l : list A) :
  concat (map (fun x => [x]) l) = l.
Proof. induction l as [|x l IH]; [reflexivity|]. simpl. now rewrite IH. Qed.

(** X11. A group whose responses are written one per item, each item a
    mapping with the single key of its kind, is built item by item in
    the order of the document: the result holds, under that group, the
    responses of [build_response] for the successive items, and the
    first item that fails makes the whole fail with its exception. *)
Theorem build_responses_in_order
        (response_group : yaml) (g : IntentResponseGroup)
        (items : list (yaml * yaml)) :
  IntentResponseGroup_of_value response_group = Ok g ->
  _build_responses
    (YDict [(response_group, YList (map (fun tv => YDict [tv]) items))])
  = let* rs := map_res (fun tv => build_response g (fst tv) (snd tv)) items in
    Ok [(g, rs)].
Proof.
  intros Hg. cbn [_build_responses _build_responses_loop]. rewrite Hg.
  cbn [bind py_iter]. rewrite map_res_singletons.
  destruct (map_res (fun tv => build_response g (fst tv) (snd tv)) items);
    [|reflexivity].
  cbn [bind dict_set _build_responses_loop]. now rewrite concat_singletons.
Qed.

Lemma IntentResponseGroup_eqb_eq (a b : IntentResponseGroup) :
  IntentResponseGroup_eqb a b = true <-> a = b.
Proof. destruct a, b; simpl; split; congruence. Qed.

Lemma dict_set_keys {K V : Type} (eqb : K -> K -> bool) (k : K) (v : V)
      (d : list (K * V)) :
  (forall a b, eqb a b = true <-> a = b) ->
  (forall k', In k' (map fst (dict_set eqb k v d))
              <-> k' = k \/ In k' (map fst d)) /\
  (List.NoDup (map fst d) -> List.NoDup (map fst (dict_set eqb k v d))).
Proof.
  intros Heq. induction d as [|[k0 v0] d [IH1 IH2]]; simpl.
  - split; [intros k'; intuition congruence|].
    intros _. constructor; [intros []|constructor].
  - destruct (eqb k k0) eqn:E; simpl.
    + apply Heq in E as <-. split; [|trivial].
      intros k'. intuition congruence.
    + split.
      * intros k'. rewrite IH1. intuition congruence.
      * intros Hnd. apply List.NoDup_cons_iff in Hnd as [Hnotin Hnd].
        apply List.NoDup_cons_iff. split; [|now apply IH2].
        rewrite IH1. intros [<-|Hin]; [|now apply Hnotin].
        assert (eqb k0 k0 = true) by now apply Heq. congruence.
Qed.

Lemma _build_responses_loop_groups (items : list (yaml * yaml)) :
  forall result r,
    _build_responses_loop items result = Ok r ->
    Forall (fun kv => fst kv = YStr "default" \/ fst kv = YStr "rich") items /\
    (forall g, In g (map fst r)
               <-> In g (map fst result) \/
                   exists kv, In kv items /\
                              IntentResponseGroup_of_value (fst kv) = Ok g) /\
    (List.NoDup (map fst result) -> List.NoDup (map fst r)).
Proof.
  induction items as [|[k responses] items IH]; intros result r H.
  - injection H as <-. split; [constructor|]. split; [|trivial].
    intros g. split; [now left|]. now intros [H|(kv & [] & _)].
  - cbn [_build_responses_loop] in H.
    destruct (IntentResponseGroup_of_value k) as [group|] eqn:Eg;
      [|discriminate].
    cbn [bind] in H. destruct (py_iter responses) as [rs0|]; [|discriminate].
    cbn [bind] in H.
    destruct (map_res (build_item group) rs0) as [built|]; [|discriminate].
    cbn [bind] in H. apply IH in H as (Hkeys & Hin & Hnd).
    destruct (dict_set_keys IntentResponseGroup_eqb group (concat built) result
                            IntentResponseGroup_eqb_eq) as [Sin Snd].
    split; [|split].
    + constructor; [|exact Hkeys]. cbn [fst].
      unfold IntentResponseGroup_of_value in Eg.
      destruct (is_str "default" k) eqn:Ed; [left; now apply is_str_eq|].
      destruct (is_str "rich" k) eqn:Er; [right; now apply is_str_eq|].
      discriminate.
    + intros g. rewrite Hin, Sin. split.
      * intros [[->|H]|(kv & Hkv & Hg)]; auto.
        -- right. exists (k, responses). split; [now left | exact Eg].
        -- right. exists kv. split; [now right | exact Hg].
      * intros [H|(kv & [<-|Hkv] & Hg)]; auto.
        -- cbn [fst] in Hg. left. left. congruence.
        -- right. now exists kv.
    + intros H. apply Hnd, Snd, H.
Qed.

(** X12. When [_build_responses] succeeds on a mapping, every key of
    the mapping is [default] or [rich], and the result has one entry
    for each group the mapping names and for no other. A mapping whose
    first key is neither fails with [NotImplementedError], raised from
    the [ValueError] of the enumeration. *)
Theorem build_responses_groups (d : list (yaml * yaml)) :
  (forall r,
      _build_responses (YDict d) = Ok r ->
      Forall (fun kv => fst kv = YStr "default" \/ fst kv = YStr "rich") d /\
      List.NoDup (map fst r) /\
      forall g, In g (map fst r)
                <-> exists kv, In kv d /\
                               IntentResponseGroup_of_value (fst kv) = Ok g)
  /\
  (forall k v rest,
      d = (k, v) :: rest -> k <> YStr "default" -> k <> YStr "rich" ->
      _build_responses (YDict d)
      = Raise (unsupported_group k (interpreter_error ValueError))).
Proof.
  split.
  - intros r H. cbn [_build_responses] in H.
    apply _build_responses_loop_groups in H as (Hkeys & Hin & Hnd).
    split; [exact Hkeys|]. split; [apply Hnd; constructor|].
    intros g. rewrite Hin. split; [now intros [[]|H] | now right].
  - intros k v rest -> Hd Hr. cbn [_build_responses _build_responses_loop].
    unfold IntentResponseGroup_of_value.
    destruct (is_str "default" k) eqn:Ed; [now apply is_str_eq in Ed|].
    destruct (is_str "rich" k) eqn:Er; [now apply is_str_eq in Er|].
    reflexivity.
Qed.

(** ** Responses built from keyword arguments *)

Lemma check_kwargs_spec (fields : list string) (d : list (yaml * yaml)) :
  (check_kwargs fields d = Ok tt <->
   Forall (fun kv => In (fst kv) (map YStr fields)) d) /\
  (forall e, check_kwargs fields d = Raise e -> e = interpreter_error TypeError).
Proof.
  unfold check_kwargs.
  destruct (forallb (fun kv => existsb (fun f => is_str f (fst kv)) fields) d)
    eqn:E.
  - split; [|discriminate]. split; [intros _|reflexivity].
    rewrite forallb_forall in E. apply List.Forall_forall. intros kv Hkv.
    apply E, existsb_exists in Hkv as (f & Hf & Hs).
    apply is_str_eq in Hs as ->. now apply in_map.
  - split; [|now intros e [= <-]]. split; [discriminate|]. intros F.
    rewrite List.Forall_forall in F.
    assert (forallb (fun kv => existsb (fun f => is_str f (fst kv)) fields) d
            = true) as E'; [|congruence].
    apply forallb_forall. intros kv Hkv. apply existsb_exists.
    apply F, in_map_iff in Hkv as (f & Hf & Hin). exists f.
    split; [exact Hin|]. rewrite <- Hf. apply is_str_refl.
Qed.

(** X13. A card is built from a mapping, and from nothing else: the
    mapping must have a [title] and no key besides [title], [subtitle],
    [image] and [link]. The card then holds each value given and [None]
    for what is left out; in every other case the construction fails
    with [TypeError]. *)
Theorem Card_from_yaml_fields (data : yaml) :
  (forall r,
      CardIntentResponse_from_yaml data = Ok r <->
      exists d title,
        data = YDict d /\
        Forall (fun kv => In (fst kv) [YStr "title"; YStr "subtitle";
                                       YStr "image"; YStr "link"]) d /\
        dict_get "title" d = Some title /\
        r = CardIntentResponse title (optional_kwarg "subtitle" d)
                               (optional_kwarg "image" d)
                               (optional_kwarg "link" d))
  /\
  (forall e, CardIntentResponse_from_yaml data = Raise e ->
             e = interpreter_error TypeError).
Proof.
  assert (forall d, data = YDict d ->
            (forall r,
                CardIntentResponse_from_yaml data = Ok r <->
                Forall (fun kv => In (fst kv) [YStr "title"; YStr "subtitle";
                                               YStr "image"; YStr "link"]) d /\
                exists title,
                  dict_get "title" d = Some title /\
                  r = CardIntentResponse title (optional_kwarg "subtitle" d)
                                         (optional_kwarg "image" d)
                                         (optional_kwarg "link" d)) /\
            (forall e, CardIntentResponse_from_yaml data = Raise e ->
                       e = interpreter_error TypeError)) as Hdict.
  { intros d ->. cbn [CardIntentResponse_from_yaml].
    destruct (check_kwargs_spec ["title"; "subtitle"; "image"; "link"] d)
      as [Hok Herr].
    destruct (check_kwargs ["title"; "subtitle"; "image"; "link"] d) as [[]|e0].
    - cbn [bind]. unfold required_kwarg.
      destruct (dict_get "title" d) as [title|]; cbn [bind].
      + split; [|discriminate]. intros r. split.
        * intros [= <-]. split; [now apply Hok|]. now exists title.
        * now intros (_ & title' & [= <-] & ->).
      + split; [|now intros e [= <-]]. intros r. split; [discriminate|].
        now intros (_ & title' & [=] & _).
    - cbn [bind]. split.
      + intros r. split; [discriminate|]. intros [F _]. now apply Hok in F.
      + intros e [= <-]. now apply Herr. }
  split.
  - intros r. split.
    + intros H. destruct data; try discriminate.
      apply (proj1 (Hdict d eq_refl)) in H as (F & title & Ht & ->).
      now exists d, title.
    + intros (d & title & Hd & F & Ht & ->).
      apply (proj1 (Hdict d Hd)). split; [exact F|]. now exists title.
  - intros e H. destruct data; try (now injection H as <-).
    now apply (proj2 (Hdict d eq_refl)).
Qed.

(** X14. An image is built from a string, taken as the [url] of an
    image without title, or from a mapping that has a [url] and no key
    besides [url] and [title]. A mapping that is not of this kind fails
    with [TypeError], and a value that is neither a string nor a
    mapping fails the assertion. *)
Theorem Image_from_yaml_fields (data : yaml) :
  (forall r,
      ImageIntentResponse_from_yaml data = Ok r <->
      (exists s, data = YStr s /\ r = ImageIntentResponse data YNull) \/
      exists d url,
        data = YDict d /\
        Forall (fun kv => In (fst kv) [YStr "url"; YStr "title"]) d /\
        dict_get "url" d = Some url /\
        r = ImageIntentResponse url (optional_kwarg "title" d))
  /\
  (forall e, ImageIntentResponse_from_yaml data = Raise e ->
             match data with
             | YDict _ => e = interpreter_error TypeError
             | _ => e = Exn AssertionError [] None
             end).
Proof.
  destruct data;
    try (split; [intros r; split;
                 [discriminate
                 |intros [(? & [=] & _)|(? & ? & [=] & _)]]
                |now intros e [= <-]]).
  - split; [|discriminate]. intros r. split.
    + intros [= <-]. left. now exists s.
    + now intros [(? & _ & ->)|(? & ? & [=] & _)].
  - cbn [ImageIntentResponse_from_yaml].
    destruct (check_kwargs_spec ["url"; "title"] d) as [Hok Herr].
    destruct (check_kwargs ["url"; "title"] d) as [[]|e0]; cbn [bind].
    + unfold required_kwarg.
      destruct (dict_get "url" d) as [url|] eqn:Eurl; cbn [bind].
      * split; [|discriminate]. intros r. split.
        -- intros [= <-]. right. exists d, url. split; [reflexivity|].
           split; [now apply Hok | now split].
        -- intros [(? & [=] & _)|(? & ? & [= <-] & _ & Hu & ->)].
           congruence.
      * split; [|now intros e [= <-]]. intros r. split; [discriminate|].
        intros [(? & [=] & _)|(? & ? & [= <-] & _ & Hu & _)]. congruence.
    + split.
      * intros r. split; [discriminate|].
        intros [(? & [=] & _)|(? & ? & [= <-] & F & _)]. now apply Hok in F.
      * intros e [= <-]. now apply Herr.
Qed.

(** * More about the loader *)

Lemma LanguageCode_eqb_eq (a b : LanguageCode) :
  LanguageCode_eqb a b = true <-> a = b.
Proof.
  destruct a as [a], b as [b]. unfold LanguageCode_eqb. cbn [value].
  rewrite String.eqb_eq. split; congruence.
Qed.

Lemma LanguageCode_eq_dec (a b : LanguageCode) : {a = b} + {a <> b}.
Proof.
  destruct a as [a], b as [b]. destruct (string_dec a b) as [->|H].
  - now left.
  - right. congruence.
Qed.

(** Reading an entry of a dictionary after an assignment. *)
Lemma find_dict_set {K V : Type} (eqb : K -> K -> bool) (k k' : K) (v : V)
      (d : list (K * V)) :
  (forall a b, eqb a b = true <-> a = b) ->
  find (fun kv => eqb k' (fst kv)) (dict_set eqb k v d)
  = if eqb k' k then Some (k, v) else find (fun kv => eqb k' (fst kv)) d.
Proof.
  intros Heq. induction d as [|[k0 v0] d IH]; cbn [dict_set find fst].
  - now destruct (eqb k' k).
  - destruct (eqb k k0) eqn:E; cbn [find fst].
    + apply Heq in E as <-. now destruct (eqb k' k).
    + rewrite IH. destruct (eqb k' k0) eqn:E0; [|reflexivity].
      destruct (eqb k' k) eqn:E1; [|reflexivity].
      apply Heq in E0 as <-. apply Heq in E1 as <-.
      assert (eqb k' k' = true) by now apply Heq. congruence.
Qed.

Section LoaderMore.

Variable nonascii_word : ascii -> bool.
Variable py_str : yaml -> string.
Variable language_codes : list string.

Notation chunks := (chunks nonascii_word).
Notation ExampleUtterance_new := (ExampleUtterance_new nonascii_word).
Notation to_str := (to_str py_str).
Notation load_document := (load_document nonascii_word py_str).
Notation load_language := (load_language nonascii_word py_str).
Notation all_languages := (all_languages nonascii_word py_str).
Notation intent_language_data_for :=
  (intent_language_data_for nonascii_word py_str).
Notation intent_language_data_body :=
  (intent_language_data_body nonascii_word py_str language_codes).
Notation intent_language_data :=
  (intent_language_data nonascii_word py_str language_codes).

(** The examples that are built are the items of the document, and each
    of them has been tokenized. *)
Lemma examples_built (intent_cls : Intent) (items : list yaml)
      (examples : list ExampleUtterance) :
  map_res (fun s => ExampleUtterance_new (to_str s) intent_cls) items
  = Ok examples ->
  examples = map (fun s => {| example := to_str s; _intent := intent_cls |})
                 items /\
  Forall (fun u => exists cs, chunks u = Ok cs) examples.
Proof.
  revert examples. induction items as [|s items IH]; intros examples H.
  - injection H as <-. now split.
  - cbn [map_res] in H. unfold ExampleUtterance_new at 1 in H.
    destruct (chunks {| example := to_str s; _intent := intent_cls |})
      as [cs|] eqn:E; [|discriminate].
    cbn [bind] in H.
    destruct (map_res (fun s0 => ExampleUtterance_new (to_str s0) intent_cls)
                      items) as [us|]; [|discriminate].
    injection H as <-. destruct (IH us eq_refl) as [-> F].
    split; [reflexivity|]. constructor; [now exists cs | exact F].
Qed.

(** X15. A language document that is a non-empty mapping is loaded
    into a dictionary with the one key [language_code]. Its language
    data holds the items of [examples] in the order of the document,
    each as an utterance of the intent that tokenizes without error, the
    [slot_filling_prompts] section as it is, an empty mapping when there
    is none, and the responses built from the [responses] section,
    which the document must have. *)
Theorem load_document_result (intent_cls : Intent) (code : LanguageCode)
        (d : list (yaml * yaml)) (r : loaded) :
  d <> [] ->
  load_document intent_cls code (YDict d) = Ok r ->
  exists items responses_data built,
    py_iter (match dict_get "examples" d with
             | Some v => v
             | None => YList []
             end) = Ok items /\
    dict_get "responses" d = Some responses_data /\
    _build_responses responses_data = Ok built /\
    Forall (fun s => exists cs,
                chunks {| example := to_str s; _intent := intent_cls |}
                = Ok cs) items /\
    r = ByLanguage
          [(code,
            {| example_utterances :=
                 map (fun s => {| example := to_str s;
                                  _intent := intent_cls |}) items;
               slot_filling_prompts :=
                 match dict_get "slot_filling_prompts" d with
                 | Some v => v
                 | None => YDict []
                 end;
               responses := ResponsesDict built |})].
Proof.
  intros Hd H. unfold load_document in H.
  destruct d as [|kv d0] eqn:Ed; [congruence|]. cbn [truthy negb] in H.
  rewrite <- Ed in *. clear Ed.
  destruct (py_iter (match dict_get "examples" d with
                     | Some v => v
                     | None => YList []
                     end)) as [items|]; [|discriminate].
  cbn [bind] in H.
  destruct (map_res (fun s => ExampleUtterance_new (to_str s) intent_cls) items)
    as [examples|] eqn:Eex; [|discriminate].
  cbn [bind] in H. apply examples_built in Eex as [-> F].
  destruct (dict_get "responses" d) as [responses_data|];
    [|discriminate].
  destruct (_build_responses responses_data) as [built|] eqn:Eb;
    [|discriminate].
  cbn [bind] in H. injection H as <-.
  exists items, responses_data, built. repeat split; trivial.
  rewrite List.Forall_forall in F. apply List.Forall_forall. intros s Hs.
  apply (F {| example := to_str s; _intent := intent_cls |}).
  exact (in_map (fun s0 => {| example := to_str s0; _intent := intent_cls |})
                items s Hs).
Qed.

(** X16. A language document that is a non-empty mapping without a
    [responses] section cannot be loaded: the call fails with the
    [RuntimeError] of the loader, and when the examples of the document
    load, the cause is the [AttributeError] of the empty list that
    stands for the missing section. *)
Theorem document_without_responses_fails
        (agent_cls : Agent) (intent_cls : Intent) (code : LanguageCode)
        (language_folder : string) (d : list (yaml * yaml)) :
  agent_language_folder agent_cls = Ok language_folder ->
  language_file agent_cls (value code) (intent_name intent_cls)
  = Some (Ok (YDict d)) ->
  d <> [] ->
  dict_get "responses" d = None ->
  exists e,
    intent_language_data agent_cls intent_cls (LanguageMember code)
    = Raise (failed_to_load (intent_name intent_cls) e) /\
    (forall examples,
        (let* items := py_iter (match dict_get "examples" d with
                                | Some v => v
                                | None => YList []
                                end) in
         map_res (fun s => ExampleUtterance_new (to_str s) intent_cls) items)
        = Ok examples ->
        e = interpreter_error AttributeError).
Proof.
  intros Hfolder Hfile Hd Hr.
  unfold intent_language_data, intent_language_data_body, load_language.
  rewrite Hfolder. cbn [bind]. rewrite Hfile. cbn [bind].
  unfold load_document. destruct d as [|kv d0] eqn:Ed; [congruence|].
  cbn [truthy negb]. rewrite <- Ed in *. clear Ed. rewrite Hr.
  destruct (py_iter (match dict_get "examples" d with
                     | Some v => v
                     | None => YList []
                     end)) as [items|e]; cbn [bind wrapped].
  - destruct (map_res (fun s => ExampleUtterance_new (to_str s) intent_cls)
                      items) as [examples|e]; cbn [bind wrapped _build_responses].
    + eexists. split; [reflexivity|]. reflexivity.
    + exists e. split; [reflexivity|]. discriminate.
  - exists e. split; [reflexivity|]. discriminate.
Qed.


(** ** All the languages of an agent *)

Lemma all_languages_entries (agent_cls : Agent) (intent_cls : Intent)
      (codes : list LanguageCode) :
  forall result m,
    all_languages agent_cls intent_cls codes result = Ok m ->
    (forall c, In c codes ->
       exists single data,
         intent_language_data_for agent_cls intent_cls c = Ok single /\
         subscript single c = Ok data /\
         subscript (ByLanguage m) c = Ok data) /\
    (forall c, ~ In c codes ->
               subscript (ByLanguage m) c = subscript (ByLanguage result) c).
Proof.
  induction codes as [|code codes IH]; intros result m H.
  - injection H as <-. split; [intros c []|reflexivity].
  - cbn [all_languages] in H.
    destruct (intent_language_data_for agent_cls intent_cls code)
      as [single|] eqn:Efor; [|discriminate].
    cbn [bind] in H.
    destruct (subscript single code) as [data|] eqn:Esub; [|discriminate].
    cbn [bind] in H. apply IH in H as [Hin Hout].
    assert (forall c, subscript
                        (ByLanguage (dict_set LanguageCode_eqb code data result))
                        c
                      = if LanguageCode_eqb c code then Ok data
                        else subscript (ByLanguage result) c) as Hset.
    { intros c. cbn [subscript].
      rewrite (find_dict_set _ _ _ _ _ LanguageCode_eqb_eq).
      now destruct (LanguageCode_eqb c code). }
    split.
    + intros c Hc. destruct (in_dec LanguageCode_eq_dec c codes) as [Hc'|Hc'];
        [now apply Hin|].
      destruct Hc as [<-|Hc]; [|contradiction].
      exists single, data. repeat split; trivial.
      rewrite (Hout _ Hc'), Hset.
      now rewrite (proj2 (LanguageCode_eqb_eq code code) eq_refl).
    + intros c Hc. rewrite Hout by (intros Hc'; apply Hc; now right).
      rewrite Hset. destruct (LanguageCode_eqb c code) eqn:E; [|reflexivity].
      apply LanguageCode_eqb_eq in E. exfalso. apply Hc. now left.
Qed.

(** X17. When the call without a language code succeeds, it returns a
    dictionary by language code, in which every language of the agent
    has the language data that the call for that language alone
    returns under that code, and in which no other code has an entry. *)
Theorem all_languages_agree
        (agent_cls : Agent) (intent_cls : Intent) (r : loaded) :
  intent_language_data agent_cls intent_cls NoLanguage = Ok r ->
  exists m,
    r = ByLanguage m /\
    (forall c, In c (languages agent_cls) ->
       exists single data,
         intent_language_data agent_cls intent_cls (LanguageMember c)
         = Ok single /\
         subscript single c = Ok data /\
         subscript r c = Ok data) /\
    (forall c, ~ In c (languages agent_cls) ->
               subscript r c = Raise (interpreter_error KeyError)).
Proof.
  unfold intent_language_data at 1, intent_language_data_body.
  intros H.
  destruct (agent_language_folder agent_cls) as [folder|] eqn:Efolder;
    [|discriminate].
  cbn [bind] in H.
  destruct (all_languages agent_cls intent_cls (languages agent_cls) [])
    as [m|] eqn:E; [|discriminate].
  cbn [bind wrapped] in H. injection H as <-.
  apply all_languages_entries in E as [Hin Hout].
  exists m. split; [reflexivity|]. split.
  - intros c Hc. destruct (Hin c Hc) as (single & data & H1 & H2 & H3).
    exists single, data. repeat split; trivial.
  - intros c Hc. now rewrite (Hout c Hc).
Qed.

(** X18. A language given as a string stands for the member of
    [LanguageCode] with that value: the call returns what the call with
    the member returns. A string that is the value of no member fails
    with the [ValueError] of the enumeration as cause, and the empty
    string asks for all the languages, as [None] does. *)
Theorem language_given_as_string
        (agent_cls : Agent) (intent_cls : Intent) (s : string) :
  (s <> EmptyString -> In s language_codes ->
   intent_language_data agent_cls intent_cls (LanguageStr s)
   = intent_language_data agent_cls intent_cls
                          (LanguageMember {| value := s |}))
  /\
  (s <> EmptyString -> ~ In s language_codes ->
   forall language_folder,
     agent_language_folder agent_cls = Ok language_folder ->
     intent_language_data agent_cls intent_cls (LanguageStr s)
     = Raise (failed_to_load (intent_name intent_cls)
                             (interpreter_error ValueError)))
  /\
  intent_language_data agent_cls intent_cls (LanguageStr EmptyString)
  = intent_language_data agent_cls intent_cls NoLanguage.
Proof.
  assert (existsb (String.eqb s) language_codes = true <-> In s language_codes)
    as Hmem.
  { rewrite existsb_exists. split.
    - intros (x & Hx & E). apply String.eqb_eq in E. now subst.
    - intros H. exists s. split; [exact H | apply String.eqb_refl]. }
  unfold intent_language_data, intent_language_data_body,
    LanguageCode_of_value.
  split; [|split].
  - intros Hs Hin. destruct s; [congruence|]. cbn [is_empty].
    now rewrite (proj2 Hmem Hin).
  - intros Hs Hin language_folder ->. destruct s; [congruence|].
    cbn [is_empty bind].
    destruct (existsb (String.eqb (String a s)) language_codes) eqn:E;
      [|reflexivity].
    exfalso. apply Hin. now apply Hmem.
  - reflexivity.
Qed.

(** X19. An intent without language file for the language asked for
    fails with the [RuntimeError] of the loader, raised from the
    [ValueError] that names the path expected. In the call for all the
    languages, what the call for the first language raises is wrapped
    once more: the cause of the [RuntimeError] is that [RuntimeError]. *)
Theorem missing_language_file
        (agent_cls : Agent) (intent_cls : Intent) (code : LanguageCode)
        (language_folder : string) :
  agent_language_folder agent_cls = Ok language_folder ->
  (language_file agent_cls (value code) (intent_name intent_cls) = None ->
   intent_language_data agent_cls intent_cls (LanguageMember code)
   = Raise (failed_to_load (intent_name intent_cls)
              (file_not_found (intent_name intent_cls) language_folder
                              (value code))))
  /\
  (forall codes e,
      languages agent_cls = code :: codes ->
      intent_language_data agent_cls intent_cls (LanguageMember code)
      = Raise e ->
      intent_language_data agent_cls intent_cls NoLanguage
      = Raise (failed_to_load (intent_name intent_cls) e)).
Proof.
  intros Hfolder. split.
  - intros Hfile.
    unfold intent_language_data, intent_language_data_body, load_language.
    rewrite Hfolder. cbn [bind]. now rewrite Hfile.
  - intros codes e Hcodes H.
    unfold intent_language_data, intent_language_data_body in *.
    rewrite Hfolder in *. cbn [bind] in *. rewrite Hcodes.
    cbn [all_languages]. unfold intent_language_data_for.
    rewrite Hfolder. cbn [bind]. now rewrite H.
Qed.

End LoaderMore.

(** * The names of intents *)

Lemma prefix_spec (p s : string) :
  String.prefix p s = true <-> exists b, s = p +:+ b.
Proof.
  revert s. induction p as [|c p IH]; intros s.
  - split; [intros _; now exists s | now destruct s].
  - destruct s as [|c' s]; cbn [String.prefix].
    + split; [discriminate | now intros (b & H)].
    + destruct (ascii_dec c c') as [->|Hc].
      * rewrite IH. split; intros (b & H); exists b.
        -- now rewrite H.
        -- rewrite app_cons in H. congruence.
      * split; [discriminate|]. intros (b & H). rewrite app_cons in H.
        congruence.
Qed.

Lemma prefix_one (c c' : ascii) (s : string) :
  String.prefix (String c EmptyString) (String c' s) = Ascii.eqb c c'.
Proof.
  cbn [String.prefix]. destruct (ascii_dec c c') as [->|H].
  - rewrite Ascii.eqb_refl. now destruct s.
  - symmetry. now apply Ascii.eqb_neq.
Qed.

Lemma contains_spec (sub s : string) :
  contains sub s = true <-> exists a b, s = a +:+ sub +:+ b.
Proof.
  induction s as [|c s IH]; cbn [contains].
  - rewrite orb_false_r, prefix_spec. split.
    + intros (b & H). now exists EmptyString, b.
    + intros (a & b & H). destruct a; [now exists b|discriminate].
  - rewrite orb_true_iff, prefix_spec, IH. split.
    + intros [(b & H)|(a & b & H)].
      * now exists EmptyString, b.
      * exists (String c a), b. now rewrite H.
    + intros (a & b & H). destruct a as [|c' a].
      * left. now exists b.
      * right. exists a, b. rewrite app_cons in H. congruence.
Qed.

Lemma contains_app_r (sub a b : string) :
  contains sub (a +:+ b) = false -> contains sub b = false.
Proof.
  induction a as [|c a IH]; [trivial|]. rewrite app_cons. cbn [contains].
  intros H. apply orb_false_elim in H as [_ H]. now apply IH.
Qed.

(** X20. A name is accepted by [_is_valid_intent_name] exactly when it
    consists of ASCII letters, underscores and dots, starts with
    neither a dot nor an underscore, and holds no two underscores in a
    row; a reason is given exactly when the name is refused. The empty
    name is accepted. *)
Theorem valid_intent_name_iff (candidate_name : string) :
  (fst (_is_valid_intent_name candidate_name) = true <->
   all_chars is_name_char candidate_name = true /\
   (forall c rest, candidate_name = String c rest ->
                   is_ascii_letter c = true) /\
   (forall a b, candidate_name <> a +:+ "__" +:+ b)) /\
  (fst (_is_valid_intent_name candidate_name) = true <->
   snd (_is_valid_intent_name candidate_name) = None).
Proof.
  unfold _is_valid_intent_name.
  destruct (all_chars is_name_char candidate_name) eqn:Echars; cbn [negb].
  2: { split; split; try discriminate. now intros [? _]. }
  destruct (String.prefix "." candidate_name
            || String.prefix "_" candidate_name) eqn:Estart.
  { split; split; try discriminate. intros (_ & Hfirst & _).
    destruct candidate_name as [|c rest]; [discriminate|].
    specialize (Hfirst c rest eq_refl). rewrite !prefix_one in Estart.
    destruct (Ascii.eqb_spec "." c) as [<-|]; [discriminate|].
    destruct (Ascii.eqb_spec "_" c) as [<-|]; discriminate. }
  destruct (contains "__" candidate_name) eqn:Euu.
  { split; split; try discriminate. intros (_ & _ & Huu).
    apply contains_spec in Euu as (a & b & H). now apply Huu in H. }
  split; split; trivial. intros _. split; [reflexivity|]. split.
  - intros c rest ->. cbn [all_chars] in Echars.
    rewrite !prefix_one in Estart.
    apply andb_prop in Echars as [Hc _]. unfold is_name_char in Hc.
    destruct (Ascii.eqb_spec "." c) as [<-|Hdot]; [discriminate|].
    destruct (Ascii.eqb_spec "_" c) as [<-|Hus]; [discriminate|].
    destruct (Ascii.eqb_spec c "_"); [congruence|].
    destruct (Ascii.eqb_spec c "."); [congruence|].
    now rewrite !orb_false_r in Hc.
  - intros a b H.
    assert (contains "__" candidate_name = true); [|congruence].
    apply contains_spec. now exists a, b.
Qed.


(** ** Names made from the class *)

Lemma prefix_cons (c c' : ascii) (p s : string) :
  String.prefix (String c p) (String c' s)
  = Ascii.eqb c c' && String.prefix p s.
Proof.
  cbn [String.prefix]. destruct (ascii_dec c c') as [->|H].
  - now rewrite Ascii.eqb_refl.
  - now rewrite (proj2 (Ascii.eqb_neq c c') H).
Qed.

(** What [re.sub] returns holds no two underscores in a row, and does
    not begin with one inside a run. *)
Lemma sub_underscores_squeezed (s : string) :
  forall in_run,
    contains "__" (sub_underscores in_run s) = false /\
    (in_run = true ->
     String.prefix "_" (sub_underscores in_run s) = false).
Proof.
  induction s as [|c s IH]; intros in_run; [now split|].
  cbn [sub_underscores]. destruct (Ascii.eqb_spec c "_") as [->|Hc].
  - destruct in_run.
    + apply IH.
    + split; [|discriminate]. cbn [contains]. rewrite prefix_cons.
      destruct (IH true) as [H1 H2]. now rewrite (H2 eq_refl), H1.
  - assert (Ascii.eqb "_" c = false) as E.
    { apply Ascii.eqb_neq. congruence. }
    split.
    + cbn [contains]. rewrite prefix_cons, E. apply IH.
    + intros _. now rewrite prefix_cons, E.
Qed.

Lemma sub_underscores_app (c : ascii) (a b : string) :
  c <> "_"%char ->
  forall in_run,
    sub_underscores in_run (a +:+ String c b)
    = sub_underscores in_run a +:+ String c (sub_underscores false b).
Proof.
  intros Hc. induction a as [|c' a IH]; intros in_run.
  - rewrite app_empty_l. cbn [sub_underscores].
    now destruct (Ascii.eqb_spec c "_").
  - rewrite app_cons. cbn [sub_underscores].
    destruct (Ascii.eqb c' "_"); [destruct in_run|];
      now rewrite ?app_cons, IH.
Qed.

Lemma sub_underscores_all_chars (p : ascii -> bool) (s : string) :
  all_chars p s = true ->
  forall in_run, all_chars p (sub_underscores in_run s) = true.
Proof.
  induction s as [|c s IH]; intros H in_run; [reflexivity|].
  cbn [all_chars] in H. apply andb_prop in H as [Hc Hs].
  cbn [sub_underscores]. destruct (Ascii.eqb_spec c "_") as [->|_].
  - destruct in_run; [now apply IH|]. cbn [all_chars]. rewrite Hc.
    now apply IH.
  - cbn [all_chars]. rewrite Hc. now apply IH.
Qed.

Lemma split_nonempty (sep : ascii) (s : string) : split sep s <> [].
Proof.
  destruct s as [|c s]; [discriminate|]. cbn [split].
  destruct (Ascii.eqb c sep); [discriminate|]. now destruct (split sep s).
Qed.

Lemma concat_cons (sep h : string) (t : list string) :
  t <> [] -> String.concat sep (h :: t) = h +:+ sep +:+ String.concat sep t.
Proof. now destruct t. Qed.

Lemma concat_split (sep : ascii) (s : string) :
  String.concat (String sep EmptyString) (split sep s) = s.
Proof.
  induction s as [|c s IH]; [reflexivity|]. cbn [split].
  destruct (Ascii.eqb_spec c sep) as [->|_].
  - rewrite concat_cons by apply split_nonempty. now rewrite IH.
  - pose proof (split_nonempty sep s) as Hne.
    destruct (split sep s) as [|w ws]; [congruence|].
    rewrite <- IH. destruct ws as [|w' ws]; [reflexivity|].
    now rewrite !concat_cons by discriminate.
Qed.

Lemma concat_app (sep : string) (l1 l2 : list string) :
  l1 <> [] -> l2 <> [] ->
  String.concat sep (l1 ++ l2)
  = String.concat sep l1 +:+ sep +:+ String.concat sep l2.
Proof.
  intros H1 H2. induction l1 as [|h l1 IH]; [congruence|].
  destruct l1 as [|h' l1].
  - cbn [app]. now rewrite concat_cons.
  - change ((h :: h' :: l1) ++ l2) with (h :: (h' :: l1) ++ l2).
    rewrite !concat_cons by discriminate. rewrite IH by discriminate.
    now rewrite !app_assoc_str.
Qed.

(** The last components of a dotted name form the end of that name. *)
Lemma last_two_suffix (s : string) :
  exists a, s = a +:+ String.concat "." (last_two (split "." s)).
Proof.
  pose proof (concat_split "." s) as Hs. unfold last_two.
  set (l := split "." s) in *.
  rewrite <- (firstn_skipn (length l - 2) l) in Hs.
  destruct (firstn (length l - 2) l) as [|h l1] eqn:E1.
  { exists EmptyString. now rewrite app_empty_l. }
  destruct (skipn (length l - 2) l) as [|h2 l2] eqn:E2.
  { exists s. now rewrite app_empty_r. }
  rewrite concat_app in Hs by discriminate.
  exists (String.concat "." (h :: l1) +:+ "."). now rewrite app_assoc_str.
Qed.

Lemma _intent_name_from_class_squeezed (__module__ __name__ : string) :
  contains "__" (_intent_name_from_class __module__ __name__) = false.
Proof.
  unfold _intent_name_from_class.
  destruct (last_two_suffix
              (sub_underscores false (__module__ +:+ "." +:+ __name__)))
    as [a Ha].
  apply (contains_app_r _ a). rewrite <- Ha.
  apply sub_underscores_squeezed.
Qed.

(** X21. The name made from a class never holds two underscores in a
    row, whatever the module and the name of the class: it passes the
    test that [_is_valid_intent_name] makes on this. *)
Theorem intent_name_from_class_squeezed (__module__ __name__ : string) :
  contains "__" (_intent_name_from_class __module__ __name__) = false.
Proof. apply _intent_name_from_class_squeezed. Qed.


Lemma split_app (sep : ascii) (a b : string) :
  split sep (a +:+ String sep b) = split sep a ++ split sep b.
Proof.
  induction a as [|c a IH].
  - rewrite app_empty_l. cbn [split]. now rewrite Ascii.eqb_refl.
  - rewrite app_cons. cbn [split]. rewrite IH.
    destruct (Ascii.eqb c sep); [reflexivity|].
    pose proof (split_nonempty sep a) as Hne.
    now destruct (split sep a).
Qed.

Lemma split_components (sep : ascii) (s : string) :
  Forall (fun w => all_chars (fun c => negb (Ascii.eqb c sep)) w = true)
         (split sep s).
Proof.
  induction s as [|c s IH]; [now repeat constructor|]. cbn [split].
  destruct (Ascii.eqb c sep) eqn:E; [now constructor|].
  destruct (split sep s) as [|w ws]; [repeat constructor; cbn; now rewrite E|].
  inversion IH as [|? ? Hw Hws]; subst. constructor; [|exact Hws].
  cbn [all_chars]. now rewrite E, Hw.
Qed.

Lemma split_no_sep (sep : ascii) (s : string) :
  all_chars (fun c => negb (Ascii.eqb c sep)) s = true -> split sep s = [s].
Proof.
  induction s as [|c s IH]; [reflexivity|]. cbn [all_chars split].
  intros H. apply andb_prop in H as [Hc Hs].
  apply negb_true_iff in Hc. rewrite Hc. now rewrite (IH Hs).
Qed.

Lemma last_two_snoc {A : Type} (l : list A) (y d : A) :
  l <> [] -> last_two (l ++ [y]) = [List.last l d; y].
Proof.
  intros Hl. destruct (exists_last Hl) as (l' & x & ->).
  rewrite List.last_last. unfold last_two.
  rewrite <- List.app_assoc. cbn [app].
  rewrite List.length_app. cbn [length].
  replace (length l' + 2 - 2) with (length l') by lia.
  rewrite List.skipn_app, List.skipn_all, Nat.sub_diag.
  reflexivity.
Qed.

(** X22. For a class whose name holds no dot, as the name of a class
    written in a module does not, the name made from the class is the
    last component of the dotted module name, a dot, and the name of
    the class, every run of underscores of both replaced by one
    underscore; the only dot of it is the one put in between. *)
Theorem intent_name_from_class_parts (__module__ __name__ : string) :
  all_chars not_dot __name__ = true ->
  let package :=
    List.last (split "." (sub_underscores false __module__)) EmptyString in
  _intent_name_from_class __module__ __name__
  = package +:+ "." +:+ sub_underscores false __name__ /\
  all_chars not_dot package = true /\
  all_chars not_dot (sub_underscores false __name__) = true.
Proof.
  intros Hname package.
  pose proof (sub_underscores_all_chars _ _ Hname false) as Hsub.
  split; [|split; [|exact Hsub]].
  - unfold _intent_name_from_class.
    change (__module__ +:+ "." +:+ __name__)
      with (__module__ +:+ String "." __name__).
    rewrite sub_underscores_app by discriminate.
    rewrite split_app, (split_no_sep "." _ Hsub).
    rewrite (last_two_snoc _ _ EmptyString) by apply split_nonempty.
    reflexivity.
  - pose proof (split_components "." (sub_underscores false __module__)) as F.
    rewrite List.Forall_forall in F. apply F.
    unfold package.
    destruct (exists_last (split_nonempty "." (sub_underscores false __module__)))
      as (l' & x & ->).
    rewrite List.last_last. apply in_or_app. right. now left.
Qed.


(** * System events *)

Lemma replace_char_app (old new : ascii) (a b : string) :
  replace_char old new (a +:+ b)
  = replace_char old new a +:+ replace_char old new b.
Proof.
  induction a as [|c a IH]; [reflexivity|].
  rewrite app_cons. cbn [replace_char]. now rewrite IH.
Qed.

Lemma replace_char_gone (old new : ascii) (s : string) :
  old <> new ->
  all_chars (fun c => negb (Ascii.eqb c old)) (replace_char old new s) = true.
Proof.
  intros Hne. induction s as [|c s IH]; [reflexivity|].
  cbn [replace_char all_chars]. rewrite IH, andb_true_r.
  destruct (Ascii.eqb_spec c old) as [->|Hc]; apply negb_true_iff;
    apply Ascii.eqb_neq; congruence.
Qed.

Lemma replace_char_length (old new : ascii) (s : string) :
  String.length (replace_char old new s) = String.length s.
Proof. induction s as [|c s IH]; [reflexivity|]. simpl. now rewrite IH. Qed.

Section UpperFacts.

Variable nonascii_upper : ascii -> string.

Notation upper := (upper nonascii_upper).
Notation upper_char := (upper_char nonascii_upper).
Notation _system_event := (_system_event nonascii_upper).

Lemma upper_app (a b : string) : upper (a +:+ b) = upper a +:+ upper b.
Proof.
  induction a as [|c a IH]; [reflexivity|].
  rewrite app_cons. cbn [upper]. now rewrite IH, app_assoc_str.
Qed.

(** The upper case of a character of a valid name is one character, and
    once its dot is replaced it is a capital letter or an underscore. *)
Lemma upper_name_char (c : ascii) :
  is_name_char c = true ->
  exists c', upper_char c = String c' EmptyString /\
             is_event_char (if Ascii.eqb c' "." then "_"%char else c') = true.
Proof.
  destruct c as [[] [] [] [] [] [] [] []]; intros H; vm_compute in H;
    try discriminate H; eexists; split; reflexivity.
Qed.

(** X23. The event of an intent holds no dot, and so does not tell a
    dot of the name of the intent from an underscore: two names that
    differ by this only have the same event. *)
Theorem system_event_forgets_dots :
  (forall intent_name,
      all_chars not_dot (event_name (_system_event intent_name)) = true)
  /\
  (forall a b,
      _system_event (a +:+ "." +:+ b) = _system_event (a +:+ "_" +:+ b)).
Proof.
  split.
  - intros intent_name. cbn [_system_event event_name].
    rewrite all_chars_app. apply andb_true_intro. split; [reflexivity|].
    now apply (replace_char_gone "." "_").
  - intros a b. unfold _system_event. f_equal. f_equal.
    now rewrite !upper_app, !replace_char_app.
Qed.

(** X24. The event of a name that [_is_valid_intent_name] accepts is
    [E_] followed by as many characters as the name has, and consists
    of capital ASCII letters and underscores. *)
Theorem system_event_of_valid_name (intent_name : string) :
  fst (_is_valid_intent_name intent_name) = true ->
  String.length (event_name (_system_event intent_name))
  = 2 + String.length intent_name /\
  all_chars is_event_char (event_name (_system_event intent_name)) = true.
Proof.
  intros H.
  assert (all_chars is_name_char intent_name = true) as Hchars.
  { unfold _is_valid_intent_name in H.
    now destruct (all_chars is_name_char intent_name). }
  clear H. cbn [_system_event event_name].
  rewrite length_app, all_chars_app.
  assert (String.length (replace_char "." "_" (upper intent_name))
          = String.length intent_name /\
          all_chars is_event_char (replace_char "." "_" (upper intent_name))
          = true) as [-> ->]; [|now split].
  induction intent_name as [|c s IH]; [now split|].
  cbn [all_chars] in Hchars. apply andb_prop in Hchars as [Hc Hs].
  destruct (IH Hs) as [IH1 IH2].
  destruct (upper_name_char c Hc) as (c' & Hup & Hev).
  cbn [upper]. rewrite Hup, app_cons, app_empty_l.
  cbn [replace_char String.length all_chars]. now rewrite IH1, IH2, Hev.
Qed.

End UpperFacts.

(** * The messages of a predicted intent *)

(** X25. Asking for the [rich] messages gives the messages of that
    group when there are some, and otherwise what asking for the
    [default] messages gives; so it gives no message only when the
    [default] group has none either. Asking for the [default] messages
    gives the messages of that group, none when the group is missing. *)
Theorem fulfillment_messages_fallback (messages : responses_dict) :
  (forall l, group_get RICH messages = Some l -> l <> [] ->
             fulfillment_messages messages RICH = l)
  /\
  (group_get RICH messages = None \/ group_get RICH messages = Some [] ->
   fulfillment_messages messages RICH = fulfillment_messages messages DEFAULT)
  /\
  (fulfillment_messages messages RICH = [] ->
   fulfillment_messages messages DEFAULT = [])
  /\
  fulfillment_messages messages DEFAULT
  = match group_get DEFAULT messages with
    | Some l => l
    | None => []
    end.
Proof.
  unfold fulfillment_messages. cbn [IntentResponseGroup_eqb andb].
  destruct (group_get RICH messages) as [[|x l]|] eqn:E; cbn [negb];
    rewrite ?E; repeat split; try congruence; now intros [|].
Qed.

(** * The parameters of an intent class *)

Section ParameterSchemaFacts.

Variable type_str : dataclasses.field_type -> string.
Variable field_str : dataclasses.Field -> string.
Variable cls_str : string.

Notation parameter_metadata :=
  (parameter_metadata type_str field_str cls_str).
Notation parameter_schema_loop :=
  (parameter_schema_loop type_str field_str cls_str).
Notation Intent_parameter_schema :=
  (Intent_parameter_schema type_str field_str cls_str).

(** What the metadata of a field says. *)
Lemma parameter_metadata_ok (param_field : dataclasses.Field)
      (meta : IntentParameterMetadata) :
  parameter_metadata param_field = Ok meta ->
  name meta = dataclasses.name param_field /\
  (required meta = true <->
   dataclasses.default param_field = None /\
   dataclasses.default_factory param_field = None) /\
  (required meta = true -> default meta = YNull) /\
  (required meta = false -> is_list meta = true ->
   exists l, default meta = YList l) /\
  (is_list meta = true <->
   dataclasses.type param_field
   = dataclasses.GenericAlias (Some "List") [entity_cls meta]) /\
  (is_list meta = false <->
   dataclasses.type param_field = dataclasses.EntityType (entity_cls meta)).
Proof.
  unfold parameter_metadata. destruct param_field as [n t d f]. cbn.
  destruct t as [cls|[alias|] [|inner [|]]]; cbn; try discriminate;
    try (destruct (String.eqb_spec alias "List") as [->|]; cbn;
         try discriminate);
    destruct d as [d|], f as [[f|e0]|]; cbn; try discriminate;
    try (destruct f; cbn; try discriminate);
    try (destruct d; cbn; try discriminate);
    intros [= <-]; cbn; repeat split; try congruence; eauto;
    try (intros [? ?]; congruence).
Qed.

Lemma parameter_metadata_error (param_field : dataclasses.Field) (e : exn) :
  parameter_metadata param_field = Raise e ->
  exn_cls e = ValueError \/
  dataclasses.default_factory param_field = Some (Raise e).
Proof.
  unfold parameter_metadata. destruct param_field as [n t d f]. cbn.
  destruct t as [cls|[alias|] [|inner [|]]]; cbn;
    try (destruct (String.eqb alias "List"); cbn);
    try (now intros [= <-]; left);
    destruct d as [d|], f as [[f|e0]|]; cbn;
    try (destruct f; cbn); try (destruct d; cbn);
    try discriminate;
    try (now intros [= <-]; left); now intros [= <-]; right.
Qed.


Lemma parameter_schema_loop_entries (fields : list dataclasses.Field) :
  forall result schema,
    parameter_schema_loop fields result = Ok schema ->
    (forall n, (exists meta, schema !! n = Some meta) <->
               In n (map dataclasses.name fields) \/
               exists meta, result !! n = Some meta) /\
    (forall n meta,
        schema !! n = Some meta ->
        result !! n = Some meta \/
        exists param_field,
          In param_field fields /\ dataclasses.name param_field = n /\
          parameter_metadata param_field = Ok meta).
Proof.
  induction fields as [|f fields IH]; intros result schema H.
  - injection H as <-. split.
    + intros n. split; [now right | now intros [[]|H]].
    + intros n meta H. now left.
  - cbn [parameter_schema_loop] in H.
    destruct (parameter_metadata f) as [meta_f|] eqn:Ef; [|discriminate].
    cbn [bind] in H. apply IH in H as [Hdom Hval]. split.
    + intros n. rewrite Hdom. cbn [map In].
      destruct (string_dec (dataclasses.name f) n) as [<-|Hne].
      * split; [now left; left|]. intros _. right. exists meta_f.
        apply lookup_insert_Some. now left.
      * split.
        -- intros [H|(meta & H)]; [now left; right|].
           apply lookup_insert_Some in H as [[? _]|[_ H]]; [congruence|].
           right. now exists meta.
        -- intros [[H|H]|(meta & H)]; [congruence|now left|].
           right. exists meta. apply lookup_insert_Some. now right.
    + intros n meta H. apply Hval in H as [H|(pf & Hin & Hn & Hpf)].
      * apply lookup_insert_Some in H as [[<- <-]|[_ H]]; [|now left].
        right. exists f. split; [now left | now split].
      * right. exists pf. split; [now right | now split].
Qed.

Lemma parameter_schema_loop_fails (fields : list dataclasses.Field)
      (param_field : dataclasses.Field) (e : exn) :
  In param_field fields -> parameter_metadata param_field = Raise e ->
  forall result, exists e', parameter_schema_loop fields result = Raise e'.
Proof.
  intros Hin He. induction fields as [|f fields IH]; [destruct Hin|].
  intros result. cbn [parameter_schema_loop].
  destruct (parameter_metadata f) as [meta|e0] eqn:Ef; [|now exists e0].
  cbn [bind]. destruct Hin as [->|Hin]; [congruence|]. now apply IH.
Qed.

Lemma parameter_schema_loop_error (fields : list dataclasses.Field) :
  forall result e,
    parameter_schema_loop fields result = Raise e ->
    exn_cls e = ValueError \/
    exists param_field,
      In param_field fields /\
      dataclasses.default_factory param_field = Some (Raise e).
Proof.
  induction fields as [|f fields IH]; intros result e H; [discriminate|].
  cbn [parameter_schema_loop] in H.
  destruct (parameter_metadata f) as [meta|e0] eqn:Ef.
  - apply IH in H as [H|(pf & Hin & H)]; [now left|].
    right. exists pf. split; [now right | exact H].
  - injection H as <-. apply parameter_metadata_error in Ef as [H|H];
      [now left|]. right. exists f. split; [now left | exact H].
Qed.

(** X26. The schema of an intent class has an entry for each of its
    fields and for nothing else. An entry is filed under the name it
    carries and describes a field of that name: it is required exactly
    when the field has neither default nor factory, and then its
    default is [None]; it is a list exactly when the field is typed
    [List] of its entity class, and a list parameter that is not
    required has a list as default. *)
Theorem parameter_schema_entries
        (fields : list dataclasses.Field)
        (schema : gmap string IntentParameterMetadata) :
  Intent_parameter_schema (Some fields) = Ok schema ->
  (forall n, (exists meta, schema !! n = Some meta) <->
             In n (map dataclasses.name fields))
  /\
  (forall n meta,
      schema !! n = Some meta ->
      name meta = n /\
      (required meta = true -> default meta = YNull) /\
      (required meta = false -> is_list meta = true ->
       exists l, default meta = YList l) /\
      exists param_field,
        In param_field fields /\ dataclasses.name param_field = n /\
        (required meta = true <->
         dataclasses.default param_field = None /\
         dataclasses.default_factory param_field = None) /\
        dataclasses.type param_field
        = if is_list meta
          then dataclasses.GenericAlias (Some "List") [entity_cls meta]
          else dataclasses.EntityType (entity_cls meta)).
Proof.
  intros H. apply parameter_schema_loop_entries in H as [Hdom Hval]. split.
  - intros n. rewrite Hdom. split; [|now left].
    intros [H|(meta & H)]; [exact H|]. now rewrite lookup_empty in H.
  - intros n meta H. apply Hval in H as [H|(pf & Hin & Hn & Hpf)].
    { now rewrite lookup_empty in H. }
    apply parameter_metadata_ok in Hpf as (H1 & H2 & H3 & H4 & H5 & H6).
    split; [congruence|]. split; [exact H3|]. split; [exact H4|].
    exists pf. split; [exact Hin|]. split; [exact Hn|]. split; [exact H2|].
    destruct (is_list meta); [now apply H5 | now apply H6].
Qed.


(** X27. [Intent.parameter_schema] raises [KeyError] on a class that
    has no fields of its own. On a class with fields it fails where a
    field has as type an alias of [typing] other than [List] of one
    type, and where a field typed as a list has a default, given as a
    value or returned by its factory, that is not a list; what it raises
    is a [ValueError] or the exception that the factory of a field
    raised. *)
Theorem parameter_schema_rejects
        (fields : list dataclasses.Field) (param_field : dataclasses.Field)
        (_name : option string) (__args__ : list EntityClass) :
  In param_field fields ->
  dataclasses.type param_field = dataclasses.GenericAlias _name __args__ ->
  (_name <> Some "List" \/ length __args__ <> 1 ->
   exists e, Intent_parameter_schema (Some fields) = Raise e)
  /\
  (forall v,
      dataclasses.default_factory param_field = Some (Ok v) \/
      dataclasses.default_factory param_field = None /\
      dataclasses.default param_field = Some v ->
      is_list_value v = false ->
      exists e, Intent_parameter_schema (Some fields) = Raise e)
  /\
  (forall e, Intent_parameter_schema (Some fields) = Raise e ->
             exn_cls e = ValueError \/
             exists raising,
               In raising fields /\
               dataclasses.default_factory raising = Some (Raise e))
  /\
  Intent_parameter_schema None = Raise (interpreter_error KeyError).
Proof.
  intros Hin Htype. split; [|split; [|split]].
  - intros Hbad.
    assert (exists e, parameter_metadata param_field = Raise e) as [e He].
    { unfold parameter_metadata. rewrite Htype.
      destruct _name as [n|]; cbn [negb]; [|eauto].
      destruct (String.eqb_spec n "List") as [->|Hn]; cbn [negb]; [|eauto].
      destruct Hbad as [Hbad|Hbad]; [congruence|].
      destruct __args__ as [|a [|]]; cbn [bind]; eauto. now cbn in Hbad. }
    now apply (parameter_schema_loop_fails _ _ _ Hin He).
  - intros v Hv Hlist.
    assert (exists e, parameter_metadata param_field = Raise e) as [e He].
    { unfold parameter_metadata. rewrite Htype.
      destruct _name as [n|]; cbn [negb]; [|eauto].
      destruct (String.eqb n "List"); cbn [negb]; [|eauto].
      destruct __args__ as [|a [|]]; cbn [bind]; eauto.
      destruct Hv as [->|[-> ->]].
      - destruct (dataclasses.default param_field); cbn; rewrite Hlist;
          eauto.
      - cbn. rewrite Hlist. eauto. }
    now apply (parameter_schema_loop_fails _ _ _ Hin He).
  - intros e. apply parameter_schema_loop_error.
  - reflexivity.
Qed.

End ParameterSchemaFacts.

(** * The creation of an intent class *)

Lemma valid_name_squeezed (n : string) :
  fst (_is_valid_intent_name n) = true -> contains "__" n = false.
Proof.
  unfold _is_valid_intent_name.
  destruct (negb (all_chars is_name_char n)); [discriminate|].
  destruct (String.prefix "." n || String.prefix "_" n); [discriminate|].
  now destruct (contains "__" n).
Qed.

Section IntentMetaclassFacts.

Variable nonascii_upper : ascii -> string.
Variable type_str : dataclasses.field_type -> string.
Variable field_str : dataclasses.Field -> string.
Variable cls_str : string.

Notation _system_event := (_system_event nonascii_upper).
Notation Intent_parameter_schema :=
  (Intent_parameter_schema type_str field_str cls_str).
Notation _IntentMetaclass_new :=
  (_IntentMetaclass_new nonascii_upper type_str field_str cls_str).

(** The end of [__new__]: the class is made a dataclass unless it is
    one, and its parameter schema is computed. *)
Lemma new_class_fields (stmt : ClassStatement) (cls : IntentClass)
      (created : NewClass) :
  (let* __dataclass_fields__ :=
     if negb (is_dataclass stmt)
     then let* fields := dataclass_result stmt in Ok (Some fields)
     else Ok (own_dataclass_fields stmt) in
   let* _ := Intent_parameter_schema __dataclass_fields__ in
   Ok (Processed cls)) = Ok created ->
  created = Processed cls /\
  exists fields schema,
    (if is_dataclass stmt
     then own_dataclass_fields stmt = Some fields
     else dataclass_result stmt = Ok fields) /\
    Intent_parameter_schema (Some fields) = Ok schema.
Proof.
  unfold is_dataclass.
  destruct (own_dataclass_fields stmt) as [own|];
    [|destruct (inherited_dataclass_fields stmt)]; cbn [negb bind].
  - destruct (Intent_parameter_schema (Some own)) as [schema|] eqn:Es;
      [|discriminate].
    intros [= <-]. split; [reflexivity|]. now exists own, schema.
  - discriminate.
  - destruct (dataclass_result stmt) as [fields|]; [|discriminate].
    cbn [bind].
    destruct (Intent_parameter_schema (Some fields)) as [schema|] eqn:Es;
      [|discriminate].
    intros [= <-]. split; [reflexivity|]. now exists fields, schema.
Qed.

Lemma new_class_no_fields (stmt : ClassStatement) (cls : IntentClass) :
  own_dataclass_fields stmt = None ->
  inherited_dataclass_fields stmt = true ->
  (let* __dataclass_fields__ :=
     if negb (is_dataclass stmt)
     then let* fields := dataclass_result stmt in Ok (Some fields)
     else Ok (own_dataclass_fields stmt) in
   let* _ := Intent_parameter_schema __dataclass_fields__ in
   Ok (Processed cls)) = Raise (interpreter_error KeyError).
Proof. unfold is_dataclass. now intros -> ->. Qed.


End IntentMetaclassFacts.

(** * The older loader *)

Lemma map_res_ext {A B : Type} (f g : A -> res B) (l : list A) :
  (forall x, f x = g x) -> map_res f l = map_res g l.
Proof.
  intros H. induction l as [|x l IH]; [reflexivity|].
  cbn [map_res]. now rewrite H, IH.
Qed.

Section DfLoaderFacts.

Variable nonascii_word : ascii -> bool.
Variable py_str : yaml -> string.

Notation ExampleUtterance_new := (ExampleUtterance_new nonascii_word).
Notation df_ExampleUtterance_new := (df_ExampleUtterance_new nonascii_word).
Notation load_document := (load_document nonascii_word py_str).
Notation df_intent_language_data :=
  (df_intent_language_data nonascii_word py_str).

Lemma df_ExampleUtterance_new_eq (text : string) (intent : Intent) :
  (forall n meta, parameter_schema intent !! n = Some meta ->
                  is_list meta = false) ->
  df_ExampleUtterance_new text intent = ExampleUtterance_new text intent.
Proof.
  intros Hl. unfold df_ExampleUtterance_new, ExampleUtterance_new.
  rewrite df_chunks_eq by (intros m meta _; apply Hl).
  now destruct (chunks nonascii_word {| example := text; _intent := intent |}).
Qed.

Lemma df_intent_language_data_mapping
      (agent_cls : DfAgent) (intent : Intent) (d : list (yaml * yaml)) :
  (forall n meta, parameter_schema intent !! n = Some meta ->
                  is_list meta = false) ->
  df_isdir agent_cls = true ->
  df_language_file agent_cls (intent_name intent) = Some (Ok (YDict d)) ->
  d <> [] ->
  df_intent_language_data agent_cls intent
  = (let* items := py_iter (match dict_get "examples" d with
                            | Some v => v
                            | None => YList []
                            end) in
     let* examples :=
       map_res (fun s => ExampleUtterance_new (to_str py_str s) intent)
               items in
     Ok (examples, match dict_get "responses" d with
                   | Some v => v
                   | None => YList []
                   end)).
Proof.
  intros Hl Hdir Hfile Hd.
  unfold df_intent_language_data. rewrite Hdir, Hfile. cbn [negb bind].
  destruct d as [|kv d0] eqn:Ed; [congruence|]. cbn [truthy negb].
  rewrite <- Ed.
  destruct (py_iter (match dict_get "examples" d with
                     | Some v => v
                     | None => YList []
                     end)) as [items|]; [|reflexivity].
  cbn [bind].
  now rewrite (map_res_ext _ _ items
                 (fun s => df_ExampleUtterance_new_eq (to_str py_str s)
                                                      intent Hl)).
Qed.

(** X29. For an intent without list parameters and a language file
    that decodes to a non-empty mapping, the older loader builds the
    examples as the newer one does, with the same exceptions, which it
    lets through as they are, and returns the [responses] section as it
    was decoded, an empty list when there is none. So, for such an
    intent, it accepts every document that the newer loader accepts,
    with the same examples. *)
Theorem df_intent_language_data_agrees
        (agent_cls : DfAgent) (intent : Intent) (d : list (yaml * yaml)) :
  (forall n meta, parameter_schema intent !! n = Some meta ->
                  is_list meta = false) ->
  df_isdir agent_cls = true ->
  df_language_file agent_cls (intent_name intent) = Some (Ok (YDict d)) ->
  d <> [] ->
  df_intent_language_data agent_cls intent
  = (let* items := py_iter (match dict_get "examples" d with
                            | Some v => v
                            | None => YList []
                            end) in
     let* examples :=
       map_res (fun s => ExampleUtterance_new (to_str py_str s) intent)
               items in
     Ok (examples, match dict_get "responses" d with
                   | Some v => v
                   | None => YList []
                   end))
  /\
  (forall code data,
      load_document intent code (YDict d) = Ok (ByLanguage [(code, data)]) ->
      df_intent_language_data agent_cls intent
      = Ok (example_utterances data,
            match dict_get "responses" d with
            | Some v => v
            | None => YList []
            end)).
Proof.
  intros Hl Hdir Hfile Hd.
  pose proof (df_intent_language_data_mapping _ _ _ Hl Hdir Hfile Hd) as Heq.
  split; [exact Heq|]. intros code data H. rewrite Heq. clear Heq.
  unfold load_document in H.
  destruct d as [|kv d0] eqn:Ed; [congruence|]. cbn [truthy negb] in H.
  rewrite <- Ed in *.
  destruct (py_iter (match dict_get "examples" d with
                     | Some v => v
                     | None => YList []
                     end)) as [items|]; [|discriminate].
  cbn [bind] in *.
  destruct (map_res (fun s => ExampleUtterance_new (to_str py_str s) intent)
                    items) as [examples|]; [|discriminate].
  cbn [bind] in *.
  destruct (_build_responses (match dict_get "responses" d with
                              | Some v => v
                              | None => YList []
                              end)) as [built|]; [|discriminate].
  cbn [bind] in H. now injection H as <-.
Qed.

End DfLoaderFacts.

(** * The further properties at concrete inputs *)

Lemma finditer_match_is_annotation_witness :
  In {| span_start := 5; span_end := 19;
        group_name := "user_name"; group_value := "Al" |}
     (finditer ascii_only "I am $user_name{Al}!")
  /\ groups_ok ascii_only "user_name" "Al"
  /\ 19 <= String.length "I am $user_name{Al}!"
  /\ slice "I am $user_name{Al}!" 5 19 = annotation "user_name" "Al".
Proof.
  assert (In {| span_start := 5; span_end := 19;
                group_name := "user_name"; group_value := "Al" |}
             (finditer ascii_only "I am $user_name{Al}!")) as Hin
      by (vm_compute; auto).
  split; [exact Hin|].
  exact (finditer_match_is_annotation ascii_only _ _ Hin).
Defined.

Lemma chunks_without_annotation_witness :
  chunks ascii_only {| example := "It costs $5"; _intent := user_name_give |}
  = Ok [TextUtteranceChunk "It costs $5"]
  /\ finditer ascii_only "Hello" = [].
Proof.
  split.
  - apply (proj1 (chunks_without_annotation ascii_only user_name_give
                                            "It costs $5")).
    vm_compute. reflexivity.
  - apply (proj2 (chunks_without_annotation ascii_only user_name_give
                                            "Hello")).
    reflexivity.
Defined.

Lemma chunks_entities_declared_witness :
  groups_ok ascii_only "user_name" "Guido"
  /\ exists meta,
       parameter_schema user_name_give !! "user_name" = Some meta /\
       Sys_Person = entity_cls meta.
Proof.
  apply (chunks_entities_declared
           ascii_only
           {| example := "My name is $user_name{Guido}!";
              _intent := user_name_give |}
           [TextUtteranceChunk "My name is ";
            EntityUtteranceChunk Sys_Person "user_name" "Guido";
            TextUtteranceChunk "!"]).
  - vm_compute. reflexivity.
  - right. left. reflexivity.
Defined.

Lemma chunks_alternate_witness :
  alternate [TextUtteranceChunk "My name is ";
             EntityUtteranceChunk Sys_Person "user_name" "Guido";
             TextUtteranceChunk "!"].
Proof.
  apply (chunks_alternate
           ascii_only
           {| example := "My name is $user_name{Guido}!";
              _intent := user_name_give |}).
  vm_compute. reflexivity.
Defined.

Lemma chunks_empty_text_only_inside_witness :
  (exists l cls pname pvalue,
      [EntityUtteranceChunk Sys_Person "user_name" "Al"]
      = l ++ [EntityUtteranceChunk cls pname pvalue])
  /\ exists cls pname pvalue l,
       [EntityUtteranceChunk Sys_Person "user_name" "Bo"]
       = EntityUtteranceChunk cls pname pvalue :: l.
Proof.
  apply (chunks_empty_text_only_inside
           ascii_only
           {| example := "$user_name{Al}$user_name{Bo}";
              _intent := user_name_give |}
           [EntityUtteranceChunk Sys_Person "user_name" "Al";
            TextUtteranceChunk EmptyString;
            EntityUtteranceChunk Sys_Person "user_name" "Bo"]).
  - vm_compute. reflexivity.
  - reflexivity.
Defined.

Lemma build_response_type_witness :
  YStr "image" = YStr (response_type (ImageIntentResponse (YStr "a.png") YNull))
  /\ (RICH = DEFAULT ->
      exists choices,
        ImageIntentResponse (YStr "a.png") YNull = TextIntentResponse choices).
Proof.
  apply (build_response_type RICH (YStr "image") (YStr "a.png")).
  reflexivity.
Defined.

Lemma build_responses_default_is_text_witness :
  exists choices, TextIntentResponse [YStr "Hi"] = TextIntentResponse choices.
Proof.
  apply (build_responses_default_is_text
           (YDict [(YStr "default", YList [YDict [(YStr "text", YStr "Hi")]])])
           [(DEFAULT, [TextIntentResponse [YStr "Hi"]])]
           [TextIntentResponse [YStr "Hi"]]).
  - reflexivity.
  - left. reflexivity.
  - left. reflexivity.
Defined.

Lemma build_responses_quick_replies_bound_witness :
  exists n, py_len (YStr "Yes") = Ok n /\ n <= 20.
Proof.
  apply (build_responses_quick_replies_bound
           (YDict [(YStr "rich",
                    YList [YDict [(YStr "quick_replies",
                                   YList [YStr "Yes"; YStr "No"])]])])
           [(RICH, [QuickRepliesIntentResponse [YStr "Yes"; YStr "No"]])]
           RICH
           [QuickRepliesIntentResponse [YStr "Yes"; YStr "No"]]
           [YStr "Yes"; YStr "No"]).
  - reflexivity.
  - left. reflexivity.
  - left. reflexivity.
  - left. reflexivity.
Defined.

Lemma build_responses_in_order_witness :
  _build_responses
    (YDict [(YStr "rich",
             YList [YDict [(YStr "text", YStr "Hi")];
                    YDict [(YStr "image", YStr "a.png")]])])
  = Ok [(RICH, [TextIntentResponse [YStr "Hi"];
                ImageIntentResponse (YStr "a.png") YNull])].
Proof.
  apply (build_responses_in_order
           (YStr "rich") RICH
           [(YStr "text", YStr "Hi"); (YStr "image", YStr "a.png")]).
  reflexivity.
Defined.

Lemma build_responses_groups_witness :
  _build_responses (YDict [(YStr "fancy", YList [])])
  = Raise (unsupported_group (YStr "fancy") (interpreter_error ValueError))
  /\ Forall (fun kv => fst kv = YStr "default" \/ fst kv = YStr "rich")
            [(YStr "rich", YList [])].
Proof.
  split.
  - apply (proj2 (build_responses_groups [(YStr "fancy", YList [])])
             (YStr "fancy") (YList []) []);
      [reflexivity | discriminate | discriminate].
  - apply (proj1 (build_responses_groups [(YStr "rich", YList [])])
             [(RICH, [])]).
    reflexivity.
Defined.

Lemma Card_from_yaml_fields_witness :
  exists d title,
    YDict [(YStr "title", YStr "Pizza"); (YStr "link", YStr "pizza.it")]
    = YDict d /\
    Forall (fun kv => In (fst kv) [YStr "title"; YStr "subtitle";
                                   YStr "image"; YStr "link"]) d /\
    dict_get "title" d = Some title /\
    CardIntentResponse (YStr "Pizza") YNull YNull (YStr "pizza.it")
    = CardIntentResponse title (optional_kwarg "subtitle" d)
                         (optional_kwarg "image" d) (optional_kwarg "link" d).
Proof.
  apply (proj1 (proj1 (Card_from_yaml_fields
                         (YDict [(YStr "title", YStr "Pizza");
                                 (YStr "link", YStr "pizza.it")]))
                      (CardIntentResponse (YStr "Pizza") YNull YNull
                                          (YStr "pizza.it")))).
  reflexivity.
Defined.

Lemma Image_from_yaml_fields_witness :
  (exists s, YStr "a.png" = YStr s /\
             ImageIntentResponse (YStr "a.png") YNull
             = ImageIntentResponse (YStr "a.png") YNull)
  \/ exists d url,
       YStr "a.png" = YDict d /\
       Forall (fun kv => In (fst kv) [YStr "url"; YStr "title"]) d /\
       dict_get "url" d = Some url /\
       ImageIntentResponse (YStr "a.png") YNull
       = ImageIntentResponse url (optional_kwarg "title" d).
Proof.
  apply (proj1 (proj1 (Image_from_yaml_fields (YStr "a.png"))
                      (ImageIntentResponse (YStr "a.png") YNull))).
  reflexivity.
Defined.

Lemma load_document_result_witness :
  exists items responses_data built,
    py_iter (match dict_get "examples" greeting_document_entries with
             | Some v => v
             | None => YList []
             end) = Ok items /\
    dict_get "responses" greeting_document_entries = Some responses_data /\
    _build_responses responses_data = Ok built /\
    Forall (fun s => exists cs,
                chunks ascii_only {| example := to_str no_str s;
                                     _intent := user_name_give |}
                = Ok cs) items /\
    ByLanguage [(en, greeting_language_data)]
    = ByLanguage
        [(en,
          {| example_utterances :=
               map (fun s => {| example := to_str no_str s;
                                _intent := user_name_give |}) items;
             slot_filling_prompts :=
               match dict_get "slot_filling_prompts"
                              greeting_document_entries with
               | Some v => v
               | None => YDict []
               end;
             responses := ResponsesDict built |})].
Proof.
  apply (load_document_result ascii_only no_str user_name_give en
                              greeting_document_entries).
  - discriminate.
  - vm_compute. reflexivity.
Defined.

Lemma document_without_responses_fails_witness :
  exists e,
    intent_language_data ascii_only no_str ["en"]
                         (agent_with (YDict examples_only_entries))
                         user_name_give (LanguageMember en)
    = Raise (failed_to_load (intent_name user_name_give) e) /\
    (forall examples,
        (let* items := py_iter (match dict_get "examples"
                                               examples_only_entries with
                                | Some v => v
                                | None => YList []
                                end) in
         map_res (fun s => ExampleUtterance_new ascii_only (to_str no_str s)
                                                user_name_give) items)
        = Ok examples ->
        e = interpreter_error AttributeError).
Proof.
  apply (document_without_responses_fails
           ascii_only no_str ["en"] (agent_with (YDict examples_only_entries))
           user_name_give en "example_agent/language" examples_only_entries).
  - reflexivity.
  - reflexivity.
  - discriminate.
  - reflexivity.
Defined.

Lemma all_languages_agree_witness :
  exists m,
    ByLanguage [(en, greeting_language_data)] = ByLanguage m /\
    (forall c, In c (languages (agent_with (YDict greeting_document_entries))) ->
       exists single data,
         intent_language_data ascii_only no_str ["en"]
                              (agent_with (YDict greeting_document_entries))
                              user_name_give (LanguageMember c)
         = Ok single /\
         subscript single c = Ok data /\
         subscript (ByLanguage [(en, greeting_language_data)]) c = Ok data) /\
    (forall c, ~ In c (languages (agent_with (YDict greeting_document_entries))) ->
               subscript (ByLanguage [(en, greeting_language_data)]) c
               = Raise (interpreter_error KeyError)).
Proof.
  apply (all_languages_agree
           ascii_only no_str ["en"]
           (agent_with (YDict greeting_document_entries)) user_name_give).
  vm_compute. reflexivity.
Defined.

Lemma language_given_as_string_witness :
  intent_language_data ascii_only no_str ["en"]
                       (agent_with (YDict greeting_document_entries))
                       user_name_give (LanguageStr "en")
  = intent_language_data ascii_only no_str ["en"]
                         (agent_with (YDict greeting_document_entries))
                         user_name_give (LanguageMember {| value := "en" |})
  /\ intent_language_data ascii_only no_str ["en"]
                          (agent_with (YDict greeting_document_entries))
                          user_name_give (LanguageStr "xx")
     = Raise (failed_to_load (intent_name user_name_give)
                             (interpreter_error ValueError)).
Proof.
  split.
  - apply (proj1 (language_given_as_string
                    ascii_only no_str ["en"]
                    (agent_with (YDict greeting_document_entries))
                    user_name_give "en")).
    + discriminate.
    + left. reflexivity.
  - apply (proj1 (proj2 (language_given_as_string
                           ascii_only no_str ["en"]
                           (agent_with (YDict greeting_document_entries))
                           user_name_give "xx"))
             ltac:(discriminate)
             ltac:(intros [H|[]]; discriminate H)
             "example_agent/language").
    reflexivity.
Defined.

Lemma missing_language_file_witness :
  intent_language_data ascii_only no_str ["en"; "it"]
                       (agent_with (YDict greeting_document_entries))
                       user_name_give (LanguageMember {| value := "it" |})
  = Raise (failed_to_load
             (intent_name user_name_give)
             (file_not_found (intent_name user_name_give)
                             "example_agent/language" "it")).
Proof.
  apply (proj1 (missing_language_file
                  ascii_only no_str ["en"; "it"]
                  (agent_with (YDict greeting_document_entries))
                  user_name_give {| value := "it" |}
                  "example_agent/language" eq_refl)).
  reflexivity.
Defined.

Lemma valid_intent_name_iff_witness :
  all_chars is_name_char "smalltalk.user_name_give" = true
  /\ (forall c rest, "smalltalk.user_name_give" = String c rest ->
                     is_ascii_letter c = true)
  /\ (forall a b, "smalltalk.user_name_give" <> a +:+ "__" +:+ b).
Proof.
  apply (proj1 (proj1 (valid_intent_name_iff "smalltalk.user_name_give"))).
  vm_compute. reflexivity.
Defined.

Lemma intent_name_from_class_parts_witness :
  _intent_name_from_class "example_agent.smalltalk" "user_name_give"
  = "smalltalk" +:+ "." +:+ "user_name_give"
  /\ all_chars not_dot "smalltalk" = true
  /\ all_chars not_dot "user_name_give" = true.
Proof.
  apply (intent_name_from_class_parts "example_agent.smalltalk"
                                      "user_name_give").
  reflexivity.
Defined.

Lemma system_event_of_valid_name_witness :
  String.length (event_name (_system_event no_repr "test.intent_name"))
  = 2 + String.length "test.intent_name"
  /\ all_chars is_event_char
               (event_name (_system_event no_repr "test.intent_name")) = true.
Proof.
  apply (system_event_of_valid_name no_repr "test.intent_name").
  vm_compute. reflexivity.
Defined.

Lemma fulfillment_messages_fallback_witness :
  fulfillment_messages [(DEFAULT, [TextIntentResponse [YStr "Hi"]])] RICH
  = fulfillment_messages [(DEFAULT, [TextIntentResponse [YStr "Hi"]])] DEFAULT
  /\ fulfillment_messages
       [(DEFAULT, [TextIntentResponse [YStr "Hi"]]);
        (RICH, [ImageIntentResponse (YStr "a.png") YNull])] RICH
     = [ImageIntentResponse (YStr "a.png") YNull].
Proof.
  split.
  - apply (proj1 (proj2 (fulfillment_messages_fallback
                           [(DEFAULT, [TextIntentResponse [YStr "Hi"]])]))).
    left. reflexivity.
  - apply (proj1 (fulfillment_messages_fallback
                    [(DEFAULT, [TextIntentResponse [YStr "Hi"]]);
                     (RICH, [ImageIntentResponse (YStr "a.png") YNull])])).
    + reflexivity.
    + discriminate.
Defined.

Lemma df_chunks_mirrors_chunks_witness :
  df_chunks ascii_only greeting_utterance
  = Ok [UsersaysTextChunk "I am " true;
        UsersaysEntityChunk "Al" "user_name" "@Sys.Person" true]
  /\ chunks ascii_only {| example := "Hi $friend_names{Al}";
                          _intent := greet_friends |}
     = Ok [TextUtteranceChunk "Hi ";
           EntityUtteranceChunk Sys_Person "friend_names" "Al"]
  /\ df_chunks ascii_only {| example := "Hi $friend_names{Al}";
                             _intent := greet_friends |}
     = Raise (interpreter_error AttributeError).
Proof.
  split; [|split].
  - rewrite (proj1 (df_chunks_mirrors_chunks ascii_only greeting_utterance)).
    + vm_compute. reflexivity.
    + intros m meta _ H. cbn [greeting_utterance _intent] in H.
      unfold user_name_give in H. cbn [parameter_schema] in H.
      apply lookup_singleton_Some in H as [_ <-]. reflexivity.
  - vm_compute. reflexivity.
  - apply (proj2 (df_chunks_mirrors_chunks
                    ascii_only {| example := "Hi $friend_names{Al}";
                                  _intent := greet_friends |})
             [TextUtteranceChunk "Hi ";
              EntityUtteranceChunk Sys_Person "friend_names" "Al"]).
    + vm_compute. reflexivity.
    + exists {| span_start := 3; span_end := 20;
                group_name := "friend_names"; group_value := "Al" |}.
      exists {| name := "friend_names"; entity_cls := Sys_Person;
                is_list := true; required := true; default := YNull |}.
      split; [vm_compute; left; reflexivity|].
      split; vm_compute; reflexivity.
Defined.

Lemma parameter_schema_entries_witness :
  ((exists meta, parameter_schema user_name_give !! "user_name" = Some meta)
   <-> In "user_name" (map dataclasses.name [user_name_field]))
  /\ Intent_parameter_schema no_repr no_repr "user_name_give"
                             (Some [user_name_field])
     = Ok (parameter_schema user_name_give).
Proof.
  assert (Intent_parameter_schema no_repr no_repr "user_name_give"
                                  (Some [user_name_field])
          = Ok (parameter_schema user_name_give)) as H
      by (vm_compute; reflexivity).
  split; [|exact H].
  apply (proj1 (parameter_schema_entries no_repr no_repr "user_name_give"
                                         [user_name_field] _ H)).
Defined.

Lemma parameter_schema_rejects_witness :
  (exists e,
      Intent_parameter_schema no_repr no_repr "greet_friends"
                              (Some [user_name_field; friend_names_field])
      = Raise e)
  /\ Intent_parameter_schema no_repr no_repr "greet_friends"
                             (Some [nickname_field; friend_names_field])
     = Raise failing_factory
  /\ (exn_cls failing_factory = ValueError \/
      exists raising,
        In raising [nickname_field; friend_names_field] /\
        dataclasses.default_factory raising = Some (Raise failing_factory))
  /\ Intent_parameter_schema no_repr no_repr "greet_friends" None
     = Raise (interpreter_error KeyError).
Proof.
  split; [|split; [|split]].
  - apply (proj1 (proj2 (parameter_schema_rejects
                           no_repr no_repr "greet_friends"
                           [user_name_field; friend_names_field]
                           friend_names_field (Some "List") [Sys_Person]
                           ltac:(right; left; reflexivity) eq_refl))
             (YStr "nobody")).
    + right. split; reflexivity.
    + reflexivity.
  - vm_compute. reflexivity.
  - apply (proj1 (proj2 (proj2 (parameter_schema_rejects
                                  no_repr no_repr "greet_friends"
                                  [nickname_field; friend_names_field]
                                  friend_names_field (Some "List")
                                  [Sys_Person]
                                  ltac:(right; left; reflexivity) eq_refl)))).
    vm_compute. reflexivity.
  - apply (proj2 (proj2 (proj2 (parameter_schema_rejects
                                  no_repr no_repr "greet_friends"
                                  [user_name_field; friend_names_field]
                                  friend_names_field (Some "List")
                                  [Sys_Person]
                                  ltac:(right; left; reflexivity) eq_refl)))).
Defined.


Lemma df_intent_language_data_agrees_witness :
  df_intent_language_data ascii_only no_str
                          (df_agent_with (YDict greeting_document_entries))
                          user_name_give
  = Ok ([greeting_utterance],
        YDict [(YStr "default", YList [YDict [(YStr "text", YStr "Hi")]])])
  /\ df_intent_language_data ascii_only no_str
                             (df_agent_with (YDict examples_only_entries))
                             user_name_give
     = Ok ([{| example := "Hello"; _intent := user_name_give |}], YList []).
Proof.
  assert (forall n meta, parameter_schema user_name_give !! n = Some meta ->
                         is_list meta = false) as Hl.
  { intros n meta H. unfold user_name_give in H. cbn [parameter_schema] in H.
    apply lookup_singleton_Some in H as [_ <-]. reflexivity. }
  split.
  - apply (proj2 (df_intent_language_data_agrees
                    ascii_only no_str
                    (df_agent_with (YDict greeting_document_entries))
                    user_name_give greeting_document_entries
                    Hl eq_refl eq_refl ltac:(discriminate))
             en greeting_language_data).
    vm_compute. reflexivity.
  - rewrite (proj1 (df_intent_language_data_agrees
                      ascii_only no_str
                      (df_agent_with (YDict examples_only_entries))
                      user_name_give examples_only_entries
                      Hl eq_refl eq_refl ltac:(discriminate))).
    vm_compute. reflexivity.
Defined.
